(** * Garmin watch connector: a shallow embedding of the sync pipeline

    The development follows the Python sources file by file:
    - [GarminConnectSync.py]: listing, normalisation, pace derivation and the
      GPX track parser;
    - [DatabaseManager.py]: the two-table store with its dedup query;
    - [main.py]: the orchestration of one sync run.

    Python values are embedded as a small JSON-like universe ([pyval]);
    exceptions are an explicit [result] type; logging, the login flag and the
    database are threaded through a state-and-exception monad [M].  A Python
    [float] is a binary64 value, with the operations of [SpecFloat]. *)

From Stdlib Require Import ZArith QArith Qround Qabs Lqa Lia SpecFloat.
From Stdlib Require Import Bool List String Ascii DecimalString DecimalZ.
Import ListNotations.

Local Open Scope string_scope.
Local Open Scope Z_scope.

(* ===================================================================== *)
(** * Binary64 *)
(* ===================================================================== *)

Definition float : Type := spec_float.
Definition prec : Z := 53.
Definition emax : Z := 1024.

(** IEEE division and multiplication, rounding to nearest, ties to even. *)
Definition fdiv : float -> float -> float := SFdiv prec emax.
Definition fmul : float -> float -> float := SFmul prec emax.

Definition is_finite (f : float) : bool :=
  match f with
  | S754_zero _ | S754_finite _ _ _ => true
  | _ => false
  end.

Definition is_zero (f : float) : bool :=
  match f with
  | S754_zero _ => true
  | _ => false
  end.

Definition sign_of (f : float) : bool :=
  match f with
  | S754_zero s | S754_infinity s | S754_finite s _ _ => s
  | S754_nan => false
  end.

(** The value of a finite float, exactly. *)
Definition float_value (f : float) : Q :=
  match f with
  | S754_finite s m e =>
      let v := (inject_Z (Zpos m) * Qpower 2 e)%Q in
      if s then Qopp v else v
  | _ => 0%Q
  end.

(** The integer [z] as an operand of a correctly rounded operation. *)
Definition exact_int (z : Z) : float :=
  match z with
  | Z0 => S754_zero false
  | Zpos p => S754_finite false p 0
  | Zneg p => S754_finite true p 0
  end.

(** The double nearest to [m * 2^e] (ties to even); an infinity when that is
    beyond the range. *)
Definition nearest (m e : Z) (szero : bool) : float :=
  binary_normalize prec emax m e szero.

(** The double nearest to [n / d], for integers [n] and [d] other than 0. *)
Definition nearest_ratio (n d : Z) : float := fdiv (exact_int n) (exact_int d).

(** Round to the nearest integer, ties to even. *)
Definition round_half_even (x : Q) : Z :=
  let f := Qfloor x in
  match ((x - inject_Z f) ?= (1 # 2))%Q with
  | Lt => f
  | Gt => f + 1
  | Eq => if Z.even f then f else f + 1
  end.

(** [modf]: the integer part and the fraction of a finite float, both exact
    and of its sign. *)
Definition float_trunc (f : float) : Z :=
  match f with
  | S754_finite s m e =>
      let a := if 0 <=? e then Zpos m * 2 ^ e else Zpos m / 2 ^ (- e) in
      if s then - a else a
  | _ => 0
  end.

Definition float_frac (f : float) : float :=
  match f with
  | S754_finite s m e =>
      if 0 <=? e then S754_zero s
      else
        let r := Zpos m mod 2 ^ (- e) in
        nearest (if s then - r else r) e s
  | _ => f
  end.

(* ===================================================================== *)
(** * Python values, exceptions *)
(* ===================================================================== *)

(** The values that a decoded JSON document can hold.  A [PDict] is an
    association list; lookup takes the first binding of a key. *)
#[warnings="-register-all"]
Inductive pyval : Type :=
| PNone
| PBool (b : bool)
| PInt (z : Z)
| PFloat (f : float)
| PStr (s : string)
| PList (l : list pyval)
| PDict (d : list (string * pyval)).

(** The exception classes that the modelled code can meet. *)
Inductive Exn : Type :=
| AttributeError
| TypeError
| ValueError
| KeyError (k : string)
| ZeroDivisionError
| OverflowError
| ParseError
| ServiceError (what : string)
| DatabaseError (what : string).

Inductive result (A : Type) : Type :=
| Ok (a : A)
| Raise (e : Exn).
Arguments Ok {A} a.
Arguments Raise {A} e.

Definition rbind {A B} (r : result A) (k : A -> result B) : result B :=
  match r with
  | Ok a => k a
  | Raise e => Raise e
  end.

Notation "'let*' x ':=' c 'in' k" := (rbind c (fun x => k))
  (at level 10, x name, c at level 100, k at level 200).

(** ** Truthiness, numbers, strings *)

(** The numeric tower: [bool] is a subclass of [int]. *)
Inductive pynum : Type :=
| NInt (z : Z)
| NFloat (f : float).

Definition num_truthy (n : pynum) : bool :=
  match n with
  | NInt z => negb (z =? 0)
  | NFloat f => negb (is_zero f)
  end.

(** [bool(v)] *)
Definition truthy (v : pyval) : bool :=
  match v with
  | PNone => false
  | PBool b => b
  | PInt z => negb (z =? 0)
  | PFloat f => negb (is_zero f)
  | PStr s => negb (s =? "")%string
  | PList l => match l with [] => false | _ => true end
  | PDict d => match d with [] => false | _ => true end
  end.

Definition as_number (v : pyval) : option pynum :=
  match v with
  | PBool b => Some (NInt (if b then 1 else 0))
  | PInt z => Some (NInt z)
  | PFloat f => Some (NFloat f)
  | _ => None
  end.

(** [float(z)] as an operand needs it: correctly rounded, an
    [OverflowError] beyond the range. *)
Definition float_of_int (z : Z) : result float :=
  let f := nearest z 0 false in
  if is_finite f then Ok f else Raise OverflowError.

Definition to_float (n : pynum) : result float :=
  match n with
  | NInt z => float_of_int z
  | NFloat f => Ok f
  end.

(** [a / b] on two integers: the correctly rounded quotient. *)
Definition int_truediv (a b : Z) : result float :=
  if b =? 0 then Raise ZeroDivisionError
  else if a =? 0 then Ok (S754_zero (b <? 0))
  else
    let f := nearest_ratio a b in
    if is_finite f then Ok f else Raise OverflowError.

(** [x / y] on numbers.  With a float on either side both operands are
    converted first; the division of floats raises only on a zero divisor. *)
Definition num_truediv (x y : pynum) : result float :=
  match x, y with
  | NInt a, NInt b => int_truediv a b
  | _, _ =>
      let* a := to_float x in
      let* b := to_float y in
      if is_zero b then Raise ZeroDivisionError else Ok (fdiv a b)
  end.

(** [x / y] (true division) *)
Definition py_truediv (x y : pyval) : result float :=
  match as_number x, as_number y with
  | Some a, Some b => num_truediv a b
  | _, _ => Raise TypeError
  end.

(** [n > 0] on a number: false of a NaN. *)
Definition num_positive (n : pynum) : bool :=
  match n with
  | NInt z => 0 <? z
  | NFloat (S754_finite false _ _) | NFloat (S754_infinity false) => true
  | NFloat _ => false
  end.

(** [x > 0]; an operand that is not a number is a [TypeError]. *)
Definition py_gt_zero (x : pyval) : result bool :=
  match as_number x with
  | Some n => Ok (num_positive n)
  | None => Raise TypeError
  end.

(** [round(x, 2)] on a float: the decimal of two places nearest to the value
    of [x] (ties to even), read back as the nearest double; zeros, NaN and
    the infinities round to themselves. *)
Definition py_round2 (x : float) : float :=
  match x with
  | S754_finite s _ _ =>
      let n := round_half_even (float_value x * 100) in
      if n =? 0 then S754_zero s else nearest_ratio n 100
  | _ => x
  end.

Definition is_some {A} (o : option A) : bool :=
  match o with
  | Some _ => true
  | None => false
  end.

Definition is_ok {A} (r : result A) : bool :=
  match r with
  | Ok _ => true
  | Raise _ => false
  end.

(** [d.get(key, default)]; raises on a receiver that is not a mapping. *)
Fixpoint assoc (k : string) (d : list (string * pyval)) : option pyval :=
  match d with
  | [] => None
  | (k', v) :: d' => if (k' =? k)%string then Some v else assoc k d'
  end.

Definition py_get (v : pyval) (key : string) (default : pyval) : result pyval :=
  match v with
  | PDict d => Ok (match assoc key d with Some x => x | None => default end)
  | _ => Raise AttributeError
  end.

(** [d[key]] on a mapping (the code never indexes anything else). *)
Definition py_getitem (v : pyval) (key : string) : result pyval :=
  match v with
  | PDict d => match assoc key d with Some x => Ok x | None => Raise (KeyError key) end
  | _ => Raise TypeError
  end.

(** ['sub' in s] *)
Definition contains (sub s : string) : bool :=
  match index 0 sub s with
  | Some _ => true
  | None => false
  end.

(** [s.replace(c, new)] for a one-character pattern. *)
Fixpoint replace_char (c : ascii) (new : string) (s : string) : string :=
  match s with
  | EmptyString => EmptyString
  | String a s' =>
      if Ascii.eqb a c then new ++ replace_char c new s'
      else String a (replace_char c new s')
  end.

(** [v.replace('Z', new)]: only strings have the method. *)
Definition py_replace_Z (v : pyval) (new : string) : result string :=
  match v with
  | PStr s => Ok (replace_char "Z"%char new s)
  | _ => Raise AttributeError
  end.

(* ===================================================================== *)
(** * [datetime] and [timedelta] *)
(* ===================================================================== *)

(** A [datetime] is its number of microseconds since 0001-01-01T00:00:00 on
    its own wall clock, together with its UTC offset when it is aware. *)
Record datetime : Type := mkDatetime {
  dt_us : Z;
  dt_tz : option Z
}.

Definition US_PER_SECOND : Z := 1000000.
Definition US_PER_DAY : Z := 86400 * US_PER_SECOND.
(** [datetime.max] is 9999-12-31T23:59:59.999999, day 3652059 of the calendar. *)
Definition MAX_ORDINAL_DAYS : Z := 3652059.
Definition MAX_DELTA_DAYS : Z := 999999999.

(** A [timedelta] is a number of microseconds. *)
Definition timedelta_of_us (us : Z) : result Z :=
  if (Z.abs (us / US_PER_DAY) <=? MAX_DELTA_DAYS) then Ok us else Raise OverflowError.

(** [timedelta(days=n)] *)
Definition timedelta_days (n : Z) : result Z := timedelta_of_us (n * US_PER_DAY).

(** The whole number of microseconds that a left-over fraction [l] adds to
    the count [x]: the nearest, a tie going to the even total. *)
Definition whole_us (l : float) (x : Z) : Z :=
  match (Qabs (float_value l) ?= 1 # 2)%Q with
  | Lt => 0
  | Gt => if sign_of l then -1 else 1
  | Eq => if Z.odd x then (if sign_of l then -1 else 1) else 0
  end.

(** The microseconds of a float number of seconds, as the constructor of
    [timedelta] counts them: the integer part exactly, the fraction times
    [1e6] in float arithmetic, split again, and what is left rounded. *)
Definition float_seconds_us (f : float) : result Z :=
  match f with
  | S754_nan => Raise ValueError
  | S754_infinity _ => Raise OverflowError
  | _ =>
      let sum := float_trunc f * US_PER_SECOND in
      let fracpart := float_frac f in
      if is_zero fracpart then Ok sum
      else
        let dnum := fmul (nearest US_PER_SECOND 0 false) fracpart in
        let x := sum + float_trunc dnum in
        let leftover := float_frac dnum in
        Ok (x + (if is_zero leftover then 0 else whole_us leftover x))
  end.

(** [timedelta(seconds=v)] *)
Definition timedelta_seconds (v : pyval) : result Z :=
  match as_number v with
  | Some (NInt z) => timedelta_of_us (z * US_PER_SECOND)
  | Some (NFloat f) => let* us := float_seconds_us f in timedelta_of_us us
  | None => Raise TypeError
  end.

(** [d + delta] *)
Definition datetime_add (d : datetime) (delta : Z) : result datetime :=
  let us := dt_us d + delta in
  if (0 <=? us) && (us <? MAX_ORDINAL_DAYS * US_PER_DAY)
  then Ok (mkDatetime us (dt_tz d))
  else Raise OverflowError.

(** [a > b]; a naive and an aware value do not compare. *)
Definition datetime_gt (a b : datetime) : result bool :=
  match dt_tz a, dt_tz b with
  | None, None => Ok (dt_us b <? dt_us a)
  | Some oa, Some ob => Ok (dt_us b - ob * US_PER_SECOND <? dt_us a - oa * US_PER_SECOND)
  | _, _ => Raise TypeError
  end.

(* ===================================================================== *)
(** * Data model: track samples, activities, store, log *)
(* ===================================================================== *)

(** One entry of [gps_points]. *)
Record GpsPoint : Type := mkGpsPoint {
  latitude : float;
  longitude : float;
  elevation_meters : option float;
  speed_mps : option float;
  timestamp : datetime
}.

(** The nine keys of [formatted_data] that become the columns of [runs]. *)
Record RunData : Type := mkRunData {
  activity_id : string;
  start_time : datetime;
  end_time : option datetime;
  distance_meters : pyval;
  duration_seconds : pyval;
  avg_pace_seconds_per_km : option float;
  calories : pyval;
  avg_heart_rate : pyval;
  max_heart_rate : pyval
}.

(** [formatted_data] once the ['gps_points'] key has been added. *)
Record ActivityData : Type := mkActivityData {
  run_data : RunData;
  gps_points : list GpsPoint
}.

(** Rows of the tables [runs] and [gps_points]; [id] columns are serial. *)
Record RunRow : Type := mkRunRow {
  row_id : Z;
  row_data : RunData
}.

Record GpsRow : Type := mkGpsRow {
  gps_run_id : Z;
  gps_point : GpsPoint
}.

Record Store : Type := mkStore {
  runs : list RunRow;
  gps_rows : list GpsRow;
  runs_id_seq : Z
}.

(** The statements the connection is asked to run, in order. *)
Inductive DbOp : Type :=
| SqlCreateRuns
| SqlCreateGpsPoints
| SqlSelectRun (external_id : string)
| SqlInsertRun (external_id : string)
| SqlInsertGpsPoint (run : Z)
| SqlCommit
| SqlRollback
| SqlClose.

Inductive Level : Type := INFO | WARNING | ERROR.

(** One constructor per logging call of the sources, with the values that the
    message interpolates. *)
Inductive LogMsg : Type :=
| MsgLoginOk
| MsgLoginFailed (e : Exn)
| MsgNotLoggedIn
| MsgFoundTotal (n : nat)
| MsgFoundRunning (n : nat)
| MsgNoRunning
| MsgGettingDetail (id : pyval)
| MsgLatestRunError (e : Exn)
| MsgFormatted (km mins : float)
| MsgFormatError (e : Exn)
| MsgGpsRetrieved (n : nat)
| MsgGpsUnavailable (e : Exn)
| MsgGpxParseError (e : Exn)
| MsgRecentError (e : Exn)
| MsgDbConnected
| MsgDbConnectFailed (e : Exn)
| MsgTablesReady
| MsgTablesError (e : Exn)
| MsgRunInserted (id : Z)
| MsgRunInsertError (e : Exn)
| MsgGpsInserted (n : nat) (run : Z)
| MsgGpsInsertError (e : Exn)
| MsgExistsCheckError (e : Exn)
| MsgDbClosed
| MsgSyncStarting
| MsgNoCredentials
| MsgMainDbFailed
| MsgMainLoginFailed
| MsgNoNewRuns
| MsgAlreadyExists (external_id : string)
| MsgStoredGps (n : nat)
| MsgSyncCompleted
| MsgSyncFailed (e : Exn).

Record LogRecord : Type := mkLog {
  log_level : Level;
  log_msg : LogMsg
}.

(** An XML element as [xml.etree.ElementTree] presents it. *)
#[warnings="-register-all"]
Inductive Element : Type :=
| mkElement (tag : string) (attrib : list (string * string))
            (text : option string) (children : list Element).

Definition tag (e : Element) : string :=
  match e with mkElement t _ _ _ => t end.
Definition attrib (e : Element) : list (string * string) :=
  match e with mkElement _ a _ _ => a end.
Definition text (e : Element) : option string :=
  match e with mkElement _ _ t _ => t end.
Definition children (e : Element) : list Element :=
  match e with mkElement _ _ _ c => c end.

(** [e.get(name)] *)
Fixpoint attr_get (name : string) (a : list (string * string)) : option string :=
  match a with
  | [] => None
  | (k, v) :: a' => if (k =? name)%string then Some v else attr_get name a'
  end.

(** [e.iter()]: the element and its descendants in document order. *)
Fixpoint iter (e : Element) : list Element :=
  match e with
  | mkElement _ _ _ cs => e :: flat_map iter cs
  end.

(** Truthiness of an optional string ([None] and [''] are false). *)
Definition str_truthy (o : option string) : bool :=
  match o with
  | Some s => negb (s =? "")%string
  | None => false
  end.

(* ===================================================================== *)
(** * The environment of a run *)
(* ===================================================================== *)

(** Everything the sources take from outside the repository: the clock,
    library parsers, whether the database server reads a text as an
    [INTEGER] or as a [FLOAT], configuration, the server's answer to a
    connection attempt and the remote service client.  The clock is read as
    one instant for the whole run. *)
Record Env : Type := mkEnv {
  now_us : Z;
  fromisoformat : string -> option datetime;
  py_float : string -> option float;
  py_repr : pyval -> string;
  ET_fromstring : string -> result Element;
  pg_integer_in : string -> bool;
  pg_float_in : string -> bool;
  GARMIN_EMAIL : option string;
  GARMIN_PASSWORD : option string;
  db_connects : result unit;
  client_login : result unit;
  client_get_activities : Z -> Z -> result (list pyval);
  client_get_activity : pyval -> result pyval;
  client_download_activity : pyval -> result string
}.

(** The state a run threads: the log, the [GarminConnectSync] object
    ([client] set or not, [logged_in]), the database as the open transaction
    sees it, as last committed, and the statements issued so far. *)
Record St : Type := mkSt {
  st_log : list LogRecord;
  st_client : bool;
  st_logged_in : bool;
  st_db : Store;
  st_committed : Store;
  st_ops : list DbOp
}.

Definition M (A : Type) : Type := St -> St * result A.

Definition ret {A} (a : A) : M A := fun s => (s, Ok a).

Definition bind {A B} (m : M A) (k : A -> M B) : M B :=
  fun s => match m s with
           | (s', Ok a) => k a s'
           | (s', Raise e) => (s', Raise e)
           end.

Definition lift {A} (r : result A) : M A := fun s => (s, r).

Definition raise {A} (e : Exn) : M A := fun s => (s, Raise e).

(** [try: m  except Exception as e: h e] *)
Definition try_except {A} (m : M A) (h : Exn -> M A) : M A :=
  fun s => match m s with
           | (s', Ok a) => (s', Ok a)
           | (s', Raise e) => h e s'
           end.

(** [try: m  finally: f] *)
Definition try_finally {A} (m : M A) (f : M unit) : M A :=
  fun s => match m s with
           | (s', r) => match f s' with
                        | (s'', Ok _) => (s'', r)
                        | (s'', Raise e) => (s'', Raise e)
                        end
           end.

Declare Scope monad_scope.
Delimit Scope monad_scope with monad.
Notation "x <- c ;; k" := (bind c (fun x => k))
  (at level 61, c at next level, right associativity) : monad_scope.
Notation "c ;; k" := (bind c (fun _ => k))
  (at level 61, right associativity) : monad_scope.
Local Open Scope monad_scope.

Definition logging (lvl : Level) (msg : LogMsg) : M unit :=
  fun s => (mkSt (st_log s ++ [mkLog lvl msg]) (st_client s) (st_logged_in s)
                 (st_db s) (st_committed s) (st_ops s), Ok tt).

Definition get_state : M St := fun s => (s, Ok s).

Definition set_client (b : bool) : M unit :=
  fun s => (mkSt (st_log s) b (st_logged_in s) (st_db s) (st_committed s) (st_ops s), Ok tt).

Definition set_logged_in (b : bool) : M unit :=
  fun s => (mkSt (st_log s) (st_client s) b (st_db s) (st_committed s) (st_ops s), Ok tt).

(** Evaluating [self.client.<method>]: an [AttributeError] on [None]. *)
Definition self_client : M unit :=
  s <- get_state ;;
  if st_client s then ret tt else raise AttributeError.

(* ===================================================================== *)
(** * Pace derivation ([GarminConnectSync.calculate_pace]) *)
(* ===================================================================== *)

Definition calculate_pace (distance_meters duration_seconds : pyval)
  : result (option float) :=
  let* guard :=
    (if truthy distance_meters then
       if truthy duration_seconds then py_gt_zero distance_meters
       else Ok false
     else Ok false) in
  if guard then
    let* distance_km := py_truediv distance_meters (PInt 1000) in
    let* pace_seconds_per_km := py_truediv duration_seconds (PFloat distance_km) in
    Ok (Some (py_round2 pace_seconds_per_km))
  else Ok None.

(** What "rounded to 2 decimal places" asks of a float [r] for a finite
    float [x]: [r] is the double of a whole number of hundredths that is at
    most half a hundredth away from [x] (a zero of the sign of [x] when that
    number is 0). *)
Definition rounded_2dp (x r : float) : Prop :=
  exists n : Z,
    (Qabs (float_value x - (n # 100)) <= 1 # 200)%Q
    /\ r = (if n =? 0 then S754_zero (sign_of x) else nearest_ratio n 100).

(** Zero or absent, as the guard of [calculate_pace] sees it. *)
Definition zero_or_absent (v : pyval) : Prop :=
  v = PNone \/ exists n, as_number v = Some n /\ num_truthy n = false.

(* ===================================================================== *)
(** * [GarminConnectSync] *)
(* ===================================================================== *)

Section GarminConnectSync.

Variable E : Env.

(** [datetime.now()]: a naive value. *)
Definition now : datetime := mkDatetime (now_us E) None.

(** [datetime.fromisoformat(s)] *)
Definition py_fromisoformat (s : string) : result datetime :=
  match fromisoformat E s with
  | Some d => Ok d
  | None => Raise ValueError
  end.

(** [float(s)] on a string. *)
Definition float_of_str (s : string) : result float :=
  match py_float E s with
  | Some q => Ok q
  | None => Raise ValueError
  end.

(** [str(v)] *)
Definition py_str (v : pyval) : string :=
  match v with
  | PStr s => s
  | PInt z => NilZero.string_of_int (Z.to_int z)
  | PNone => "None"
  | PBool true => "True"
  | PBool false => "False"
  | _ => py_repr E v
  end.

(** [__init__]: no client yet, not logged in. *)
Definition garmin_init : M unit :=
  set_client false ;; set_logged_in false.

Definition login : M bool :=
  try_except
    (set_client true ;;
     lift (client_login E) ;;
     set_logged_in true ;;
     logging INFO MsgLoginOk ;;
     ret true)
    (fun e =>
       logging ERROR (MsgLoginFailed e) ;;
       set_logged_in false ;;
       ret false).

(** ** The track parser *)

(** The body of [for child in trkpt], threading the [point] under
    construction.  A [float] failure on an elevation text is raised to the
    caller; a timestamp that does not parse is passed over. *)
Fixpoint children_loop (cs : list Element) (point : GpsPoint) : result GpsPoint :=
  match cs with
  | [] => Ok point
  | child :: rest =>
      if contains "ele" (tag child) then
        let* ele :=
          (if str_truthy (text child) then
             let* f := float_of_str (match text child with Some t => t | None => "" end) in
             Ok (Some f)
           else Ok None) in
        children_loop rest
          (mkGpsPoint (latitude point) (longitude point) ele
                      (speed_mps point) (timestamp point))
      else if contains "time" (tag child) && str_truthy (text child) then
        match fromisoformat E
                (replace_char "Z"%char "+00:00"
                   (match text child with Some t => t | None => "" end)) with
        | Some ts =>
            children_loop rest
              (mkGpsPoint (latitude point) (longitude point)
                          (elevation_meters point) (speed_mps point) ts)
        | None => children_loop rest point
        end
      else children_loop rest point
  end.

(** One track-point with both coordinates: the [point] appended for it. *)
Definition read_trkpt (lat lon : string) (trkpt : Element) : result GpsPoint :=
  let* la := float_of_str lat in
  let* lo := float_of_str lon in
  children_loop (children trkpt) (mkGpsPoint la lo None None now).

(** The body of [for trkpt in root.iter()].  [gps_points] is the list being
    appended to; it survives an exception, which ends the loop. *)
Fixpoint trkpt_loop (elems : list Element) (gps_points : list GpsPoint)
  : list GpsPoint * option Exn :=
  match elems with
  | [] => (gps_points, None)
  | trkpt :: rest =>
      if contains "trkpt" (tag trkpt) then
        let lat := attr_get "lat" (attrib trkpt) in
        let lon := attr_get "lon" (attrib trkpt) in
        if str_truthy lat && str_truthy lon then
          match read_trkpt (match lat with Some v => v | None => "" end)
                           (match lon with Some v => v | None => "" end) trkpt with
          | Ok point => trkpt_loop rest (gps_points ++ [point])
          | Raise e => (gps_points, Some e)
          end
        else trkpt_loop rest gps_points
      else trkpt_loop rest gps_points
  end.

Definition parse_gpx_simple (gpx_data : string) : M (list GpsPoint) :=
  match ET_fromstring E gpx_data with
  | Raise e => logging WARNING (MsgGpxParseError e) ;; ret []
  | Ok root =>
      match trkpt_loop (iter root) [] with
      | (gps_points, Some e) => logging WARNING (MsgGpxParseError e) ;; ret gps_points
      | (gps_points, None) => ret gps_points
      end
  end.

Definition get_gps_data (activity_id : pyval) : M (list GpsPoint) :=
  try_except
    (self_client ;;
     gpx_data <- lift (client_download_activity E activity_id) ;;
     gps_points <- parse_gpx_simple gpx_data ;;
     logging INFO (MsgGpsRetrieved (List.length gps_points)) ;;
     ret gps_points)
    (fun e => logging WARNING (MsgGpsUnavailable e) ;; ret []).

(** ** Normalisation *)

(** The body of the [try] block of [format_activity_data]. *)
Definition format_activity_try (detailed_activity summary_activity : pyval)
  : M (option ActivityData) :=
  start_time_str <- lift (py_get summary_activity "startTimeLocal" (PStr "")) ;;
  start_time <-
    (if truthy start_time_str then
       stripped <- lift (py_replace_Z start_time_str "") ;;
       lift (py_fromisoformat stripped)
     else ret now) ;;
  duration_seconds <- lift (py_get summary_activity "duration" (PInt 0)) ;;
  end_time <-
    (if truthy duration_seconds then
       delta <- lift (timedelta_seconds duration_seconds) ;;
       e <- lift (datetime_add start_time delta) ;;
       ret (Some e)
     else ret None) ;;
  distance_meters <- lift (py_get summary_activity "distance" (PInt 0)) ;;
  avg_pace <- lift (calculate_pace distance_meters duration_seconds) ;;
  activity_id <- lift (py_get summary_activity "activityId" PNone) ;;
  calories <- lift (py_get summary_activity "calories" (PInt 0)) ;;
  avg_hr <- lift (py_get summary_activity "averageHR" PNone) ;;
  max_hr <- lift (py_get summary_activity "maxHR" PNone) ;;
  let formatted_data :=
    mkRunData (py_str activity_id) start_time end_time distance_meters
              duration_seconds avg_pace calories avg_hr max_hr in
  gps_points <- get_gps_data activity_id ;;
  km <- lift (py_truediv distance_meters (PInt 1000)) ;;
  mins <- lift (py_truediv duration_seconds (PInt 60)) ;;
  logging INFO (MsgFormatted (py_round2 km) (py_round2 mins)) ;;
  ret (Some (mkActivityData formatted_data gps_points)).

Definition format_activity_data (detailed_activity summary_activity : pyval)
  : M (option ActivityData) :=
  try_except
    (format_activity_try detailed_activity summary_activity)
    (fun e => logging ERROR (MsgFormatError e) ;; ret None).

(** ** Listing *)

(** [v == 'running'] *)
Definition is_running_key (v : pyval) : bool :=
  match v with
  | PStr s => (s =? "running")%string
  | _ => false
  end.

(** The filter loop of [get_latest_run]. *)
Fixpoint filter_running (activities : list pyval) : result (list pyval) :=
  match activities with
  | [] => Ok []
  | activity :: rest =>
      let* activity_type := py_get activity "activityType" (PDict []) in
      let* keep :=
        (if truthy activity_type then
           let* k := py_get activity_type "typeKey" PNone in
           Ok (is_running_key k)
         else Ok false) in
      let* running_activities := filter_running rest in
      Ok (if keep then activity :: running_activities else running_activities)
  end.

Definition get_latest_run : M (option ActivityData) :=
  s <- get_state ;;
  if negb (st_logged_in s) then
    logging ERROR MsgNotLoggedIn ;; ret None
  else
    try_except
      (self_client ;;
       activities <- lift (client_get_activities E 0 100) ;;
       logging INFO (MsgFoundTotal (List.length activities)) ;;
       running_activities <- lift (filter_running activities) ;;
       logging INFO (MsgFoundRunning (List.length running_activities)) ;;
       match running_activities with
       | [] => logging INFO MsgNoRunning ;; ret None
       | latest_run :: _ =>
           activity_id <- lift (py_getitem latest_run "activityId") ;;
           logging INFO (MsgGettingDetail activity_id) ;;
           detailed_activity <- lift (client_get_activity E activity_id) ;;
           format_activity_data detailed_activity latest_run
       end)
      (fun e => logging ERROR (MsgLatestRunError e) ;; ret None).

(** The date filter loop of [get_activities_since]. *)
Fixpoint recent_loop (cutoff_date : datetime) (activities : list pyval)
  : result (list pyval) :=
  match activities with
  | [] => Ok []
  | activity :: rest =>
      let* start_time_str := py_get activity "startTimeLocal" (PStr "") in
      let* keep :=
        (if truthy start_time_str then
           let* stripped := py_replace_Z start_time_str "" in
           let* start_time := py_fromisoformat stripped in
           datetime_gt start_time cutoff_date
         else Ok false) in
      let* recent_activities := recent_loop cutoff_date rest in
      Ok (if keep then activity :: recent_activities else recent_activities)
  end.

Definition get_activities_since (days_back : Z) : M (list pyval) :=
  s <- get_state ;;
  if negb (st_logged_in s) then
    logging ERROR MsgNotLoggedIn ;; ret []
  else
    try_except
      (self_client ;;
       activities <- lift (client_get_activities E 0 (days_back * 10)) ;;
       delta <- lift (timedelta_days days_back) ;;
       cutoff_date <- lift (datetime_add now (- delta)) ;;
       lift (recent_loop cutoff_date activities))
      (fun e => logging ERROR (MsgRecentError e) ;; ret []).

End GarminConnectSync.

(* ===================================================================== *)
(** * [DatabaseManager] *)
(* ===================================================================== *)

(** The store is modelled with the constraints its schema declares: for
    [runs], [activity_id VARCHAR(50) UNIQUE], the serial [id] and the types
    of the other columns; for [gps_points], the foreign key of [run_id] and
    the [DECIMAL] ranges of the coordinates.  The serial is a sequence: it
    is not part of a transaction, so a rollback does not give a number
    back. *)

Definition with_db (s : St) (db : Store) : St :=
  mkSt (st_log s) (st_client s) (st_logged_in s) db (st_committed s) (st_ops s).

(** [cursor.execute(...)]: the statement is recorded. *)
Definition db_execute (op : DbOp) : M unit :=
  fun s => (mkSt (st_log s) (st_client s) (st_logged_in s)
                 (st_db s) (st_committed s) (st_ops s ++ [op]), Ok tt).

(** [connection.commit()] *)
Definition db_commit : M unit :=
  fun s => (mkSt (st_log s) (st_client s) (st_logged_in s)
                 (st_db s) (st_db s) (st_ops s ++ [SqlCommit]), Ok tt).

(** The store once the open transaction is given up: the rows as last
    committed, the sequence where it stands. *)
Definition rolled_back (s : St) : Store :=
  mkStore (runs (st_committed s)) (gps_rows (st_committed s)) (runs_id_seq (st_db s)).

(** [connection.rollback()] *)
Definition db_rollback : M unit :=
  fun s => (mkSt (st_log s) (st_client s) (st_logged_in s)
                 (rolled_back s) (rolled_back s) (st_ops s ++ [SqlRollback]), Ok tt).

Definition has_activity (external_id : string) (r : RunRow) : bool :=
  (activity_id (row_data r) =? external_id)%string.

(** [SELECT id FROM runs WHERE activity_id = %s] followed by [fetchone()]. *)
Definition select_run (external_id : string) (db : Store) : option Z :=
  match find (has_activity external_id) (runs db) with
  | Some r => Some (row_id r)
  | None => None
  end.

Definition INT4_MIN : Z := -2147483648.
Definition INT4_MAX : Z := 2147483647.

Fixpoint all_spaces (s : string) : bool :=
  match s with
  | EmptyString => true
  | String c r => Ascii.eqb c " "%char && all_spaces r
  end.

Fixpoint has_nul (s : string) : bool :=
  match s with
  | EmptyString => false
  | String c r => Ascii.eqb c "000"%char || has_nul r
  end.

(** A text stored in a [VARCHAR(50)] column: as it is up to 50 characters;
    cut to 50 when what exceeds them is spaces only; refused otherwise, and
    when it holds a NUL character. *)
Definition varchar50 (s : string) : option string :=
  if has_nul s then None
  else if (String.length s <=? 50)%nat then Some s
  else if all_spaces (substring 50 (String.length s - 50) s) then Some (substring 0 50 s)
  else None.

Section Columns.

Variable E : Env.

(** A value bound to an [INTEGER] column.  The driver sends [None] as NULL,
    an [int] under the smallest integer type that holds it, a [float] as a
    double, a [bool] as a boolean and a [str] untyped; it cannot send a
    [dict].  The server range-checks an integer, rounds a double to the
    nearest integer (ties to even) and range-checks that, reads an untyped
    text with the input function of the column, and has no assignment cast
    from a boolean or from an array. *)
Definition integer_column_accepts (v : pyval) : bool :=
  match v with
  | PNone => true
  | PInt z => (INT4_MIN <=? z) && (z <=? INT4_MAX)
  | PFloat f =>
      is_finite f
      && (INT4_MIN <=? round_half_even (float_value f))
      && (round_half_even (float_value f) <=? INT4_MAX)
  | PStr s => negb (has_nul s) && pg_integer_in E s
  | PBool _ | PList _ | PDict _ => false
  end.

(** A value bound to a [FLOAT] column: any double; an integer unless it is
    beyond the range of the doubles. *)
Definition float_column_accepts (v : pyval) : bool :=
  match v with
  | PNone => true
  | PInt z => is_finite (nearest z 0 false)
  | PFloat _ => true
  | PStr s => negb (has_nul s) && pg_float_in E s
  | PBool _ | PList _ | PDict _ => false
  end.

(** The columns of [runs] other than the identifier accept the record. *)
Definition columns_accept (d : RunData) : bool :=
  float_column_accepts (distance_meters d)
  && integer_column_accepts (duration_seconds d)
  && integer_column_accepts (calories d)
  && integer_column_accepts (avg_heart_rate d)
  && integer_column_accepts (max_heart_rate d).

(** The record of a row, when the values can be bound and cast to the
    columns: the identifier in the form its column gives it, which is what
    the dedup query compares; the other values as they were bound (the
    program never reads them back). *)
Definition stored_form (d : RunData) : option RunData :=
  match varchar50 (activity_id d) with
  | Some id =>
      if columns_accept d then
        Some (mkRunData id (start_time d) (end_time d) (distance_meters d)
                        (duration_seconds d) (avg_pace_seconds_per_km d)
                        (calories d) (avg_heart_rate d) (max_heart_rate d))
      else None
  | None => None
  end.

(** [INSERT INTO runs ... RETURNING id].  Values that cannot be bound or cast
    are refused before the statement runs; a row that runs into the [UNIQUE]
    constraint is refused after it has drawn its serial number. *)
Definition sql_insert_run (d : RunData) : M Z :=
  fun s =>
    let db := st_db s in
    match stored_form d with
    | None => (s, Raise (DatabaseError "data_exception"))
    | Some row =>
        let id := runs_id_seq db in
        if existsb (has_activity (activity_id row)) (runs db) then
          (with_db s (mkStore (runs db) (gps_rows db) (id + 1)),
           Raise (DatabaseError "unique_violation"))
        else
          (with_db s (mkStore (runs db ++ [mkRunRow id row]) (gps_rows db) (id + 1)),
           Ok id)
    end.

End Columns.

(** Round to the nearest integer, ties away from zero (SQL [numeric]). *)
Definition round_half_away (x : Q) : Z :=
  let n := Qfloor (Qabs x + (1 # 2)) in
  if Qle_bool 0 x then n else - n.

(** The power of ten at or below a positive [q]: the [k] with
    [10^k <= q < 10^(k+1)], searched upwards from [k]. *)
Fixpoint decimal_exponent_from (fuel : nat) (k : Z) (q : Q) : Z :=
  match fuel with
  | O => k
  | S fuel' =>
      if Qle_bool (Qpower 10 (k + 1)) q then decimal_exponent_from fuel' (k + 1) q
      else k
  end.

(** No double that is not zero is below [10^-324] or reaches [10^309]. *)
Definition decimal_exponent (q : Q) : Z := decimal_exponent_from 640 (-324) q.

(** A double cast to [numeric]: the decimal of 15 significant digits
    nearest to it (ties to even). *)
Definition decimal15 (f : float) : Q :=
  match f with
  | S754_finite s m e =>
      let q := (inject_Z (Zpos m) * Qpower 2 e)%Q in
      let k := decimal_exponent q in
      let d := (inject_Z (round_half_even (q * Qpower 10 (14 - k))) * Qpower 10 (k - 14))%Q in
      if s then Qopp d else d
  | _ => 0%Q
  end.

(** Does the double [x] fit [DECIMAL(precision, scale)]?  It is cast to
    [numeric] and rounded to the scale; a NaN passes whatever the precision,
    an infinity never does. *)
Definition numeric_fits (precision scale : Z) (x : float) : bool :=
  match x with
  | S754_nan => true
  | S754_infinity _ => false
  | _ => Z.abs (round_half_away (decimal15 x * inject_Z (10 ^ scale))) <? 10 ^ precision
  end.

(** [INSERT INTO gps_points ...] for one point. *)
Definition sql_insert_gps_point (run : Z) (p : GpsPoint) : M unit :=
  fun s =>
    let db := st_db s in
    if negb (existsb (fun r => row_id r =? run) (runs db)) then
      (s, Raise (DatabaseError "foreign_key_violation"))
    else if negb (numeric_fits 10 8 (latitude p) && numeric_fits 11 8 (longitude p)) then
      (s, Raise (DatabaseError "numeric_value_out_of_range"))
    else
      (with_db s (mkStore (runs db) (gps_rows db ++ [mkGpsRow run p]) (runs_id_seq db)),
       Ok tt).

Section DatabaseManager.

Variable E : Env.

Definition connect : M bool :=
  try_except
    (lift (db_connects E) ;;
     logging INFO MsgDbConnected ;;
     ret true)
    (fun e => logging ERROR (MsgDbConnectFailed e) ;; ret false).

Definition create_tables : M unit :=
  try_except
    (db_execute SqlCreateRuns ;;
     db_execute SqlCreateGpsPoints ;;
     db_commit ;;
     logging INFO MsgTablesReady)
    (fun e => logging ERROR (MsgTablesError e) ;; db_rollback).

Definition insert_run (d : RunData) : M (option Z) :=
  try_except
    (db_execute (SqlInsertRun (activity_id d)) ;;
     run_id <- sql_insert_run E d ;;
     db_commit ;;
     logging INFO (MsgRunInserted run_id) ;;
     ret (Some run_id))
    (fun e => logging ERROR (MsgRunInsertError e) ;; db_rollback ;; ret None).

Fixpoint insert_gps_loop (run_id : Z) (points : list GpsPoint) : M unit :=
  match points with
  | [] => ret tt
  | point :: rest =>
      db_execute (SqlInsertGpsPoint run_id) ;;
      sql_insert_gps_point run_id point ;;
      insert_gps_loop run_id rest
  end.

Definition insert_gps_points (run_id : Z) (points : list GpsPoint) : M unit :=
  try_except
    (insert_gps_loop run_id points ;;
     db_commit ;;
     logging INFO (MsgGpsInserted (List.length points) run_id))
    (fun e => logging ERROR (MsgGpsInsertError e) ;; db_rollback).

Definition get_activity_by_id (external_id : string) : M (option Z) :=
  try_except
    (db_execute (SqlSelectRun external_id) ;;
     s <- get_state ;;
     ret (select_run external_id (st_db s)))
    (fun e => logging ERROR (MsgExistsCheckError e) ;; ret None).

(** Closing the connection discards what was not committed. *)
Definition close : M unit :=
  (fun s => (mkSt (st_log s) (st_client s) (st_logged_in s)
                  (rolled_back s) (rolled_back s) (st_ops s ++ [SqlClose]), Ok tt)) ;;
  logging INFO MsgDbClosed.

End DatabaseManager.

(* ===================================================================== *)
(** * [main] *)
(* ===================================================================== *)

Section Main.

Variable E : Env.

(** The body of the [try] block of [main]. *)
Definition main_try : M unit :=
  ok <- login E ;;
  if negb ok then logging ERROR MsgMainLoginFailed
  else
    latest <- get_latest_run E ;;
    match latest with
    | None => logging INFO MsgNoNewRuns
    | Some activity_data =>
        existing_activity <- get_activity_by_id (activity_id (run_data activity_data)) ;;
        match existing_activity with
        | Some _ =>
            logging INFO (MsgAlreadyExists (activity_id (run_data activity_data)))
        | None =>
            let points := gps_points activity_data in
            run_id <- insert_run E (run_data activity_data) ;;
            (match run_id, points with
             | Some id, _ :: _ =>
                 if id =? 0 then ret tt
                 else
                   insert_gps_points id points ;;
                   logging INFO (MsgStoredGps (List.length points))
             | _, _ => ret tt
             end) ;;
            logging INFO MsgSyncCompleted
        end
    end.

Definition main : M unit :=
  logging INFO MsgSyncStarting ;;
  if negb (str_truthy (GARMIN_EMAIL E)) || negb (str_truthy (GARMIN_PASSWORD E)) then
    logging ERROR MsgNoCredentials
  else
    connected <- connect E ;;
    if negb connected then logging ERROR MsgMainDbFailed
    else
      create_tables ;;
      garmin_init ;;
      try_finally
        (try_except main_try (fun e => logging ERROR (MsgSyncFailed e)))
        close.

End Main.

(* ===================================================================== *)
(** * A concrete environment for examples *)
(* ===================================================================== *)

(** The general results below hold for every [Env].  The examples need one
    to run in: a calendar parser for the plain [YYYY-MM-DD?HH:MM:SS] shape
    (with an optional [+HH:MM] offset), a decimal parser, a reader for a
    small subset of XML, and a client that serves a fixed listing. *)

Module Example.

Definition digit (c : ascii) : option Z :=
  let n := Z.of_nat (nat_of_ascii c) in
  if (48 <=? n) && (n <=? 57) then Some (n - 48) else None.

Fixpoint number (s : string) (acc : Z) : option Z :=
  match s with
  | EmptyString => Some acc
  | String c r =>
      match digit c with
      | Some d => number r (acc * 10 + d)
      | None => None
      end
  end.

(** The [len] digits of [s] from [pos], as a number. *)
Definition field (s : string) (pos len : nat) : option Z :=
  let t := substring pos len s in
  if (String.length t =? len)%nat && negb (t =? "")%string then number t 0 else None.

Definition char_at (s : string) (pos : nat) (c : ascii) : bool :=
  match get pos s with
  | Some a => Ascii.eqb a c
  | None => false
  end.

Definition is_leap (y : Z) : bool :=
  ((y mod 4 =? 0) && negb (y mod 100 =? 0)) || (y mod 400 =? 0).

Definition days_in_month (y m : Z) : Z :=
  if m =? 2 then (if is_leap y then 29 else 28)
  else if (m =? 4) || (m =? 6) || (m =? 9) || (m =? 11) then 30 else 31.

Fixpoint days_before_month (y : Z) (m : nat) : Z :=
  match m with
  | O => 0
  | S m' => days_before_month y m' + days_in_month y (Z.of_nat m)
  end.

(** Days from 0001-01-01 to the given date. *)
Definition days_from_civil (y m d : Z) : Z :=
  let y' := y - 1 in
  y' * 365 + y' / 4 - y' / 100 + y' / 400
  + days_before_month y (Z.to_nat (m - 1)) + (d - 1).

Definition parse_date (s : string) : option Z :=
  match field s 0 4, field s 5 2, field s 8 2 with
  | Some y, Some m, Some d =>
      if char_at s 4 "-" && char_at s 7 "-"
         && (1 <=? y) && (1 <=? m) && (m <=? 12)
         && (1 <=? d) && (d <=? days_in_month y m)
      then Some (days_from_civil y m d * US_PER_DAY) else None
  | _, _, _ => None
  end.

(** [HH:MM:SS] at position [pos]. *)
Definition parse_clock (s : string) (pos : nat) : option Z :=
  match field s pos 2, field s (pos + 3) 2, field s (pos + 6) 2 with
  | Some h, Some mi, Some se =>
      if char_at s (pos + 2) ":" && char_at s (pos + 5) ":"
         && (h <? 24) && (mi <? 60) && (se <? 60)
      then Some ((h * 3600 + mi * 60 + se) * US_PER_SECOND) else None
  | _, _, _ => None
  end.

(** [+HH:MM] or [-HH:MM] at position [pos], in seconds. *)
Definition parse_offset (s : string) (pos : nat) : option Z :=
  match field s (pos + 1) 2, field s (pos + 4) 2 with
  | Some h, Some mi =>
      if char_at s (pos + 3) ":" && (h <? 24) && (mi <? 60) then
        if char_at s pos "+" then Some (h * 3600 + mi * 60)
        else if char_at s pos "-" then Some (- (h * 3600 + mi * 60))
        else None
      else None
  | _, _ => None
  end.

Definition iso_parse (s : string) : option datetime :=
  match String.length s with
  | 10%nat =>
      match parse_date s with
      | Some d => Some (mkDatetime d None)
      | None => None
      end
  | 19%nat =>
      match parse_date (substring 0 10 s), parse_clock s 11 with
      | Some d, Some t => Some (mkDatetime (d + t) None)
      | _, _ => None
      end
  | 25%nat =>
      match parse_date (substring 0 10 s), parse_clock s 11, parse_offset s 19 with
      | Some d, Some t, Some o => Some (mkDatetime (d + t) (Some o))
      | _, _, _ => None
      end
  | _ => None
  end.

(** Decimal literals [[-]digits[.digits]]. *)
Definition dec_parse (s : string) : option Q :=
  let (neg, body) :=
    match s with
    | String "-" r => (true, r)
    | _ => (false, s)
    end in
  let (whole, frac) :=
    match index 0 "." body with
    | Some i => (substring 0 i body,
                 substring (i + 1) (String.length body - i - 1) body)
    | None => (body, "")
    end in
  if (whole =? "")%string then None
  else
    match number whole 0, number frac 0 with
    | Some w, Some f =>
        let scale := 10 ^ Z.of_nat (String.length frac) in
        let q := Qred ((w * scale + f) # Z.to_pos scale) in
        Some (if neg then Qred (- q) else q)
    | _, _ => None
    end.

(** [float] on such a literal: the nearest double. *)
Definition float_parse (s : string) : option float :=
  match dec_parse s with
  | Some q =>
      Some (if Qnum q =? 0 then S754_zero false else nearest_ratio (Qnum q) (Zpos (Qden q)))
  | None => None
  end.

(** *** A reader for a subset of XML

    Elements, quoted attributes and character data; no prolog,
    comments, entities or namespaces.  Anything else is a [ParseError]. *)

Inductive Token : Type :=
| TOpen (name : string) (attrs : list (string * string)) (closed : bool)
| TClose (name : string)
| TText (s : string).

Inductive AttrMode : Type :=
| ASkip
| AName (acc : string)
| AValue (name : string)
| AQuoted (quote : ascii) (name : string) (acc : string).

Definition is_space (c : ascii) : bool :=
  Ascii.eqb c " " || Ascii.eqb c "010" || Ascii.eqb c "009" || Ascii.eqb c "013".

(** Either quotation mark opens an attribute value. *)
Definition is_quote (c : ascii) : bool :=
  Ascii.eqb c "034" || Ascii.eqb c "'".

Fixpoint attrs (s : string) (m : AttrMode) (out : list (string * string))
  : option (list (string * string)) :=
  match s with
  | EmptyString =>
      match m with
      | ASkip => Some (rev out)
      | _ => None
      end
  | String c r =>
      match m with
      | ASkip =>
          if is_space c then attrs r ASkip out
          else attrs r (AName (String c EmptyString)) out
      | AName acc =>
          if Ascii.eqb c "=" then attrs r (AValue acc) out
          else if is_space c then None
          else attrs r (AName (acc ++ String c EmptyString)) out
      | AValue name =>
          if is_quote c then attrs r (AQuoted c name EmptyString) out else None
      | AQuoted q name acc =>
          if Ascii.eqb c q then attrs r ASkip ((name, acc) :: out)
          else attrs r (AQuoted q name (acc ++ String c EmptyString)) out
      end
  end.

(** The name in front of the first blank of a tag's inside, and the rest. *)
Fixpoint split_name (s : string) : string * string :=
  match s with
  | EmptyString => (EmptyString, EmptyString)
  | String c r =>
      if is_space c then (EmptyString, r)
      else let (n, rest) := split_name r in (String c n, rest)
  end.

(** The token for what stands between [<] and [>]. *)
Definition tag_token (inside : string) : option Token :=
  match inside with
  | EmptyString => None
  | String "/" name => if (name =? "")%string then None else Some (TClose name)
  | _ =>
      let n := String.length inside in
      let closed := char_at inside (n - 1) "/" in
      let body := if closed then substring 0 (n - 1) inside else inside in
      let (name, rest) := split_name body in
      if (name =? "")%string then None
      else
        match attrs rest ASkip [] with
        | Some a => Some (TOpen name a closed)
        | None => None
        end
  end.

Fixpoint tokens (fuel : nat) (s : string) : option (list Token) :=
  match fuel with
  | O => match s with EmptyString => Some [] | _ => None end
  | S fuel' =>
      match s with
      | EmptyString => Some []
      | String "<" r =>
          match index 0 ">" r with
          | Some i =>
              match tag_token (substring 0 i r),
                    tokens fuel' (substring (i + 1) (String.length r - i - 1) r) with
              | Some t, Some ts => Some (t :: ts)
              | _, _ => None
              end
          | None => None
          end
      | _ =>
          match index 0 "<" s with
          | Some i =>
              match tokens fuel' (substring i (String.length s - i) s) with
              | Some ts => Some (TText (substring 0 i s) :: ts)
              | None => None
              end
          | None => Some [TText s]
          end
      end
  end.

(** An element being read: name, attributes, text and children so far
    (latest first). *)
Record Frame : Type := mkFrame {
  f_name : string;
  f_attrs : list (string * string);
  f_text : option string;
  f_children : list Element
}.

Definition close_frame (f : Frame) : Element :=
  mkElement (f_name f) (f_attrs f) (f_text f) (rev (f_children f)).

Definition add_child (e : Element) (f : Frame) : Frame :=
  mkFrame (f_name f) (f_attrs f) (f_text f) (e :: f_children f).

Fixpoint all_space (s : string) : bool :=
  match s with
  | EmptyString => true
  | String c r => is_space c && all_space r
  end.

Fixpoint build (ts : list Token) (stack : list Frame) (root : option Element)
  : option Element :=
  match ts with
  | [] => match stack with [] => root | _ => None end
  | TText s :: rest =>
      match stack with
      | [] => if all_space s then build rest stack root else None
      | f :: up =>
          match f_children f with
          | [] => build rest (mkFrame (f_name f) (f_attrs f) (Some s) [] :: up) root
          | _ => build rest stack root
          end
      end
  | TOpen name a closed :: rest =>
      match stack, root with
      | [], Some _ => None
      | [], None =>
          if closed then build rest [] (Some (mkElement name a None []))
          else build rest [mkFrame name a None []] None
      | f :: up, _ =>
          if closed then build rest (add_child (mkElement name a None []) f :: up) root
          else build rest (mkFrame name a None [] :: stack) root
      end
  | TClose name :: rest =>
      match stack with
      | [] => None
      | f :: up =>
          if (f_name f =? name)%string then
            match up with
            | [] => build rest [] (Some (close_frame f))
            | g :: up' => build rest (add_child (close_frame f) g :: up') root
            end
          else None
      end
  end.

Definition xml_read (s : string) : result Element :=
  match tokens (String.length s) s with
  | Some ts =>
      match build ts [] None with
      | Some e => Ok e
      | None => Raise ParseError
      end
  | None => Raise ParseError
  end.

(** Integer literals [[+-]digits] within the range of [INTEGER]. *)
Definition int_in (s : string) : bool :=
  let (neg, body) :=
    match s with
    | String "-" r => (true, r)
    | String "+" r => (false, r)
    | _ => (false, s)
    end in
  if (body =? "")%string then false
  else
    match number body 0 with
    | Some n => if neg then n <=? 2147483648 else n <=? 2147483647
    | None => false
    end.

(** 2024-01-08T12:00:00 *)
Definition noon : Z :=
  Eval vm_compute in
    match iso_parse "2024-01-08T12:00:00" with
    | Some d => dt_us d
    | None => 0
    end.

(** An environment with credentials, a reachable database and a client whose
    listing is [activities] whatever the window, whose detail record is empty
    and whose track download is [track]. *)
Definition env (activities : list pyval) (track : result string) : Env :=
  mkEnv noon iso_parse float_parse (fun _ => "<object>") xml_read
        int_in (fun s => is_some (dec_parse s))
        (Some "runner@example.org") (Some "secret")
        (Ok tt) (Ok tt)
        (fun _ _ => Ok activities)
        (fun _ => Ok (PDict []))
        (fun _ => track).

(** A summary record as the service lists it, and variations of it. *)
Definition run_42 : list (string * pyval) :=
  [("activityId", PInt 42);
   ("activityType", PDict [("typeKey", PStr "running")]);
   ("startTimeLocal", PStr "2024-01-01T06:00:00");
   ("distance", PInt 10000);
   ("duration", PInt 3000);
   ("averageHR", PInt 152)].

Definition run_42_bad_start : list (string * pyval) :=
  [("activityId", PInt 42);
   ("activityType", PDict [("typeKey", PStr "running")]);
   ("startTimeLocal", PStr "yesterday morning");
   ("distance", PInt 10000);
   ("duration", PInt 3000)].

Definition run_42_no_start : list (string * pyval) :=
  [("activityId", PInt 42);
   ("activityType", PDict [("typeKey", PStr "running")]);
   ("distance", PInt 10000);
   ("duration", PInt 3000)].

Definition run_without_id : list (string * pyval) :=
  [("activityType", PDict [("typeKey", PStr "running")]);
   ("startTimeLocal", PStr "2024-01-01T06:00:00");
   ("distance", PInt 10000);
   ("duration", PInt 3000)].


Definition run_1_day_ago : pyval :=
  PDict [("activityId", PInt 201);
         ("activityType", PDict [("typeKey", PStr "running")]);
         ("startTimeLocal", PStr "2024-01-07 12:00:00")].


Definition run_40_days_ago : pyval :=
  PDict [("activityId", PInt 203);
         ("activityType", PDict [("typeKey", PStr "running")]);
         ("startTimeLocal", PStr "2023-11-29 12:00:00")].

(** Runs of today whose start time is left out, or empty. *)
Definition run_no_start : pyval :=
  PDict [("activityId", PInt 204);
         ("activityType", PDict [("typeKey", PStr "running")])].

Definition run_empty_start : pyval :=
  PDict [("activityId", PInt 205);
         ("activityType", PDict [("typeKey", PStr "running")]);
         ("startTimeLocal", PStr "")].

(** An environment whose service has no track to offer. *)
Definition no_track : Env := env [] (Raise (ServiceError "no track")).

(** The service lists one run, [run_42], with a one-point track. *)
Definition one_run : Env :=
  env [PDict run_42] (Ok "<gpx><trk><trkpt lat='47.5' lon='8.5'/></trk></gpx>").



(** A fresh process: empty log, no client, empty tables, serial at 1. *)
Definition empty_store : Store := mkStore [] [] 1.
Definition fresh : St := mkSt [] false false empty_store empty_store [].
(** The same once [login] has succeeded. *)
Definition logged_in : St := mkSt [] true true empty_store empty_store [].

End Example.

(* ===================================================================== *)
(** * Vocabulary of the statements *)
(* ===================================================================== *)

(** A track-point, as the parser recognises one. *)
Definition is_trkpt (e : Element) : bool := contains "trkpt" (tag e).

(** The track-point carries both coordinate attributes. *)
Definition has_coordinates (e : Element) : bool :=
  is_some (attr_get "lat" (attrib e)) && is_some (attr_get "lon" (attrib e)).

(** A track-point that the parser goes on to read: both coordinate
    attributes are there and not empty. *)
Definition eligible (e : Element) : bool :=
  is_trkpt e
  && str_truthy (attr_get "lat" (attrib e))
  && str_truthy (attr_get "lon" (attrib e)).

(** The text of an element, empty when it has none. *)
Definition text_of (c : Element) : string :=
  match text c with
  | Some t => t
  | None => ""
  end.

(** A child that is taken for an elevation. *)
Definition is_ele (c : Element) : bool := contains "ele" (tag c).

Section TrackVocabulary.

Variable E : Env.

(** An elevation child whose text is there and is not a number. *)
Definition bad_elevation (c : Element) : bool :=
  is_ele c && str_truthy (text c) && negb (is_some (py_float E (text_of c))).

(** A child that gives a time: it is not taken for an elevation, its tag
    has [time] in it, and its text, with [+00:00] for every [Z], reads as a
    [datetime]. *)
Definition gives_time (c : Element) : bool :=
  negb (is_ele c) && contains "time" (tag c) && str_truthy (text c)
  && is_some (fromisoformat E (replace_char "Z"%char "+00:00" (text_of c))).

(** The elevation that the children settle on, from [default]: what the last
    elevation child says, which is nothing when it has no text. *)
Definition elevation_from (cs : list Element) (default : option float)
  : option float :=
  match find is_ele (rev cs) with
  | Some c => if str_truthy (text c) then py_float E (text_of c) else None
  | None => default
  end.

(** The time that the children settle on, from [default]: that of the last
    child that gives one. *)
Definition timestamp_from (cs : list Element) (default : datetime) : datetime :=
  match find gives_time (rev cs) with
  | Some c =>
      match fromisoformat E (replace_char "Z"%char "+00:00" (text_of c)) with
      | Some t => t
      | None => default
      end
  | None => default
  end.

(** The numbers of a track-point read as numbers: both coordinates, and the
    text of every elevation child that has one. *)
Definition numeric (e : Element) : bool :=
  match attr_get "lat" (attrib e), attr_get "lon" (attrib e) with
  | Some lat, Some lon =>
      is_some (py_float E lat) && is_some (py_float E lon)
      && negb (existsb bad_elevation (children e))
  | _, _ => false
  end.

(** A track document whose numbers are numbers, wherever the parser reads
    them: every eligible track-point is numeric. *)
Definition numeric_track (root : Element) : bool :=
  forallb (fun e => negb (eligible e) || numeric e) (iter root).

(** [p] is the sample of track-point [e]: its coordinates are the two
    attributes read as numbers, its elevation and its time are those the
    children settle on (no elevation, the current time, when none does), and
    it has no speed. *)
Definition sample_of (e : Element) (p : GpsPoint) : Prop :=
  exists lat lon,
    attr_get "lat" (attrib e) = Some lat
    /\ attr_get "lon" (attrib e) = Some lon
    /\ py_float E lat = Some (latitude p)
    /\ py_float E lon = Some (longitude p)
    /\ elevation_meters p = elevation_from (children e) None
    /\ speed_mps p = None
    /\ timestamp p = timestamp_from (children e) (mkDatetime (now_us E) None).

End TrackVocabulary.

(** [d.get(k, default)] on the bindings [d] of a mapping. *)
Definition dict_field (d : list (string * pyval)) (k : string) (default : pyval) : pyval :=
  match assoc k d with
  | Some x => x
  | None => default
  end.

(** The pace can be computed from two numbers: when the guard of
    [calculate_pace] lets them through, the distance in kilometres is not a
    zero and the duration is within the range of the doubles. *)
Definition pace_computable (distance duration : pynum) : bool :=
  if num_truthy distance && num_truthy duration && num_positive distance then
    match num_truediv distance (NInt 1000) with
    | Ok km => negb (is_zero km) && is_ok (to_float duration)
    | Raise _ => false
    end
  else true.

(** The metrics of a summary record are usable: distance and duration are
    numbers (or left out) of which the kilometres, the minutes and the pace
    can be computed, and the end time can be computed from [start]. *)
Definition metrics_ok (d : list (string * pyval)) (start : datetime) : bool :=
  let duration := dict_field d "duration" (PInt 0) in
  let distance := dict_field d "distance" (PInt 0) in
  match as_number duration, as_number distance with
  | Some t, Some m =>
      is_ok (num_truediv t (NInt 60)) && is_ok (num_truediv m (NInt 1000))
      && pace_computable m t
      && (if truthy duration then
            match timedelta_seconds duration with
            | Ok delta => is_ok (datetime_add start delta)
            | Raise _ => false
            end
          else true)
  | _, _ => false
  end.

(** The horizon of the batch query: [days_back] days before now. *)
Definition cutoff (E : Env) (days_back : Z) : datetime :=
  mkDatetime (now_us E - days_back * US_PER_DAY) None.


(** The listed activity is a mapping whose start time, when it has one, is a
    string that reads as a naive [datetime]. *)
Definition readable_start (E : Env) (a : pyval) : bool :=
  match a with
  | PDict d =>
      let v := dict_field d "startTimeLocal" (PStr "") in
      if truthy v then
        match v with
        | PStr str =>
            match fromisoformat E (replace_char "Z" "" str) with
            | Some t => negb (is_some (dt_tz t))
            | None => false
            end
        | _ => false
        end
      else true
  | _ => false
  end.

(** The listed activity has a start time, later than [horizon]. *)
Definition started_after (E : Env) (horizon : datetime) (a : pyval) : bool :=
  match a with
  | PDict d =>
      match dict_field d "startTimeLocal" (PStr "") with
      | PStr str =>
          negb (str =? "")%string
          && match fromisoformat E (replace_char "Z" "" str) with
             | Some t => dt_us horizon <? dt_us t
             | None => false
             end
      | _ => false
      end
  | _ => false
  end.

(** The start-time string of the listed activity is missing or empty. *)
Definition start_missing_or_empty (a : pyval) : bool :=
  match a with
  | PDict d =>
      match assoc "startTimeLocal" d with
      | None => true
      | Some (PStr str) => (str =? "")%string
      | Some _ => false
      end
  | _ => false
  end.

(** The environment [E] with a service that lists [activities]. *)
Definition serving (E : Env) (activities : list pyval) : Env :=
  mkEnv (now_us E) (fromisoformat E) (py_float E) (py_repr E) (ET_fromstring E)
        (pg_integer_in E) (pg_float_in E)
        (GARMIN_EMAIL E) (GARMIN_PASSWORD E) (db_connects E) (client_login E)
        (fun _ _ => Ok activities)
        (client_get_activity E) (client_download_activity E).

(** The part of [main_try] that follows [get_latest_run]. *)
Definition after_fetch (E : Env) (latest : option ActivityData) : M unit :=
  match latest with
  | None => logging INFO MsgNoNewRuns
  | Some activity_data =>
      existing_activity <- get_activity_by_id (activity_id (run_data activity_data)) ;;
      match existing_activity with
      | Some _ =>
          logging INFO (MsgAlreadyExists (activity_id (run_data activity_data)))
      | None =>
          let points := gps_points activity_data in
          run_id <- insert_run E (run_data activity_data) ;;
          (match run_id, points with
           | Some id, _ :: _ =>
               if id =? 0 then ret tt
               else
                 insert_gps_points id points ;;
                 logging INFO (MsgStoredGps (List.length points))
           | _, _ => ret tt
           end) ;;
          logging INFO MsgSyncCompleted
      end
  end.


(** A statement on the table [runs]: the dedup query or the insert. *)
Definition touches_runs (op : DbOp) : bool :=
  match op with
  | SqlSelectRun _ | SqlInsertRun _ => true
  | _ => false
  end.

(** How many rows of [runs] carry the external identifier. *)
Definition stored (external_id : string) (db : Store) : nat :=
  List.length (filter (has_activity external_id) (runs db)).

(** The [UNIQUE] constraint holds of the table. *)
Definition unique_ids (db : Store) : Prop :=
  forall external_id, (stored external_id db <= 1)%nat.

(** No transaction is open: the connection sees what is committed. *)
Definition quiescent (s : St) : Prop := st_db s = st_committed s.

(** The state in which a run of [main] ends, and the statements it issued. *)
Definition after_main (E : Env) (s : St) : St := fst (main E s).

Definition statements (E : Env) (s : St) : list DbOp :=
  skipn (List.length (st_ops s)) (st_ops (after_main E s)).

(** The state once a statement has been issued. *)
Definition executed (s : St) (op : DbOp) : St :=
  mkSt (st_log s) (st_client s) (st_logged_in s) (st_db s) (st_committed s)
       (st_ops s ++ [op]).

(** [m] touches neither the database nor the statement trace. *)
Definition keeps_db {A} (m : M A) : Prop :=
  forall s, st_db (fst (m s)) = st_db s
            /\ st_committed (fst (m s)) = st_committed s
            /\ st_ops (fst (m s)) = st_ops s.

(** Appending a record to the log, everything else untouched. *)
Definition logged (s : St) (lvl : Level) (msg : LogMsg) : St :=
  mkSt (st_log s ++ [mkLog lvl msg]) (st_client s) (st_logged_in s)
       (st_db s) (st_committed s) (st_ops s).

(* ===================================================================== *)
(** * Vocabulary of the further properties *)
(* ===================================================================== *)

(** No child of the track-point is taken for an elevation, or for a time. *)
Definition no_elevation_child (e : Element) : bool :=
  forallb (fun c => negb (contains "ele" (tag c))) (children e).

Definition no_time_child (e : Element) : bool :=
  forallb (fun c => negb (contains "time" (tag c))) (children e).

(** The start time that normalisation settles on for the bindings [d] of a
    summary record, or the exception it meets there. *)
Definition start_of (E : Env) (d : list (string * pyval)) : result datetime :=
  let v := dict_field d "startTimeLocal" (PStr "") in
  if truthy v then
    match v with
    | PStr str => py_fromisoformat E (replace_char "Z" "" str)
    | _ => Raise AttributeError
    end
  else Ok (now E).

(** A summary record that normalisation accepts. *)
Definition normalisable (E : Env) (summary : pyval) : bool :=
  match summary with
  | PDict d =>
      match start_of E d with
      | Ok start => metrics_ok d start
      | Raise _ => false
      end
  | _ => false
  end.

(** The end time computed from [start] and the duration entry. *)
Definition end_of (start : datetime) (d : list (string * pyval)) : option datetime :=
  let duration := dict_field d "duration" (PInt 0) in
  if truthy duration then
    match timedelta_seconds duration with
    | Ok delta =>
        match datetime_add start delta with
        | Ok e => Some e
        | Raise _ => None
        end
    | Raise _ => None
    end
  else None.

(** The nine columns that normalisation derives from the bindings [d] once
    the start time is known. *)
Definition normalised (E : Env) (d : list (string * pyval)) (start : datetime)
  : RunData :=
  mkRunData (py_str E (dict_field d "activityId" PNone))
            start
            (end_of start d)
            (dict_field d "distance" (PInt 0))
            (dict_field d "duration" (PInt 0))
            (match calculate_pace (dict_field d "distance" (PInt 0))
                                  (dict_field d "duration" (PInt 0)) with
             | Ok pace => pace
             | Raise _ => None
             end)
            (dict_field d "calories" (PInt 0))
            (dict_field d "averageHR" PNone)
            (dict_field d "maxHR" PNone).

(** The microseconds of a duration, as [timedelta] counts them: a million
    to the second for an integer, the count of [float_seconds_us] for a
    float. *)
Definition duration_us (n : pynum) (us : Z) : Prop :=
  match n with
  | NInt z => us = z * US_PER_SECOND
  | NFloat f => float_seconds_us f = Ok us
  end.

(** The listed activity can be tested for its type: it is a mapping whose
    [activityType], when it has a true one, is a mapping. *)
Definition listable (a : pyval) : bool :=
  match a with
  | PDict d =>
      let t := dict_field d "activityType" (PDict []) in
      if truthy t then
        match t with
        | PDict _ => true
        | _ => false
        end
      else true
  | _ => false
  end.

(** The listed activity is a run: the [typeKey] of its type is ['running']. *)
Definition running_type (a : pyval) : bool :=
  match a with
  | PDict d =>
      match dict_field d "activityType" (PDict []) with
      | PDict t => is_running_key (dict_field t "typeKey" PNone)
      | _ => false
      end
  | _ => false
  end.

(** The ways in which [get_latest_run] accounts for returning nothing. *)
Definition explains_no_run (r : LogRecord) : Prop :=
  r = mkLog ERROR MsgNotLoggedIn
  \/ r = mkLog INFO MsgNoRunning
  \/ (exists e, r = mkLog ERROR (MsgLatestRunError e))
  \/ (exists e, r = mkLog ERROR (MsgFormatError e)).

(** The coordinates of the sample fit the columns of [gps_points]. *)
Definition gps_fits (p : GpsPoint) : bool :=
  numeric_fits 10 8 (latitude p) && numeric_fits 11 8 (longitude p).

(** Some row of [runs] has this serial id. *)
Definition run_exists (run : Z) (db : Store) : bool :=
  existsb (fun r => row_id r =? run) (runs db).

(** The batch of samples can be inserted for [run]: there is nothing to
    insert, or the run exists and every sample fits. *)
Definition batch_ok (run : Z) (points : list GpsPoint) (db : Store) : bool :=
  match points with
  | [] => true
  | _ => run_exists run db && forallb gps_fits points
  end.

(** The store with the batch appended. *)
Definition with_samples (run : Z) (points : list GpsPoint) (db : Store) : Store :=
  mkStore (runs db) (gps_rows db ++ map (mkGpsRow run) points) (runs_id_seq db).

(** What the persistence steps of [main] make of the store for a fetched
    activity: nothing when its identifier is stored already or the table
    does not accept its values; a serial number spent when the stored form
    of the identifier is taken; else its row, and with it all of its samples
    or none. *)
Definition persist (E : Env) (a : ActivityData) (db : Store) : Store :=
  if existsb (has_activity (activity_id (run_data a))) (runs db) then db
  else
    match stored_form E (run_data a) with
    | None => db
    | Some row =>
        let run := runs_id_seq db in
        if existsb (has_activity (activity_id row)) (runs db) then
          mkStore (runs db) (gps_rows db) (run + 1)
        else
          let db1 := mkStore (runs db ++ [mkRunRow run row]) (gps_rows db) (run + 1) in
          if (run =? 0) || negb (forallb gps_fits (gps_points a)) then db1
          else with_samples run (gps_points a) db1
    end.

(** Serial ids are below the sequence, and every sample belongs to a run. *)
Definition ids_below_seq (db : Store) : Prop :=
  forall r, In r (runs db) -> row_id r < runs_id_seq db.

Definition samples_owned (db : Store) : Prop :=
  forall g, In g (gps_rows db) -> run_exists (gps_run_id g) db = true.

(** The constraints of the schema: unique external identifiers, serial
    primary keys, the foreign key of the samples. *)
Definition store_ok (db : Store) : Prop :=
  unique_ids db /\ ids_below_seq db /\ samples_owned db.

(** Credentials are configured and the database accepts the connection. *)
Definition ready (E : Env) : bool :=
  str_truthy (GARMIN_EMAIL E) && str_truthy (GARMIN_PASSWORD E)
  && is_ok (db_connects E).

(** The serial ids of [runs] are pairwise distinct. *)
Definition unique_row_ids (db : Store) : Prop :=
  NoDup (map row_id (runs db)).

(** All four constraints together. *)
Definition store_sound (db : Store) : Prop :=
  store_ok db /\ unique_row_ids db.

(* ===================================================================== *)
(** * Properties *)
(* ===================================================================== *)

Lemma round_half_even_close (x : Q) :
  (Qabs (x - inject_Z (round_half_even x)) <= 1 # 2)%Q.
Proof.
  unfold round_half_even.
  pose proof (Qfloor_le x) as Hlo.
  pose proof (Qlt_floor x) as Hhi.
  set (f := Qfloor x) in *.
  assert (Hf1 : (inject_Z (f + 1) == inject_Z f + 1)%Q) by (rewrite inject_Z_plus; reflexivity).
  rewrite Hf1 in Hhi.
  apply Qabs_Qle_condition.
  destruct (Qcompare_spec (x - inject_Z f) (1 # 2)) as [He|Hl|Hg];
    try destruct (Z.even f); try rewrite Hf1; lra.
Qed.

Lemma py_round2_rounded (x : float) :
  is_finite x = true -> rounded_2dp x (py_round2 x).
Proof.
  intros Hfin. destruct x as [s|s| |s m e]; try discriminate Hfin.
  - exists 0. split; [|reflexivity].
    cbn [float_value]. apply Qabs_Qle_condition. split; [|]; unfold Qle; cbn; lia.
  - exists (round_half_even (float_value (S754_finite s m e) * 100)).
    split; [|reflexivity].
    pose proof (round_half_even_close (float_value (S754_finite s m e) * 100)) as H.
    set (v := float_value (S754_finite s m e)) in *.
    set (n := round_half_even (v * 100)) in *.
    assert (Hn : (n # 100 == inject_Z n * (1 # 100))%Q).
    { unfold Qeq, Qmult, inject_Z; cbn. lia. }
    rewrite Hn. apply Qabs_Qle_condition in H. apply Qabs_Qle_condition. lra.
Qed.

Lemma truthy_number v n : as_number v = Some n -> truthy v = num_truthy n.
Proof.
  destruct v; cbn; try discriminate; intros H; injection H as <-;
    try reflexivity.
  destruct b; reflexivity.
Qed.

Lemma positive_truthy n : num_positive n = true -> num_truthy n = true.
Proof.
  destruct n as [z|f]; cbn.
  - intros H. apply Z.ltb_lt in H. destruct (Z.eqb_spec z 0); [lia|reflexivity].
  - destruct f as [s|s| |s m e]; try destruct s; try discriminate; reflexivity.
Qed.

Lemma zero_or_absent_falsy (v : pyval) : zero_or_absent v -> truthy v = false.
Proof.
  intros [-> | (n & Hn & Hz)]; [reflexivity|].
  rewrite (truthy_number _ _ Hn). exact Hz.
Qed.

(** What [calculate_pace] returns on two numbers. *)
Lemma calculate_pace_on_numbers d t nd nt :
  as_number d = Some nd -> as_number t = Some nt ->
  calculate_pace d t
  = if num_truthy nd && num_truthy nt && num_positive nd then
      let* km := num_truediv nd (NInt 1000) in
      let* q := num_truediv nt (NFloat km) in
      Ok (Some (py_round2 q))
    else Ok None.
Proof.
  intros Hd Ht. unfold calculate_pace, py_gt_zero, py_truediv.
  rewrite (truthy_number _ _ Hd), (truthy_number _ _ Ht), Hd, Ht.
  cbn [as_number].
  destruct (num_truthy nd); cbn [andb rbind]; [|reflexivity].
  destruct (num_truthy nt); cbn [andb rbind]; [|reflexivity].
  destruct (num_positive nd); cbn [rbind]; [|reflexivity].
  destruct (num_truediv nd (NInt 1000)); reflexivity.
Qed.

(** A division by a float that is not a zero. *)
Lemma num_truediv_by_float n km tf :
  to_float n = Ok tf -> is_zero km = false ->
  num_truediv n (NFloat km) = Ok (fdiv tf km).
Proof.
  intros Hn Hz. unfold num_truediv.
  destruct n as [z|f]; rewrite Hn; cbn [rbind to_float]; rewrite Hz; reflexivity.
Qed.

(** C2 as stated fails where [distance / 1000] underflows: for the smallest
    positive distance a double can hold and a duration of one second the
    quotient in kilometres is zero, and the second division raises. *)
Lemma pace_of_tiny_distance_raises :
  num_positive (NFloat (S754_finite false 1 (-1074))) = true
  /\ num_positive (NInt 1) = true
  /\ py_truediv (PFloat (S754_finite false 1 (-1074))) (PInt 1000) = Ok (S754_zero false)
  /\ calculate_pace (PFloat (S754_finite false 1 (-1074))) (PInt 1)
     = Raise ZeroDivisionError.
Proof. repeat split; vm_compute; reflexivity. Qed.

(** The claim fails in two more ways on positive numbers: a distance beyond
    the range of the doubles makes the first division raise, and a quotient
    beyond that range is an infinity. *)
Lemma pace_of_huge_distance_raises :
  calculate_pace (PInt (10 ^ 400)) (PInt 1) = Raise OverflowError.
Proof. vm_compute. reflexivity. Qed.

Lemma pace_can_be_infinite :
  calculate_pace (PFloat (nearest_ratio 1 (10 ^ 300))) (PFloat (nearest (10 ^ 11) 0 false))
  = Ok (Some (S754_infinity false)).
Proof. vm_compute. reflexivity. Qed.

(** What is rounded is the quotient of the doubles: 1020 s over 4352 m is
    234.375 s/km exactly, the doubles give a little less, and the pace is
    234.37. *)
Lemma pace_rounds_the_double_quotient :
  calculate_pace (PInt 4352) (PInt 1020) = Ok (Some (nearest_ratio 23437 100)).
Proof. vm_compute. reflexivity. Qed.

(** C2, amended.  For a positive distance and a positive duration of which
    the distance in kilometres is a double other than zero and the duration
    is within the range of the doubles, the pace is present: it is the
    quotient of the two doubles, rounded to two decimals when it is finite.
    A zero or absent distance or duration gives an absent pace without any
    exception; 5000 m in 1500 s is 300.0 s/km. *)
Theorem calculate_pace_spec :
  (forall d t nd nt km tf,
      as_number d = Some nd -> as_number t = Some nt ->
      num_positive nd = true -> num_positive nt = true ->
      num_truediv nd (NInt 1000) = Ok km -> is_zero km = false ->
      to_float nt = Ok tf ->
      exists p, calculate_pace d t = Ok (Some p)
                /\ p = py_round2 (fdiv tf km)
                /\ (is_finite (fdiv tf km) = true -> rounded_2dp (fdiv tf km) p))
  /\ (forall d t, zero_or_absent d \/ zero_or_absent t ->
                  calculate_pace d t = Ok None)
  /\ calculate_pace (PInt 5000) (PInt 1500) = Ok (Some (nearest 300 0 false)).
Proof.
  split; [|split].
  - intros d t nd nt km tf Hd Ht Hpd Hpt Hkm Hz Htf.
    exists (py_round2 (fdiv tf km)).
    rewrite (calculate_pace_on_numbers _ _ _ _ Hd Ht).
    rewrite (positive_truthy _ Hpd), (positive_truthy _ Hpt), Hpd. cbn [andb].
    rewrite Hkm. cbn [rbind].
    rewrite (num_truediv_by_float _ _ _ Htf Hz). cbn [rbind].
    split; [reflexivity|]. split; [reflexivity|].
    apply py_round2_rounded.
  - intros d t H. unfold calculate_pace.
    destruct H as [H|H]; apply zero_or_absent_falsy in H.
    + rewrite H. reflexivity.
    + rewrite H. destruct (truthy d); reflexivity.
  - vm_compute. reflexivity.
Qed.

Lemma calculate_pace_spec_witness :
  (exists p, calculate_pace (PFloat (nearest 10000 0 false)) (PInt 3000) = Ok (Some p)
             /\ p = py_round2 (fdiv (nearest 3000 0 false) (nearest 10 0 false))
             /\ (is_finite (fdiv (nearest 3000 0 false) (nearest 10 0 false)) = true ->
                 rounded_2dp (fdiv (nearest 3000 0 false) (nearest 10 0 false)) p))
  /\ calculate_pace (PInt 0) (PInt 1500) = Ok None
  /\ calculate_pace (PInt 5000) PNone = Ok None.
Proof.
  destruct calculate_pace_spec as (Hpos & Habs & _).
  split; [|split].
  - apply (Hpos (PFloat (nearest 10000 0 false)) (PInt 3000)
                (NFloat (nearest 10000 0 false)) (NInt 3000));
      vm_compute; reflexivity.
  - apply Habs. left. right. exists (NInt 0). split; reflexivity.
  - apply Habs. right. left. reflexivity.
Defined.

(* --------------------------------------------------------------------- *)
(** ** The track parser *)
(* --------------------------------------------------------------------- *)

Lemma find_snoc {A} (f : A -> bool) (l : list A) (x : A) :
  find f (l ++ [x])
  = match find f l with
    | Some y => Some y
    | None => if f x then Some x else None
    end.
Proof.
  induction l as [|y l IH]; cbn [app find]; [reflexivity|].
  destruct (f y); [reflexivity|exact IH].
Qed.

Section TrackParser.

Variable E : Env.

Lemma elevation_from_cons c cs default :
  elevation_from E (c :: cs) default
  = elevation_from E cs
      (if is_ele c then
         if str_truthy (text c) then py_float E (text_of c) else None
       else default).
Proof.
  unfold elevation_from. cbn [rev]. rewrite find_snoc.
  destruct (find is_ele (rev cs)); [reflexivity|].
  destruct (is_ele c); reflexivity.
Qed.

Lemma timestamp_from_cons c cs default :
  timestamp_from E (c :: cs) default
  = timestamp_from E cs
      (if gives_time E c then
         match fromisoformat E (replace_char "Z"%char "+00:00" (text_of c)) with
         | Some t => t
         | None => default
         end
       else default).
Proof.
  unfold timestamp_from. cbn [rev]. rewrite find_snoc.
  destruct (find (gives_time E) (rev cs)) as [x|] eqn:Hfind.
  - destruct (fromisoformat E (replace_char "Z"%char "+00:00" (text_of x))) eqn:Hx;
      [reflexivity|].
    apply find_some in Hfind as [_ Hgives]. unfold gives_time in Hgives.
    rewrite Hx in Hgives. cbn [is_some] in Hgives.
    rewrite andb_false_r in Hgives. discriminate.
  - destruct (gives_time E c); reflexivity.
Qed.

(** The loop over the children: it fails exactly on an elevation text that
    is not a number, and otherwise settles elevation and time as the
    vocabulary says. *)
Lemma children_loop_spec (cs : list Element) :
  forall point,
    children_loop E cs point
    = if existsb (bad_elevation E) cs then Raise ValueError
      else Ok (mkGpsPoint (latitude point) (longitude point)
                          (elevation_from E cs (elevation_meters point))
                          (speed_mps point)
                          (timestamp_from E cs (timestamp point))).
Proof.
  induction cs as [|c rest IH]; intros point.
  - destruct point; reflexivity.
  - cbn [children_loop existsb].
    rewrite elevation_from_cons, timestamp_from_cons.
    unfold bad_elevation at 1, gives_time at 1. fold (is_ele c). fold (text_of c).
    destruct (is_ele c) eqn:Hele; cbn [andb negb].
    + destruct (str_truthy (text c)) eqn:Htxt; cbn [andb].
      * unfold float_of_str. destruct (py_float E (text_of c)) as [f|];
          cbn [rbind is_some negb orb]; [|reflexivity].
        rewrite IH. reflexivity.
      * cbn [rbind orb]. rewrite IH. reflexivity.
    + cbn [orb].
      destruct (contains "time" (tag c)); cbn [andb]; [|apply IH].
      destruct (str_truthy (text c)); cbn [andb]; [|apply IH].
      destruct (fromisoformat E (replace_char "Z"%char "+00:00" (text_of c))) as [ts|];
        cbn [is_some]; rewrite IH; reflexivity.
Qed.

Lemma eligible_attributes e :
  eligible e = true ->
  exists lat lon,
    attr_get "lat" (attrib e) = Some lat /\ attr_get "lon" (attrib e) = Some lon
    /\ is_trkpt e = true
    /\ str_truthy (attr_get "lat" (attrib e)) = true
    /\ str_truthy (attr_get "lon" (attrib e)) = true.
Proof.
  unfold eligible. intros H.
  apply andb_true_iff in H as [H Hlon]. apply andb_true_iff in H as [Htr Hlat].
  destruct (attr_get "lat" (attrib e)) as [lat|]; [|discriminate].
  destruct (attr_get "lon" (attrib e)) as [lon|]; [|discriminate].
  exists lat, lon. auto.
Qed.

(** Reading one track-point: its sample when its numbers are numbers, a
    [ValueError] otherwise. *)
Lemma read_trkpt_spec e lat lon :
  attr_get "lat" (attrib e) = Some lat ->
  attr_get "lon" (attrib e) = Some lon ->
  if numeric E e
  then exists p, read_trkpt E lat lon e = Ok p /\ sample_of E e p
  else read_trkpt E lat lon e = Raise ValueError.
Proof.
  intros Hlat Hlon. unfold numeric, read_trkpt, float_of_str. rewrite Hlat, Hlon.
  destruct (py_float E lat) as [la|] eqn:Hla; cbn [is_some andb rbind]; [|reflexivity].
  destruct (py_float E lon) as [lo|] eqn:Hlo; cbn [is_some andb rbind]; [|reflexivity].
  rewrite children_loop_spec.
  destruct (existsb (bad_elevation E) (children e)); cbn [negb]; [reflexivity|].
  eexists. split; [reflexivity|].
  exists lat, lon. cbn [latitude longitude elevation_meters speed_mps timestamp].
  repeat split; assumption.
Qed.

(** The loop reads the eligible track-points in order and stops at the first
    one whose numbers are not all numbers. *)
Lemma trkpt_loop_prefix (elems : list Element) :
  forall acc,
    exists pts k err,
      trkpt_loop E elems acc = ((acc ++ pts)%list, err)
      /\ Forall2 (sample_of E) (firstn k (filter eligible elems)) pts
      /\ forallb (numeric E) (firstn k (filter eligible elems)) = true
      /\ match err with
         | None => k = List.length (filter eligible elems)
         | Some x =>
             x = ValueError
             /\ exists bad, nth_error (filter eligible elems) k = Some bad
                            /\ numeric E bad = false
         end.
Proof.
  induction elems as [|e rest IH]; intros acc.
  - exists [], 0%nat, None. rewrite app_nil_r. repeat split. constructor.
  - cbn [trkpt_loop filter]. fold (is_trkpt e).
    destruct (eligible e) eqn:Hel.
    2:{ unfold eligible in Hel. destruct (is_trkpt e); [|apply IH].
        cbn [andb] in Hel. rewrite Hel. apply IH. }
    destruct (eligible_attributes e Hel) as (lat & lon & Hlat & Hlon & Htr & Htl & Hto).
    rewrite Htr, Htl, Hto. cbn [andb]. rewrite Hlat, Hlon.
    pose proof (read_trkpt_spec e lat lon Hlat Hlon) as Hread.
    destruct (numeric E e) eqn:Hnum.
    + destruct Hread as (p & -> & Hs).
      destruct (IH (acc ++ [p])%list) as (pts & k & err & Hrun & Hall & Hgood & Herr).
      exists (p :: pts), (S k), err. rewrite Hrun, <- app_assoc.
      split; [reflexivity|]. split; [cbn [firstn]; constructor; assumption|].
      split; [cbn [firstn forallb]; rewrite Hnum; exact Hgood|].
      destruct err as [x|]; [exact Herr|]. cbn [List.length]. congruence.
    + rewrite Hread. exists [], 0%nat, (Some ValueError). rewrite app_nil_r.
      split; [reflexivity|]. split; [constructor|]. split; [reflexivity|].
      split; [reflexivity|]. exists e. split; [reflexivity|exact Hnum].
Qed.

Lemma numeric_track_eligible elems :
  forallb (fun e => negb (eligible e) || numeric E e) elems = true ->
  forallb (numeric E) (filter eligible elems) = true.
Proof.
  induction elems as [|e rest IH]; cbn [forallb filter]; [reflexivity|].
  intros H. apply andb_true_iff in H as [He Hrest].
  destruct (eligible e); cbn [negb orb] in He; [|auto].
  cbn [forallb]. rewrite He. auto.
Qed.

Lemma forallb_nth_error {A} (f : A -> bool) (l : list A) k x :
  forallb f l = true -> nth_error l k = Some x -> f x = true.
Proof.
  intros Hall Hnth. rewrite forallb_forall in Hall.
  apply Hall. eapply nth_error_In. exact Hnth.
Qed.

End TrackParser.

(** What [parse_gpx_simple] returns on a document that parses. *)
Lemma parse_gpx_simple_prefix_exact :
  forall E gpx_data root s,
    ET_fromstring E gpx_data = Ok root ->
    exists pts k,
      snd (parse_gpx_simple E gpx_data s) = Ok pts
      /\ Forall2 (sample_of E) (firstn k (filter eligible (iter root))) pts
      /\ forallb (numeric E) (firstn k (filter eligible (iter root))) = true
      /\ ((k = List.length (filter eligible (iter root))
           /\ fst (parse_gpx_simple E gpx_data s) = s)
          \/ (fst (parse_gpx_simple E gpx_data s)
              = logged s WARNING (MsgGpxParseError ValueError)
              /\ exists bad, nth_error (filter eligible (iter root)) k = Some bad
                             /\ numeric E bad = false)).
Proof.
  intros E gpx_data root s Hroot. unfold parse_gpx_simple. rewrite Hroot.
  destruct (trkpt_loop_prefix E (iter root) [])
    as (pts & k & err & Hrun & Hall & Hgood & Herr).
  rewrite Hrun. cbn [app]. exists pts, k.
  destruct err as [x|].
  - destruct Herr as (-> & bad & Hbad & Hun).
    split; [reflexivity|]. split; [exact Hall|]. split; [exact Hgood|].
    right. split; [reflexivity|eauto].
  - split; [reflexivity|]. split; [exact Hall|]. split; [exact Hgood|]. left. auto.
Qed.

(** C5 as stated fails for a track-point that carries both attributes, one
    of them empty: the parser passes it over.  Of the two track-points of
    this document the first has an empty latitude, and only the second is
    returned. *)
Lemma empty_coordinate_is_skipped :
  Example.xml_read "<gpx><trkpt lat='' lon='8.5'/><trkpt lat='47.6' lon='8.6'/></gpx>"
  = Ok (mkElement "gpx" [] None
          [mkElement "trkpt" [("lat", ""); ("lon", "8.5")] None [];
           mkElement "trkpt" [("lat", "47.6"); ("lon", "8.6")] None []])
  /\ filter (fun e => is_trkpt e && has_coordinates e)
       (iter (mkElement "gpx" [] None
                [mkElement "trkpt" [("lat", ""); ("lon", "8.5")] None [];
                 mkElement "trkpt" [("lat", "47.6"); ("lon", "8.6")] None []]))
     = [mkElement "trkpt" [("lat", ""); ("lon", "8.5")] None [];
        mkElement "trkpt" [("lat", "47.6"); ("lon", "8.6")] None []]
  /\ parse_gpx_simple (Example.env [] (Ok ""))
       "<gpx><trkpt lat='' lon='8.5'/><trkpt lat='47.6' lon='8.6'/></gpx>"
       Example.fresh
     = (Example.fresh,
        Ok [mkGpsPoint (nearest_ratio 238 5) (nearest_ratio 43 5) None None (mkDatetime Example.noon None)]).
Proof. repeat split; vm_compute; reflexivity. Qed.

(** C5, amended.  On a track document that parses and whose numbers are
    numbers wherever the parser reads them (the coordinates and the
    elevation texts of the track-points it goes on to read) the parser
    returns, in document order, one sample per track-point whose latitude
    and longitude attributes are both there and not empty, skips the others,
    and logs nothing; a document of three track-points of which the second
    has no longitude gives the first and the third, in that order. *)
Theorem parse_gpx_simple_document_order :
  (forall E gpx_data root s,
      ET_fromstring E gpx_data = Ok root ->
      numeric_track E root = true ->
      exists pts,
        parse_gpx_simple E gpx_data s = (s, Ok pts)
        /\ Forall2 (sample_of E) (filter eligible (iter root)) pts)
  /\ parse_gpx_simple (Example.env [] (Ok ""))
       "<gpx><trk><trkseg><trkpt lat='47.5' lon='8.5'/><trkpt lat='47.6'/><trkpt lat='47.7' lon='8.7'/></trkseg></trk></gpx>"
       Example.fresh
     = (Example.fresh,
        Ok [mkGpsPoint (nearest_ratio 95 2) (nearest_ratio 17 2) None None (mkDatetime Example.noon None);
            mkGpsPoint (nearest_ratio 477 10) (nearest_ratio 87 10) None None (mkDatetime Example.noon None)]).
Proof.
  split; [|vm_compute; reflexivity].
  intros E gpx_data root s Hroot Hnum.
  destruct (parse_gpx_simple_prefix_exact E gpx_data root s Hroot)
    as (pts & k & Hrun & Hall & _ & Hcase).
  exists pts.
  destruct Hcase as [(-> & Hlog) | (_ & bad & Hbad & Hun)].
  - rewrite firstn_all in Hall. split; [|exact Hall].
    destruct (parse_gpx_simple E gpx_data s) as [s' r]. cbn [fst snd] in *. congruence.
  - exfalso. unfold numeric_track in Hnum.
    apply numeric_track_eligible in Hnum.
    rewrite (forallb_nth_error _ _ _ _ Hnum Hbad) in Hun. discriminate.
Qed.

Lemma parse_gpx_simple_document_order_witness :
  exists pts,
    parse_gpx_simple (Example.env [] (Ok ""))
      "<gpx><trkpt lat='1.0' lon='2.0'><ele>310.5</ele></trkpt><trkpt lon='2.1'/><wpt lat='9' lon='9'/><trkpt lat='' lon='x'/><trkpt lat='1.2' lon='2.2'><ele></ele></trkpt></gpx>"
      Example.fresh = (Example.fresh, Ok pts)
    /\ List.length pts = 2%nat.
Proof.
  destruct parse_gpx_simple_document_order as [H _].
  edestruct (H (Example.env [] (Ok ""))
               "<gpx><trkpt lat='1.0' lon='2.0'><ele>310.5</ele></trkpt><trkpt lon='2.1'/><wpt lat='9' lon='9'/><trkpt lat='' lon='x'/><trkpt lat='1.2' lon='2.2'><ele></ele></trkpt></gpx>")
    as (pts & Hrun & Hall).
  - vm_compute. reflexivity.
  - vm_compute. reflexivity.
  - exists pts. split; [exact Hrun|].
    apply Forall2_length in Hall. symmetry. exact Hall.
Defined.

(** C6.  The track parser never lets an exception escape; on input that the
    XML reader rejects it returns the empty sequence and logs one warning. *)
Theorem parse_gpx_simple_malformed :
  (forall E gpx_data s,
      exists s' pts, parse_gpx_simple E gpx_data s = (s', Ok pts))
  /\ (forall E gpx_data e s,
         ET_fromstring E gpx_data = Raise e ->
         parse_gpx_simple E gpx_data s
         = (logged s WARNING (MsgGpxParseError e), Ok [])).
Proof.
  split.
  - intros E gpx_data s. unfold parse_gpx_simple.
    destruct (ET_fromstring E gpx_data) as [root|e].
    + destruct (trkpt_loop E (iter root) []) as [pts [e|]]; eexists; eexists; reflexivity.
    + eexists; eexists; reflexivity.
  - intros E gpx_data e s H. unfold parse_gpx_simple. rewrite H. reflexivity.
Qed.

Lemma parse_gpx_simple_malformed_witness :
  parse_gpx_simple (Example.env [] (Ok "")) "<gpx><trk><trkpt lat='47.5'" Example.fresh
  = (logged Example.fresh WARNING (MsgGpxParseError ParseError), Ok []).
Proof.
  apply (proj2 parse_gpx_simple_malformed). vm_compute. reflexivity.
Defined.

(** C7 (the code departs from it).  An elevation text that is not a number
    is not left absent: the [ValueError] of [float] ends the whole loop, so
    the sample itself and every later track-point are lost.  Here the first
    track-point has elevation text [abc] and the parser returns nothing. *)
Theorem parse_gpx_simple_bad_elevation_drops_points :
  parse_gpx_simple (Example.env [] (Ok ""))
    "<gpx><trkpt lat='47.5' lon='8.5'><ele>abc</ele></trkpt><trkpt lat='47.6' lon='8.6'/></gpx>"
    Example.fresh
  = (logged Example.fresh WARNING (MsgGpxParseError ValueError), Ok []).
Proof. vm_compute. reflexivity. Qed.

(* --------------------------------------------------------------------- *)
(** ** Reasoning in the monad *)
(* --------------------------------------------------------------------- *)

Lemma bind_ok_inv {A B} (m : M A) (k : A -> M B) s s' b :
  bind m k s = (s', Ok b) ->
  exists a s1, m s = (s1, Ok a) /\ k a s1 = (s', Ok b).
Proof.
  unfold bind. destruct (m s) as [s1 [a|e]]; intros H.
  - exists a, s1. auto.
  - discriminate.
Qed.

Lemma lift_ok_inv {A} (r : result A) s s' a :
  lift r s = (s', Ok a) -> s' = s /\ r = Ok a.
Proof. unfold lift. intros H. injection H as <- ->. auto. Qed.

Lemma bind_lift_ok {A B} (r : result A) (k : A -> M B) s a :
  r = Ok a -> bind (lift r) k s = k a s.
Proof. intros ->. reflexivity. Qed.

Lemma bind_eq {A B} (m : M A) (k : A -> M B) s s1 a :
  m s = (s1, Ok a) -> bind m k s = k a s1.
Proof. unfold bind. intros ->. reflexivity. Qed.

Lemma bind_raise {A B} (m : M A) (k : A -> M B) s s1 e :
  m s = (s1, Raise e) -> bind m k s = (s1, Raise e).
Proof. unfold bind. intros ->. reflexivity. Qed.

(** Peel the leading binds of a successful run, one [lift]ed step at a time. *)
Ltac lift_step H x Hx :=
  apply bind_ok_inv in H; destruct H as (x & ?s & Hx & H);
  apply lift_ok_inv in Hx; destruct Hx as [-> Hx].

(* --------------------------------------------------------------------- *)
(** ** Normalisation *)
(* --------------------------------------------------------------------- *)

Section Normalisation.

Variable E : Env.

(** [get_gps_data] swallows every exception. *)
Lemma get_gps_data_total id s :
  exists s' pts, get_gps_data E id s = (s', Ok pts).
Proof.
  unfold get_gps_data, try_except.
  match goal with |- context [match ?m s with _ => _ end] => destruct (m s) as [s1 [pts|e]] end.
  - eauto.
  - eexists; eexists; reflexivity.
Qed.

(** On two numbers the pace is computed exactly when it is computable. *)
Lemma calculate_pace_ok d t nd nt :
  as_number d = Some nd -> as_number t = Some nt ->
  is_ok (calculate_pace d t) = pace_computable nd nt.
Proof.
  intros Hd Ht. rewrite (calculate_pace_on_numbers _ _ _ _ Hd Ht).
  unfold pace_computable.
  destruct (num_truthy nd && num_truthy nt && num_positive nd); [|reflexivity].
  destruct (num_truediv nd (NInt 1000)) as [km|e]; cbn [rbind is_ok]; [|reflexivity].
  unfold num_truediv.
  destruct nt as [z|f]; cbn [to_float rbind].
  - destruct (float_of_int z) as [tf|e]; cbn [rbind is_ok];
      [|rewrite andb_false_r; reflexivity].
    destruct (is_zero km); reflexivity.
  - destruct (is_zero km); reflexivity.
Qed.

Lemma py_truediv_numbers x y nx ny :
  as_number x = Some nx -> as_number y = Some ny ->
  py_truediv x y = num_truediv nx ny.
Proof. intros Hx Hy. unfold py_truediv. rewrite Hx, Hy. reflexivity. Qed.

Lemma py_truediv_number v n q :
  py_truediv v (PInt n) = Ok q -> is_some (as_number v) = true.
Proof.
  unfold py_truediv. destruct (as_number v); [reflexivity|discriminate].
Qed.

(** What usable metrics come to, step by step. *)
Lemma metrics_ok_iff d start :
  metrics_ok d start = true <->
  (exists pace km mins,
      calculate_pace (dict_field d "distance" (PInt 0)) (dict_field d "duration" (PInt 0))
      = Ok pace
      /\ py_truediv (dict_field d "distance" (PInt 0)) (PInt 1000) = Ok km
      /\ py_truediv (dict_field d "duration" (PInt 0)) (PInt 60) = Ok mins)
  /\ (if truthy (dict_field d "duration" (PInt 0)) then
        match timedelta_seconds (dict_field d "duration" (PInt 0)) with
        | Ok delta => is_ok (datetime_add start delta)
        | Raise _ => false
        end
      else true) = true.
Proof.
  unfold metrics_ok.
  set (dur := dict_field d "duration" (PInt 0)).
  set (dist := dict_field d "distance" (PInt 0)).
  split.
  - destruct (as_number dur) as [t|] eqn:Et; [|discriminate].
    destruct (as_number dist) as [m|] eqn:Em; [|discriminate].
    intros H. apply andb_true_iff in H as [H Hend].
    apply andb_true_iff in H as [H Hpace]. apply andb_true_iff in H as [Hmins Hkm].
    split; [|exact Hend].
    rewrite <- (calculate_pace_ok dist dur m t Em Et) in Hpace.
    rewrite (py_truediv_numbers dist (PInt 1000) m (NInt 1000) Em eq_refl).
    rewrite (py_truediv_numbers dur (PInt 60) t (NInt 60) Et eq_refl).
    destruct (calculate_pace dist dur) as [pace|]; [|discriminate].
    destruct (num_truediv m (NInt 1000)) as [km|]; [|discriminate].
    destruct (num_truediv t (NInt 60)) as [mins|]; [|discriminate].
    exists pace, km, mins. auto.
  - intros [(pace & km & mins & Hpace & Hkm & Hmins) Hend].
    pose proof (py_truediv_number _ _ _ Hkm) as Hm.
    pose proof (py_truediv_number _ _ _ Hmins) as Ht.
    destruct (as_number dur) as [t|] eqn:Et; [|discriminate].
    destruct (as_number dist) as [m|] eqn:Em; [|discriminate].
    rewrite <- (calculate_pace_ok dist dur m t Em Et), Hpace.
    rewrite (py_truediv_numbers dist (PInt 1000) m (NInt 1000) Em eq_refl) in Hkm.
    rewrite (py_truediv_numbers dur (PInt 60) t (NInt 60) Et eq_refl) in Hmins.
    rewrite Hkm, Hmins, Hend. reflexivity.
Qed.

(** What a successful run of the [try] block says about the record. *)
Lemma format_activity_try_inv det sum s s' o :
  format_activity_try E det sum s = (s', Ok o) ->
  exists d r,
    sum = PDict d /\ o = Some r
    /\ (if truthy (dict_field d "startTimeLocal" (PStr "")) then
          exists stripped,
            py_replace_Z (dict_field d "startTimeLocal" (PStr "")) "" = Ok stripped
            /\ fromisoformat E stripped = Some (start_time (run_data r))
        else start_time (run_data r) = now E)
    /\ duration_seconds (run_data r) = dict_field d "duration" (PInt 0)
    /\ distance_meters (run_data r) = dict_field d "distance" (PInt 0)
    /\ calculate_pace (dict_field d "distance" (PInt 0))
                      (dict_field d "duration" (PInt 0))
       = Ok (avg_pace_seconds_per_km (run_data r))
    /\ activity_id (run_data r) = py_str E (dict_field d "activityId" PNone)
    /\ calories (run_data r) = dict_field d "calories" (PInt 0)
    /\ avg_heart_rate (run_data r) = dict_field d "averageHR" PNone
    /\ max_heart_rate (run_data r) = dict_field d "maxHR" PNone.
Proof.
  intros H. unfold format_activity_try in H.
  destruct sum as [| | | | |?|d]; try discriminate H.
  exists d.
  lift_step H start_str Hstart. injection Hstart as <-.
  apply bind_ok_inv in H. destruct H as (st & s1 & Hst & H).
  lift_step H dur Hdur. injection Hdur as <-.
  apply bind_ok_inv in H. destruct H as (en & s2 & Hen & H).
  lift_step H dist Hdist. injection Hdist as <-.
  lift_step H pace Hpace.
  lift_step H aid Haid. injection Haid as <-.
  lift_step H cal Hcal. injection Hcal as <-.
  lift_step H ahr Hahr. injection Hahr as <-.
  lift_step H mhr Hmhr. injection Hmhr as <-.
  apply bind_ok_inv in H. destruct H as (pts & s3 & Hpts & H).
  lift_step H km Hkm.
  lift_step H mins Hmins.
  apply bind_ok_inv in H. destruct H as (u & s4 & Hlog & H).
  unfold ret in H. injection H as <- <-.
  eexists. split; [reflexivity|]. split; [reflexivity|].
  cbn [run_data start_time duration_seconds distance_meters
       avg_pace_seconds_per_km activity_id calories avg_heart_rate max_heart_rate].
  fold (dict_field d "startTimeLocal" (PStr "")) in *.
  fold (dict_field d "duration" (PInt 0)) in *.
  fold (dict_field d "distance" (PInt 0)) in *.
  repeat split; try reflexivity; try assumption.
  destruct (truthy (dict_field d "startTimeLocal" (PStr ""))).
  - lift_step Hst stripped Hstrip.
    apply lift_ok_inv in Hst. destruct Hst as [_ Hst].
    exists stripped. split; [assumption|].
    unfold py_fromisoformat in Hst.
    destruct (fromisoformat E stripped); [|discriminate]. congruence.
  - unfold ret in Hst. congruence.
Qed.

(** The handler of [format_activity_data]: one error record, no value. *)
Lemma format_activity_data_cases det sum s :
  (exists s' r, format_activity_try E det sum s = (s', Ok (Some r))
                /\ format_activity_data E det sum s = (s', Ok (Some r)))
  \/ (exists s1 e, format_activity_try E det sum s = (s1, Raise e)
                   /\ format_activity_data E det sum s
                      = (logged s1 ERROR (MsgFormatError e), Ok None)).
Proof.
  unfold format_activity_data, try_except.
  destruct (format_activity_try E det sum s) as [s1 [o|e]] eqn:Hbody.
  - left. destruct (format_activity_try_inv _ _ _ _ _ Hbody) as (d & r & _ & -> & _).
    eauto.
  - right. exists s1, e. split; reflexivity.
Qed.

(** With usable metrics the [try] block runs to its end once the start time
    is known. *)
Lemma format_activity_try_runs det d s :
  truthy (dict_field d "startTimeLocal" (PStr "")) = false ->
  metrics_ok d (now E) = true ->
  exists s' r, format_activity_try E det (PDict d) s = (s', Ok (Some r))
               /\ start_time (run_data r) = now E.
Proof.
  intros Hstart Hm. apply metrics_ok_iff in Hm.
  destruct Hm as [(pace & km & mins & Hpace & Hkm & Hmins) Hend].
  unfold format_activity_try.
  cbn [py_get]. fold (dict_field d "startTimeLocal" (PStr "")).
  fold (dict_field d "duration" (PInt 0)).
  fold (dict_field d "distance" (PInt 0)).
  set (dur := dict_field d "duration" (PInt 0)) in *.
  set (dist := dict_field d "distance" (PInt 0)) in *.
  rewrite (bind_lift_ok _ _ _ _ eq_refl). rewrite Hstart.
  rewrite (bind_eq _ _ _ _ _ (eq_refl : ret (now E) s = (s, Ok (now E)))).
  rewrite (bind_lift_ok _ _ _ _ eq_refl).
  assert (Hen : exists en,
             (if truthy dur then
                delta <- lift (timedelta_seconds dur) ;;
                e <- lift (datetime_add (now E) delta) ;;
                ret (Some e)
              else ret None) s = (s, Ok en)).
  { destruct (truthy dur).
    - destruct (timedelta_seconds dur) as [delta|] eqn:Hd; [|discriminate].
      destruct (datetime_add (now E) delta) as [e|] eqn:Ha; [|discriminate].
      exists (Some e). unfold bind, lift, ret. rewrite Ha. reflexivity.
    - exists None. reflexivity. }
  destruct Hen as (en & Hen). rewrite (bind_eq _ _ _ _ _ Hen).
  rewrite (bind_lift_ok _ _ _ _ eq_refl).
  rewrite (bind_lift_ok _ _ _ _ Hpace).
  do 4 rewrite (bind_lift_ok _ _ _ _ eq_refl).
  destruct (get_gps_data_total (match assoc "activityId" d with
                                | Some x => x | None => PNone end) s)
    as (s1 & pts & Hgps).
  rewrite (bind_eq _ _ _ _ _ Hgps).
  rewrite (bind_lift_ok _ _ _ _ Hkm), (bind_lift_ok _ _ _ _ Hmins).
  eexists; eexists. split; reflexivity.
Qed.

End Normalisation.

(** C3 as stated fails for calories: the summary leaves them out and the
    record holds 0, not an absent value. *)
Lemma omitted_calories_default_to_zero :
  assoc "calories" Example.run_42 = None
  /\ exists s r,
       format_activity_data Example.no_track (PDict []) (PDict Example.run_42)
                            Example.logged_in = (s, Ok (Some r))
       /\ calories (run_data r) = PInt 0.
Proof.
  split; [reflexivity|]. eexists; eexists. split; [vm_compute; reflexivity|reflexivity].
Qed.

(** C3, amended.  In a normalised record the two heart-rate fields and the
    calories are the values of the summary record, unchanged; a heart-rate
    field that the summary leaves out is absent ([None]); calories that the
    summary leaves out are 0. *)
Theorem vitals_pass_through :
  forall E det sum s s' r,
    format_activity_data E det sum s = (s', Ok (Some r)) ->
    exists d,
      sum = PDict d
      /\ avg_heart_rate (run_data r)
         = match assoc "averageHR" d with Some v => v | None => PNone end
      /\ max_heart_rate (run_data r)
         = match assoc "maxHR" d with Some v => v | None => PNone end
      /\ calories (run_data r)
         = match assoc "calories" d with Some v => v | None => PInt 0 end.
Proof.
  intros E det sum s s' r H.
  destruct (format_activity_data_cases E det sum s)
    as [(s1 & r1 & Hbody & Hrun) | (s1 & e & _ & Hrun)];
    rewrite Hrun in H; [|discriminate].
  injection H as <- <-.
  destruct (format_activity_try_inv _ _ _ _ _ _ Hbody)
    as (d & r' & -> & Hr & _ & _ & _ & _ & _ & Hcal & Havg & Hmax).
  injection Hr as <-.
  exists d. repeat split; assumption.
Qed.

Lemma vitals_pass_through_witness :
  exists d,
    PDict Example.run_42 = PDict d
    /\ PInt 152 = match assoc "averageHR" d with Some v => v | None => PNone end
    /\ PNone = match assoc "maxHR" d with Some v => v | None => PNone end
    /\ PInt 0 = match assoc "calories" d with Some v => v | None => PInt 0 end.
Proof.
  eapply (vitals_pass_through Example.no_track (PDict []) (PDict Example.run_42)
            Example.logged_in _
            (mkActivityData
               (mkRunData "42" (mkDatetime 63839685600000000 None)
                          (Some (mkDatetime 63839688600000000 None))
                          (PInt 10000) (PInt 3000) (Some (nearest 300 0 false))
                          (PInt 0) (PInt 152) PNone) [])).
  vm_compute. reflexivity.
Defined.

(** C4 as stated fails for a start-time string that does not parse:
    normalisation gives no record for it. *)
Lemma unparseable_start_time_fails :
  Example.iso_parse (replace_char "Z" "" "yesterday morning") = None
  /\ format_activity_data Example.no_track (PDict []) (PDict Example.run_42_bad_start)
                          Example.logged_in
     = (logged Example.logged_in ERROR (MsgFormatError ValueError), Ok None).
Proof. split; vm_compute; reflexivity. Qed.

(** C4, amended.  A non-empty start-time string is parsed after every ["Z"]
    has been removed from it, and the parsed value is the record's start
    time; when the string is missing or empty, normalisation of a record with
    usable metrics succeeds with the current time as start time; when the
    string does not parse, normalisation returns no record, logs the error
    and raises nothing. *)
Theorem start_time_normalisation :
  (forall E det d s s' r str,
      format_activity_data E det (PDict d) s = (s', Ok (Some r)) ->
      dict_field d "startTimeLocal" (PStr "") = PStr str ->
      str <> "" ->
      fromisoformat E (replace_char "Z" "" str) = Some (start_time (run_data r)))
  /\ (forall E det d s,
         truthy (dict_field d "startTimeLocal" (PStr "")) = false ->
         metrics_ok d (now E) = true ->
         exists s' r,
           format_activity_data E det (PDict d) s = (s', Ok (Some r))
           /\ start_time (run_data r) = now E)
  /\ (forall E det d s str,
         dict_field d "startTimeLocal" (PStr "") = PStr str ->
         str <> "" ->
         fromisoformat E (replace_char "Z" "" str) = None ->
         format_activity_data E det (PDict d) s
         = (logged s ERROR (MsgFormatError ValueError), Ok None)).
Proof.
  split; [|split].
  - intros E det d s s' r str H Hstr Hne.
    destruct (format_activity_data_cases E det (PDict d) s)
      as [(s1 & r1 & Hbody & Hrun) | (s1 & e & _ & Hrun)];
      rewrite Hrun in H; [|discriminate].
    injection H as <- <-.
    destruct (format_activity_try_inv _ _ _ _ _ _ Hbody)
      as (d' & r' & Hd & Hr & Hstart & _).
    injection Hd as <-. injection Hr as <-.
    rewrite Hstr in Hstart. simpl in Hstart.
    destruct (String.eqb_spec str "") as [|_]; [contradiction|].
    simpl in Hstart. destruct Hstart as (stripped & Hs & Hp).
    injection Hs as <-. exact Hp.
  - intros E det d s Hstart Hm.
    destruct (format_activity_try_runs E det d s Hstart Hm) as (s' & r & Hbody & Hnow).
    exists s', r. split; [|exact Hnow].
    unfold format_activity_data, try_except. rewrite Hbody. reflexivity.
  - intros E det d s str Hstr Hne Hp.
    unfold format_activity_data, try_except, format_activity_try.
    cbn [py_get]. fold (dict_field d "startTimeLocal" (PStr "")).
    rewrite (bind_lift_ok _ _ _ _ eq_refl). rewrite Hstr.
    cbn [truthy]. destruct (String.eqb_spec str "") as [|_]; [contradiction|].
    cbn [negb].
    erewrite bind_raise; [reflexivity|].
    cbn [py_replace_Z]. rewrite (bind_lift_ok _ _ _ _ eq_refl).
    unfold lift, py_fromisoformat. rewrite Hp. reflexivity.
Qed.

Lemma start_time_normalisation_witness :
  Example.iso_parse (replace_char "Z" "" "2024-01-01T06:00:00")
  = Some (mkDatetime 63839685600000000 None)
  /\ (exists s' r,
         format_activity_data Example.no_track (PDict []) (PDict Example.run_42_no_start)
                              Example.logged_in = (s', Ok (Some r))
         /\ start_time (run_data r) = now Example.no_track)
  /\ format_activity_data Example.no_track (PDict []) (PDict Example.run_42_bad_start)
                          Example.logged_in
     = (logged Example.logged_in ERROR (MsgFormatError ValueError), Ok None).
Proof.
  destruct start_time_normalisation as (Hparse & Hnow & Hbad).
  split; [|split].
  - eapply (Hparse Example.no_track (PDict []) Example.run_42 Example.logged_in
                  _ (mkActivityData
                       (mkRunData "42" (mkDatetime 63839685600000000 None)
                                  (Some (mkDatetime 63839688600000000 None))
                                  (PInt 10000) (PInt 3000) (Some (nearest 300 0 false))
                                  (PInt 0) (PInt 152) PNone) [])
                  "2024-01-01T06:00:00").
    + vm_compute. reflexivity.
    + reflexivity.
    + discriminate.
  - apply Hnow; vm_compute; reflexivity.
  - apply (Hbad Example.no_track (PDict []) Example.run_42_bad_start Example.logged_in
                "yesterday morning").
    + reflexivity.
    + discriminate.
    + vm_compute. reflexivity.
Defined.

(** C8 as stated fails for a summary record that is a mapping without an
    identifier: a record is produced, under the identifier ["None"]. *)
Lemma missing_identifier_yields_record :
  assoc "activityId" Example.run_without_id = None
  /\ exists s r,
       format_activity_data Example.no_track (PDict []) (PDict Example.run_without_id)
                            Example.logged_in = (s, Ok (Some r))
       /\ activity_id (run_data r) = "None".
Proof.
  split; [reflexivity|]. eexists; eexists. split; [vm_compute; reflexivity|reflexivity].
Qed.

(** C8, amended.  No exception leaves the normalisation step: it returns a
    record or nothing, and when it returns nothing its last act was to log
    the error.  A summary record that is not a mapping gives nothing.  A
    mapping is not rejected for its identifier by this step: the identifier
    of the record is [str] of the [activityId] entry, ["None"] when there is
    none.  It is the caller, [get_latest_run], that gives up (logged, no
    exception) when the selected activity has no [activityId] key. *)
Theorem format_activity_data_contains_failure :
  (forall E det sum s,
      exists s' o,
        format_activity_data E det sum s = (s', Ok o)
        /\ (o = None -> exists s1 e, s' = logged s1 ERROR (MsgFormatError e)))
  /\ (forall E det sum s,
         (forall d, sum <> PDict d) ->
         format_activity_data E det sum s
         = (logged s ERROR (MsgFormatError AttributeError), Ok None))
  /\ (forall E det sum s s' r,
         format_activity_data E det sum s = (s', Ok (Some r)) ->
         exists d,
           sum = PDict d
           /\ activity_id (run_data r)
              = py_str E (match assoc "activityId" d with Some v => v | None => PNone end))
  /\ (forall E s activities latest rest e,
         st_logged_in s = true ->
         st_client s = true ->
         client_get_activities E 0 100 = Ok activities ->
         filter_running activities = Ok (latest :: rest) ->
         py_getitem latest "activityId" = Raise e ->
         get_latest_run E s
         = (logged
              (logged
                 (logged s INFO (MsgFoundTotal (List.length activities)))
                 INFO (MsgFoundRunning (List.length (latest :: rest))))
              ERROR (MsgLatestRunError e),
            Ok None)).
Proof.
  split; [|split; [|split]].
  - intros E det sum s.
    destruct (format_activity_data_cases E det sum s)
      as [(s1 & r1 & _ & Hrun) | (s1 & e & _ & Hrun)]; rewrite Hrun.
    + eexists; eexists. split; [reflexivity|discriminate].
    + eexists; eexists. split; [reflexivity|]. intros _. eauto.
  - intros E det sum s Hnot.
    unfold format_activity_data, try_except, format_activity_try.
    destruct sum; try reflexivity.
    exfalso. eapply Hnot. reflexivity.
  - intros E det sum s s' r H.
    destruct (format_activity_data_cases E det sum s)
      as [(s1 & r1 & Hbody & Hrun) | (s1 & e & _ & Hrun)];
      rewrite Hrun in H; [|discriminate].
    injection H as <- <-.
    destruct (format_activity_try_inv _ _ _ _ _ _ Hbody)
      as (d & r' & -> & Hr & _ & _ & _ & _ & Hid & _).
    injection Hr as <-. exists d. split; [reflexivity|exact Hid].
  - intros E s activities latest rest e Hin Hcl Hacts Hrun Hid.
    destruct s as [lg cl li db cm ops]. simpl in Hin, Hcl. subst cl li.
    unfold get_latest_run, try_except, self_client, get_state, bind, ret,
      raise, lift, logging, logged.
    cbn [st_logged_in st_client negb st_log st_db st_committed st_ops].
    rewrite Hacts. cbn [st_logged_in st_client negb st_log st_db st_committed st_ops].
    rewrite Hrun. cbn [st_logged_in st_client negb st_log st_db st_committed st_ops].
    rewrite Hid. reflexivity.
Qed.

Lemma format_activity_data_contains_failure_witness :
  format_activity_data Example.no_track (PDict []) PNone Example.logged_in
  = (logged Example.logged_in ERROR (MsgFormatError AttributeError), Ok None)
  /\ (exists d,
         PDict Example.run_without_id = PDict d
         /\ "None"
            = py_str Example.no_track
                (match assoc "activityId" d with Some v => v | None => PNone end))
  /\ get_latest_run (Example.env [PDict Example.run_without_id] (Ok "")) Example.logged_in
     = (logged
          (logged (logged Example.logged_in INFO (MsgFoundTotal 1))
                  INFO (MsgFoundRunning 1))
          ERROR (MsgLatestRunError (KeyError "activityId")),
        Ok None).
Proof.
  destruct format_activity_data_contains_failure as (_ & Hnot & Hid & Hcaller).
  split; [|split].
  - apply Hnot. discriminate.
  - eapply (Hid Example.no_track (PDict []) (PDict Example.run_without_id)
                Example.logged_in _
                (mkActivityData
                   (mkRunData "None" (mkDatetime 63839685600000000 None)
                              (Some (mkDatetime 63839688600000000 None))
                              (PInt 10000) (PInt 3000) (Some (nearest 300 0 false))
                              (PInt 0) PNone PNone) [])).
    vm_compute. reflexivity.
  - apply (Hcaller (Example.env [PDict Example.run_without_id] (Ok ""))
                   Example.logged_in [PDict Example.run_without_id]
                   (PDict Example.run_without_id) []); reflexivity.
Defined.

(* --------------------------------------------------------------------- *)
(** ** The batch query *)
(* --------------------------------------------------------------------- *)

Section BatchQuery.

Variable E : Env.

Lemma rbind_ok_id {A} (r : result A) : rbind r (fun x => Ok x) = r.
Proof. destruct r; reflexivity. Qed.


Lemma recent_loop_skips_missing horizon activities :
  recent_loop E horizon (filter (fun a => negb (start_missing_or_empty a)) activities)
  = recent_loop E horizon activities.
Proof.
  induction activities as [|a rest IH]; [reflexivity|].
  cbn [filter]. destruct (start_missing_or_empty a) eqn:Hm; cbn [negb].
  - rewrite IH. unfold start_missing_or_empty in Hm.
    destruct a as [| | | | |?|d]; try discriminate Hm.
    cbn [recent_loop py_get rbind].
    destruct (assoc "startTimeLocal" d) as [v|].
    + destruct v; try discriminate Hm.
      apply String.eqb_eq in Hm. subst. cbn [truthy String.eqb negb rbind].
      symmetry. apply rbind_ok_id.
    + cbn [truthy String.eqb negb rbind]. symmetry. apply rbind_ok_id.
  - cbn [recent_loop]. rewrite IH. reflexivity.
Qed.

Lemma recent_loop_has_start horizon activities :
  forall recent a,
    recent_loop E horizon activities = Ok recent ->
    In a recent -> start_missing_or_empty a = false.
Proof.
  induction activities as [|b rest IH]; intros recent a Hrun Hin.
  - injection Hrun as <-. contradiction.
  - cbn [recent_loop] in Hrun.
    destruct (py_get b "startTimeLocal" (PStr "")) as [v|] eqn:Hget; [|discriminate].
    cbn [rbind] in Hrun.
    destruct (recent_loop E horizon rest) as [recent'|] eqn:Hrest.
    + destruct (truthy v) eqn:Hv.
      * match type of Hrun with
        | rbind ?k _ = _ => destruct k as [keep|]; [|discriminate]
        end.
        cbn [rbind] in Hrun. injection Hrun as <-.
        destruct keep; [|eapply IH; eauto].
        destruct Hin as [<-|Hin]; [|eapply IH; eauto].
        destruct b as [| | | | |?|d]; try discriminate Hget.
        cbn [py_get] in Hget. injection Hget as <-.
        unfold start_missing_or_empty.
        destruct (assoc "startTimeLocal" d) as [w|]; [|discriminate Hv].
        destruct w; try reflexivity. cbn [truthy] in Hv.
        destruct (s =? "")%string; [discriminate Hv|reflexivity].
      * cbn [rbind] in Hrun. injection Hrun as <-. eapply IH; eauto.
    + destruct (truthy v).
      * match type of Hrun with
        | rbind ?k _ = _ => destruct k; discriminate
        end.
      * discriminate.
Qed.


End BatchQuery.




(** C10.  The batch query leaves out every activity whose start-time string
    is missing or empty: none is ever in its result, and their presence in
    the listing changes neither the result nor the log (nothing is reported
    about them). *)
Theorem get_activities_since_skips_missing_start :
  forall E days_back s activities,
    client_get_activities E 0 (days_back * 10) = Ok activities ->
    get_activities_since E days_back s
    = get_activities_since
        (serving E (filter (fun a => negb (start_missing_or_empty a)) activities))
        days_back s
    /\ (forall s' recent a,
           get_activities_since E days_back s = (s', Ok recent) ->
           In a recent -> start_missing_or_empty a = false).
Proof.
  intros E days_back s activities Hacts. split.
  - unfold get_activities_since, try_except, self_client, get_state, bind, ret,
      raise, lift.
    destruct (st_logged_in s); [|reflexivity]. cbn [negb].
    destruct (st_client s); [|reflexivity].
    rewrite Hacts. cbn [serving client_get_activities].
    destruct (timedelta_days days_back) as [delta|]; [|reflexivity].
    change (now (serving E _)) with (now E).
    destruct (datetime_add (now E) (- delta)) as [horizon|]; [|reflexivity].
    replace (recent_loop (serving E (filter (fun a => negb (start_missing_or_empty a))
                                            activities)))
      with (recent_loop E) by reflexivity.
    rewrite recent_loop_skips_missing. reflexivity.
  - intros s' recent a Hrun Hin.
    unfold get_activities_since, try_except, self_client, get_state, bind, ret,
      raise, lift in Hrun.
    destruct (st_logged_in s); cbn [negb] in Hrun;
      [|unfold logging in Hrun; injection Hrun as _ <-; contradiction].
    destruct (st_client s);
      [|unfold logging in Hrun; injection Hrun as _ <-; contradiction].
    rewrite Hacts in Hrun.
    destruct (timedelta_days days_back) as [delta|];
      [|unfold logging in Hrun; injection Hrun as _ <-; contradiction].
    destruct (datetime_add (now E) (- delta)) as [horizon|];
      [|unfold logging in Hrun; injection Hrun as _ <-; contradiction].
    destruct (recent_loop E horizon activities) as [recent'|] eqn:Hloop;
      [|unfold logging in Hrun; injection Hrun as _ <-; contradiction].
    injection Hrun as _ <-.
    eapply recent_loop_has_start; eauto.
Qed.

Lemma get_activities_since_skips_missing_start_witness :
  get_activities_since
    (Example.env [Example.run_no_start; Example.run_1_day_ago;
                  Example.run_empty_start] (Ok ""))
    7 Example.logged_in
  = get_activities_since
      (serving (Example.env [Example.run_no_start; Example.run_1_day_ago;
                             Example.run_empty_start] (Ok ""))
               (filter (fun a => negb (start_missing_or_empty a))
                       [Example.run_no_start; Example.run_1_day_ago;
                        Example.run_empty_start]))
      7 Example.logged_in
  /\ (forall s' recent a,
         get_activities_since
           (Example.env [Example.run_no_start; Example.run_1_day_ago;
                         Example.run_empty_start] (Ok ""))
           7 Example.logged_in = (s', Ok recent) ->
         In a recent -> start_missing_or_empty a = false).
Proof.
  apply (get_activities_since_skips_missing_start
           (Example.env [Example.run_no_start; Example.run_1_day_ago;
                         Example.run_empty_start] (Ok ""))
           7 Example.logged_in
           [Example.run_no_start; Example.run_1_day_ago; Example.run_empty_start]).
  reflexivity.
Defined.

(* --------------------------------------------------------------------- *)
(** ** What the service side leaves alone *)
(* --------------------------------------------------------------------- *)

Lemma keeps_db_ret {A} (a : A) : keeps_db (ret a).
Proof. intros s. auto. Qed.

Lemma keeps_db_raise {A} e : keeps_db (@raise A e).
Proof. intros s. auto. Qed.

Lemma keeps_db_lift {A} (r : result A) : keeps_db (lift r).
Proof. intros s. auto. Qed.

Lemma keeps_db_logging lvl msg : keeps_db (logging lvl msg).
Proof. intros s. auto. Qed.

Lemma keeps_db_get_state : keeps_db get_state.
Proof. intros s. auto. Qed.

Lemma keeps_db_set_client b : keeps_db (set_client b).
Proof. intros s. auto. Qed.

Lemma keeps_db_set_logged_in b : keeps_db (set_logged_in b).
Proof. intros s. auto. Qed.

Lemma keeps_db_bind {A B} (m : M A) (k : A -> M B) :
  keeps_db m -> (forall a, keeps_db (k a)) -> keeps_db (bind m k).
Proof.
  intros Hm Hk s. unfold bind. specialize (Hm s).
  destruct (m s) as [s1 [a|e]]; simpl in Hm.
  - destruct (Hk a s1) as (H1 & H2 & H3). destruct Hm as (G1 & G2 & G3).
    repeat split; congruence.
  - exact Hm.
Qed.

Lemma keeps_db_try_except {A} (m : M A) (h : Exn -> M A) :
  keeps_db m -> (forall e, keeps_db (h e)) -> keeps_db (try_except m h).
Proof.
  intros Hm Hh s. unfold try_except. specialize (Hm s).
  destruct (m s) as [s1 [a|e]]; simpl in Hm.
  - exact Hm.
  - destruct (Hh e s1) as (H1 & H2 & H3). destruct Hm as (G1 & G2 & G3).
    repeat split; congruence.
Qed.

Create HintDb frame.
#[local] Hint Resolve keeps_db_ret keeps_db_raise keeps_db_lift keeps_db_logging
  keeps_db_get_state keeps_db_set_client keeps_db_set_logged_in : frame.

(** Walk down a monadic term, splitting binds, handlers and tests. *)
Ltac frame :=
  repeat first
    [ solve [auto with frame]
    | apply keeps_db_bind; [|intros]
    | apply keeps_db_try_except; [|intros]
    | progress cbv zeta
    | match goal with
      | |- keeps_db (if ?c then _ else _) => destruct c
      | |- keeps_db (match ?x with _ => _ end) => destruct x
      end ].

Section ServiceSide.

Variable E : Env.

Lemma keeps_db_login : keeps_db (login E).
Proof. unfold login. frame. Qed.

Lemma keeps_db_self_client : keeps_db self_client.
Proof. unfold self_client. frame. Qed.

Lemma keeps_db_parse_gpx_simple data : keeps_db (parse_gpx_simple E data).
Proof. unfold parse_gpx_simple. frame. Qed.

Lemma keeps_db_get_gps_data id : keeps_db (get_gps_data E id).
Proof.
  unfold get_gps_data. pose proof keeps_db_self_client.
  pose proof keeps_db_parse_gpx_simple. frame.
Qed.

Lemma keeps_db_format_activity_data det sum :
  keeps_db (format_activity_data E det sum).
Proof.
  unfold format_activity_data, format_activity_try.
  pose proof keeps_db_get_gps_data. frame.
Qed.

Lemma keeps_db_get_latest_run : keeps_db (get_latest_run E).
Proof.
  unfold get_latest_run. pose proof keeps_db_self_client.
  pose proof keeps_db_format_activity_data. frame.
Qed.

End ServiceSide.

(* --------------------------------------------------------------------- *)
(** ** The store *)
(* --------------------------------------------------------------------- *)

Lemma keeps_db_at {A} (m : M A) s s' r :
  keeps_db m -> m s = (s', r) ->
  st_db s' = st_db s /\ st_committed s' = st_committed s /\ st_ops s' = st_ops s.
Proof. intros H Hrun. specialize (H s). rewrite Hrun in H. exact H. Qed.

Lemma find_existsb {A} (f : A -> bool) (l : list A) :
  find f l = None -> existsb f l = false.
Proof.
  induction l as [|x l IH]; simpl; [reflexivity|].
  destruct (f x); [discriminate|exact IH].
Qed.

Lemma find_filter_nil {A} (f : A -> bool) (l : list A) :
  find f l = None -> filter f l = [].
Proof.
  induction l as [|x l IH]; simpl; [reflexivity|].
  destruct (f x); [discriminate|exact IH].
Qed.

Lemma select_run_none id db :
  select_run id db = None ->
  existsb (has_activity id) (runs db) = false /\ stored id db = 0%nat.
Proof.
  unfold select_run, stored.
  destruct (find (has_activity id) (runs db)) eqn:Hf; [discriminate|].
  intros _. split; [apply find_existsb; exact Hf|].
  rewrite (find_filter_nil _ _ Hf). reflexivity.
Qed.


Lemma stored_app id rs gs n row :
  stored id (mkStore (rs ++ [row]) gs n)
  = (stored id (mkStore rs gs n) + (if has_activity id row then 1 else 0))%nat.
Proof.
  unfold stored. cbn [runs]. rewrite filter_app, length_app. cbn [filter].
  destruct (has_activity id row); reflexivity.
Qed.

Lemma existsb_false_stored id db :
  existsb (has_activity id) (runs db) = false -> stored id db = 0%nat.
Proof.
  unfold stored. induction (runs db) as [|r l IH]; cbn [existsb filter]; [reflexivity|].
  destruct (has_activity id r); [discriminate|exact IH].
Qed.

Lemma unique_ids_rows db db' : runs db' = runs db -> unique_ids db -> unique_ids db'.
Proof. intros Hr Hu id. unfold stored. rewrite Hr. apply Hu. Qed.

Lemma unique_ids_append rs gs n gs' n' row :
  unique_ids (mkStore rs gs n) ->
  existsb (has_activity (activity_id (row_data row))) rs = false ->
  unique_ids (mkStore (rs ++ [row]) gs' n').
Proof.
  intros Hu Hex id. rewrite stored_app.
  assert (Hsame : stored id (mkStore rs gs' n') = stored id (mkStore rs gs n)) by reflexivity.
  rewrite Hsame. unfold has_activity at 1.
  destruct (String.eqb_spec (activity_id (row_data row)) id) as [<-|_].
  - rewrite (existsb_false_stored _ (mkStore rs gs n) Hex). lia.
  - specialize (Hu id). lia.
Qed.

Section Store.

Variable E : Env.

Lemma get_activity_by_id_runs id s :
  get_activity_by_id id s = (executed s (SqlSelectRun id), Ok (select_run id (st_db s))).
Proof. reflexivity. Qed.

Lemma insert_gps_loop_spec run points :
  forall s, exists s' r tail,
    insert_gps_loop run points s = (s', r)
    /\ runs (st_db s') = runs (st_db s)
    /\ st_committed s' = st_committed s
    /\ st_ops s' = (st_ops s ++ tail)%list
    /\ Forall (fun op => touches_runs op = false) tail.
Proof.
  induction points as [|p rest IH]; intros s.
  - exists s, (Ok tt), []. rewrite app_nil_r. repeat split. constructor.
  - cbn [insert_gps_loop]. unfold bind at 1. cbn [db_execute].
    unfold bind at 1. unfold sql_insert_gps_point.
    cbn [st_db st_committed st_ops st_log st_client st_logged_in].
    destruct (negb (existsb (fun r => row_id r =? run) (runs (st_db s)))).
    { eexists; eexists; exists [SqlInsertGpsPoint run]. repeat split.
      constructor; [reflexivity|constructor]. }
    destruct (negb (numeric_fits 10 8 (latitude p) && numeric_fits 11 8 (longitude p))).
    { eexists; eexists; exists [SqlInsertGpsPoint run]. repeat split.
      constructor; [reflexivity|constructor]. }
    match goal with
    | |- context [insert_gps_loop run rest ?s0] =>
        destruct (IH s0) as (s' & r & tail & Hrun & Hruns & Hcm & Hops & Hsel)
    end.
    exists s', r, (SqlInsertGpsPoint run :: tail). rewrite Hrun.
    cbn [with_db st_db st_committed st_ops runs] in *.
    repeat split; try assumption.
    + rewrite Hops, <- app_assoc. reflexivity.
    + constructor; [reflexivity|assumption].
Qed.

Lemma insert_gps_points_spec run points s :
  quiescent s ->
  exists s' tail,
    insert_gps_points run points s = (s', Ok tt)
    /\ quiescent s'
    /\ runs (st_db s') = runs (st_db s)
    /\ st_ops s' = (st_ops s ++ tail)%list
    /\ Forall (fun op => touches_runs op = false) tail.
Proof.
  intros Hq. unfold quiescent in Hq.
  unfold insert_gps_points, try_except. unfold bind at 1.
  destruct (insert_gps_loop_spec run points s)
    as (s1 & r & tail & Hrun & Hruns & Hcm & Hops & Hsel).
  rewrite Hrun. destruct r as [[]|e].
  - eexists; exists (tail ++ [SqlCommit])%list. split; [reflexivity|].
    cbn [st_db st_committed st_ops st_log st_client st_logged_in fst snd].
    unfold quiescent. cbn. repeat split.
    + exact Hruns.
    + rewrite Hops, <- app_assoc. reflexivity.
    + apply Forall_app. split; [assumption|constructor; [reflexivity|constructor]].
  - eexists; exists (tail ++ [SqlRollback])%list. split; [reflexivity|].
    unfold quiescent. cbn. repeat split.
    + rewrite Hcm, <- Hq. reflexivity.
    + rewrite Hops, <- app_assoc. reflexivity.
    + apply Forall_app. split; [assumption|constructor; [reflexivity|constructor]].
Qed.

(** [insert_run] never raises; it issues the insert and a commit or a
    rollback.  The row goes in exactly when the table accepts its values and
    the stored form of the identifier is new; a row turned away for its
    identifier has spent a serial number. *)
Lemma insert_run_spec d s :
  quiescent s ->
  exists s' o op,
    insert_run E d s = (s', Ok o)
    /\ quiescent s'
    /\ st_ops s' = (st_ops s ++ [SqlInsertRun (activity_id d); op])%list
    /\ touches_runs op = false
    /\ match stored_form E d with
       | None => o = None /\ st_db s' = st_db s
       | Some row =>
           if existsb (has_activity (activity_id row)) (runs (st_db s))
           then o = None
                /\ st_db s' = mkStore (runs (st_db s)) (gps_rows (st_db s))
                                      (runs_id_seq (st_db s) + 1)
           else o = Some (runs_id_seq (st_db s))
                /\ st_db s' = mkStore (runs (st_db s) ++ [mkRunRow (runs_id_seq (st_db s)) row])
                                      (gps_rows (st_db s)) (runs_id_seq (st_db s) + 1)
       end.
Proof.
  intros Hq. unfold quiescent in *.
  destruct s as [lg cl li [rs gs n] cm ops]. cbn [st_db st_committed] in Hq. subst cm.
  unfold insert_run, try_except, bind, db_execute, sql_insert_run, db_commit,
    db_rollback, rolled_back, logging, ret, with_db.
  cbn [st_db st_committed st_ops st_log st_client st_logged_in runs gps_rows runs_id_seq].
  destruct (stored_form E d) as [row|].
  - destruct (existsb (has_activity (activity_id row)) rs).
    + eexists; eexists; exists SqlRollback.
      split; [reflexivity|cbn; rewrite <- ?app_assoc; repeat split].
    + eexists; eexists; exists SqlCommit.
      split; [reflexivity|cbn; rewrite <- ?app_assoc; repeat split].
  - eexists; eexists; exists SqlRollback.
    split; [reflexivity|cbn; rewrite <- ?app_assoc; repeat split].
Qed.


End Store.

(* --------------------------------------------------------------------- *)
(** ** One run of [main] *)
(* --------------------------------------------------------------------- *)

Section MainRun.

Variable E : Env.

Lemma login_total s : exists s' b, login E s = (s', Ok b).
Proof.
  unfold login, try_except.
  match goal with |- context [match ?m s with _ => _ end] => destruct (m s) as [s1 [b|e]] end.
  - eauto.
  - eexists; eexists; reflexivity.
Qed.



Lemma create_tables_runs s :
  exists s',
    create_tables s = (s', Ok tt)
    /\ st_db s' = st_db s
    /\ st_committed s' = st_db s
    /\ st_ops s' = (st_ops s ++ [SqlCreateRuns; SqlCreateGpsPoints; SqlCommit])%list.
Proof.
  eexists. split; [reflexivity|]. cbn. rewrite <- !app_assoc. auto.
Qed.

Lemma main_try_unfold :
  main_try E
  = (ok <- login E ;;
     if negb ok then logging ERROR MsgMainLoginFailed
     else latest <- get_latest_run E ;; after_fetch E latest).
Proof. reflexivity. Qed.


Lemma close_runs s :
  close s = (mkSt (st_log s ++ [mkLog INFO MsgDbClosed]) (st_client s) (st_logged_in s)
                  (rolled_back s) (rolled_back s) (st_ops s ++ [SqlClose]), Ok tt).
Proof. reflexivity. Qed.

Lemma rolled_back_quiescent s : quiescent s -> rolled_back s = st_db s.
Proof.
  unfold quiescent, rolled_back. intros <-. destruct (st_db s); reflexivity.
Qed.


Lemma statements_eq s s' new :
  main E s = (s', Ok tt) -> st_ops s' = (st_ops s ++ new)%list -> statements E s = new.
Proof.
  intros Hrun Hops. unfold statements, after_main. rewrite Hrun. cbn [fst].
  rewrite Hops, skipn_app, skipn_all, Nat.sub_diag. reflexivity.
Qed.

End MainRun.

(* --------------------------------------------------------------------- *)
(** ** Idempotence of ingestion *)
(* --------------------------------------------------------------------- *)







(* ===================================================================== *)
(** * Further properties *)
(* ===================================================================== *)

(* --------------------------------------------------------------------- *)
(** ** The track parser on any document *)
(* --------------------------------------------------------------------- *)

Lemma find_none_forallb {A} (f : A -> bool) (l : list A) :
  forallb (fun x => negb (f x)) l = true -> find f l = None.
Proof.
  induction l as [|x l IH]; cbn [forallb find]; [reflexivity|].
  intros H. apply andb_true_iff in H as [Hx Hl].
  destruct (f x); [discriminate|auto].
Qed.

Lemma forallb_rev {A} (f : A -> bool) (l : list A) :
  forallb f (rev l) = forallb f l.
Proof.
  induction l as [|x l IH]; [reflexivity|].
  cbn [rev forallb]. rewrite forallb_app, IH. cbn [forallb].
  rewrite andb_true_r. apply andb_comm.
Qed.

(** X1.  On any document that parses, [parse_gpx_simple] returns the samples
    of the eligible track-points (both coordinates present and not empty) in
    document order up to the first one that has a coordinate or an elevation
    text that is not a number: either all of them, with nothing logged, or
    those before it, with one warning. *)
Theorem parse_gpx_simple_reads_prefix :
  forall E gpx_data root s,
    ET_fromstring E gpx_data = Ok root ->
    exists pts k,
      snd (parse_gpx_simple E gpx_data s) = Ok pts
      /\ Forall2 (sample_of E) (firstn k (filter eligible (iter root))) pts
      /\ forallb (numeric E) (firstn k (filter eligible (iter root))) = true
      /\ ((k = List.length (filter eligible (iter root))
           /\ fst (parse_gpx_simple E gpx_data s) = s)
          \/ (fst (parse_gpx_simple E gpx_data s)
              = logged s WARNING (MsgGpxParseError ValueError)
              /\ exists bad, nth_error (filter eligible (iter root)) k = Some bad
                             /\ numeric E bad = false)).
Proof. exact parse_gpx_simple_prefix_exact. Qed.

Lemma parse_gpx_simple_reads_prefix_witness :
  exists pts k,
    snd (parse_gpx_simple (Example.env [] (Ok ""))
           "<gpx><trkpt lat='47.5' lon='8.5'/><trkpt lat='47.6' lon='east'/><trkpt lat='47.7' lon='8.7'/></gpx>"
           Example.fresh) = Ok pts
    /\ List.length pts = Nat.min k 3.
Proof.
  edestruct (parse_gpx_simple_reads_prefix (Example.env [] (Ok ""))
               "<gpx><trkpt lat='47.5' lon='8.5'/><trkpt lat='47.6' lon='east'/><trkpt lat='47.7' lon='8.7'/></gpx>")
    as (pts & k & Hrun & Hall & _).
  - vm_compute. reflexivity.
  - exists pts, k. split; [exact Hrun|].
    apply Forall2_length in Hall. rewrite <- Hall. rewrite length_firstn. reflexivity.
Defined.

Lemma in_firstn_in {A} (k : nat) (l : list A) (x : A) :
  In x (firstn k l) -> In x l.
Proof.
  revert l. induction k as [|k IH]; intros [|y l] H; simpl in *; try contradiction.
  destruct H as [->|H]; [left; reflexivity|right; auto].
Qed.

(** X2.  Every sample that [parse_gpx_simple] returns comes from a
    track-point of the document that has both coordinates, not empty; its
    speed is always absent, its elevation is absent when the track-point has
    no elevation child, and its timestamp is the current time when the
    track-point has no time child. *)
Theorem parse_gpx_simple_sample_defaults :
  forall E gpx_data root s p,
    ET_fromstring E gpx_data = Ok root ->
    (exists pts, snd (parse_gpx_simple E gpx_data s) = Ok pts /\ In p pts) ->
    exists e,
      In e (iter root)
      /\ eligible e = true
      /\ sample_of E e p
      /\ speed_mps p = None
      /\ (no_elevation_child e = true -> elevation_meters p = None)
      /\ (no_time_child e = true -> timestamp p = now E).
Proof.
  intros E gpx_data root s p Hroot (pts & Hrun & Hin).
  destruct (parse_gpx_simple_prefix_exact E gpx_data root s Hroot)
    as (pts' & k & Hrun' & Hall & _).
  rewrite Hrun in Hrun'. injection Hrun' as <-.
  clear Hrun. revert Hin.
  assert (Hsub : forall e, In e (firstn k (filter eligible (iter root))) ->
                           In e (iter root) /\ eligible e = true).
  { intros e He. apply in_firstn_in in He. apply filter_In in He. exact He. }
  revert Hsub.
  induction Hall as [|e q l l' Hs Hall IH]; intros Hsub Hin; [contradiction|].
  destruct Hin as [<-|Hin].
  - exists e. destruct (Hsub e (or_introl eq_refl)) as [Hdoc Hel].
    split; [exact Hdoc|]. split; [exact Hel|]. split; [exact Hs|].
    destruct Hs as (lat & lon & _ & _ & _ & _ & Hele & Hsp & Hts).
    split; [exact Hsp|]. split.
    + intros Hno. rewrite Hele. unfold elevation_from, no_elevation_child in *.
      rewrite find_none_forallb; [reflexivity|]. rewrite forallb_rev. exact Hno.
    + intros Hno. rewrite Hts. unfold timestamp_from, no_time_child in *.
      rewrite find_none_forallb; [reflexivity|]. rewrite forallb_rev.
      rewrite forallb_forall in *. intros c Hc. specialize (Hno c Hc).
      unfold gives_time. apply negb_true_iff in Hno. rewrite Hno.
      rewrite andb_false_r. reflexivity.
  - apply IH; [|exact Hin]. intros e' He'. apply Hsub. right. exact He'.
Qed.

Lemma parse_gpx_simple_sample_defaults_witness :
  exists e,
    In e (iter (mkElement "gpx" [] None
                  [mkElement "trkpt" [("lat", "47.5"); ("lon", "8.5")] None []]))
    /\ eligible e = true
    /\ sample_of (Example.env [] (Ok "")) e
         (mkGpsPoint (nearest_ratio 95 2) (nearest_ratio 17 2) None None (mkDatetime Example.noon None))
    /\ speed_mps (mkGpsPoint (nearest_ratio 95 2) (nearest_ratio 17 2) None None (mkDatetime Example.noon None))
       = None
    /\ (no_elevation_child e = true -> @None float = None)
    /\ (no_time_child e = true ->
        mkDatetime Example.noon None = now (Example.env [] (Ok ""))).
Proof.
  apply (parse_gpx_simple_sample_defaults (Example.env [] (Ok ""))
           "<gpx><trkpt lat='47.5' lon='8.5'/></gpx>" _ Example.fresh
           (mkGpsPoint (nearest_ratio 95 2) (nearest_ratio 17 2) None None (mkDatetime Example.noon None))).
  - vm_compute. reflexivity.
  - eexists. split; [vm_compute; reflexivity|]. left. reflexivity.
Defined.

(* --------------------------------------------------------------------- *)
(** ** Track download *)
(* --------------------------------------------------------------------- *)

Lemma parse_gpx_simple_returns E gpx_data s :
  exists s' pts, parse_gpx_simple E gpx_data s = (s', Ok pts).
Proof.
  unfold parse_gpx_simple.
  destruct (ET_fromstring E gpx_data) as [root|e].
  - destruct (trkpt_loop E (iter root) []) as [pts [e|]]; eexists; eexists; reflexivity.
  - eexists; eexists; reflexivity.
Qed.

(** X3.  [get_gps_data] never raises.  Without a client, or when the
    download raises, it returns no sample and logs one warning; when the
    download succeeds it returns what the parser returns and logs their
    number after whatever the parser logged. *)
Theorem get_gps_data_degrades :
  forall E id s,
    (st_client s = false ->
     get_gps_data E id s = (logged s WARNING (MsgGpsUnavailable AttributeError), Ok []))
    /\ (forall e,
           st_client s = true -> client_download_activity E id = Raise e ->
           get_gps_data E id s = (logged s WARNING (MsgGpsUnavailable e), Ok []))
    /\ (forall gpx_data,
           st_client s = true -> client_download_activity E id = Ok gpx_data ->
           exists pts,
             snd (parse_gpx_simple E gpx_data s) = Ok pts
             /\ get_gps_data E id s
                = (logged (fst (parse_gpx_simple E gpx_data s)) INFO
                          (MsgGpsRetrieved (List.length pts)), Ok pts)).
Proof.
  intros E id s. unfold get_gps_data, try_except, self_client, get_state.
  split; [|split].
  - intros Hc. unfold bind, ret, raise. rewrite Hc. reflexivity.
  - intros e Hc Hd. unfold bind, ret, raise, lift. rewrite Hc, Hd. reflexivity.
  - intros gpx_data Hc Hd.
    destruct (parse_gpx_simple_returns E gpx_data s) as (s1 & pts & Hp).
    exists pts. rewrite Hp. split; [reflexivity|].
    unfold bind, ret, raise, lift. rewrite Hc, Hd, Hp. reflexivity.
Qed.

Lemma get_gps_data_degrades_witness :
  get_gps_data Example.no_track (PInt 42) Example.fresh
  = (logged Example.fresh WARNING (MsgGpsUnavailable AttributeError), Ok [])
  /\ get_gps_data Example.no_track (PInt 42) Example.logged_in
     = (logged Example.logged_in WARNING (MsgGpsUnavailable (ServiceError "no track")),
        Ok [])
  /\ exists pts,
       snd (parse_gpx_simple Example.one_run
              "<gpx><trk><trkpt lat='47.5' lon='8.5'/></trk></gpx>" Example.logged_in)
       = Ok pts
       /\ get_gps_data Example.one_run (PInt 42) Example.logged_in
          = (logged (fst (parse_gpx_simple Example.one_run
                            "<gpx><trk><trkpt lat='47.5' lon='8.5'/></trk></gpx>"
                            Example.logged_in))
                    INFO (MsgGpsRetrieved (List.length pts)), Ok pts).
Proof.
  split; [|split].
  - apply (proj1 (get_gps_data_degrades Example.no_track (PInt 42) Example.fresh)).
    reflexivity.
  - apply (proj1 (proj2 (get_gps_data_degrades Example.no_track (PInt 42)
                           Example.logged_in))); reflexivity.
  - apply (proj2 (proj2 (get_gps_data_degrades Example.one_run (PInt 42)
                           Example.logged_in))); reflexivity.
Defined.

(* --------------------------------------------------------------------- *)
(** ** Normalisation, in full *)
(* --------------------------------------------------------------------- *)

Section NormalisationInFull.

Variable E : Env.

(** Every successful run of the [try] block, described from its input. *)
Lemma format_activity_try_full_inv det sum s s' o :
  format_activity_try E det sum s = (s', Ok o) ->
  exists d start s1 pts km mins,
    sum = PDict d
    /\ start_of E d = Ok start
    /\ metrics_ok d start = true
    /\ get_gps_data E (dict_field d "activityId" PNone) s = (s1, Ok pts)
    /\ s' = logged s1 INFO (MsgFormatted km mins)
    /\ o = Some (mkActivityData (normalised E d start) pts).
Proof.
  intros H. unfold format_activity_try in H.
  destruct sum as [| | | | |?|d]; try discriminate H.
  exists d.
  lift_step H start_str Hstart. injection Hstart as <-.
  apply bind_ok_inv in H. destruct H as (st & s1 & Hst & H).
  lift_step H dur Hdur. injection Hdur as <-.
  apply bind_ok_inv in H. destruct H as (en & s2 & Hen & H).
  lift_step H dist Hdist. injection Hdist as <-.
  lift_step H pace Hpace.
  lift_step H aid Haid. injection Haid as <-.
  lift_step H cal Hcal. injection Hcal as <-.
  lift_step H ahr Hahr. injection Hahr as <-.
  lift_step H mhr Hmhr. injection Hmhr as <-.
  apply bind_ok_inv in H. destruct H as (pts & s3 & Hpts & H).
  lift_step H km Hkm.
  lift_step H mins Hmins.
  apply bind_ok_inv in H. destruct H as (u & s4 & Hlog & H).
  unfold ret in H. injection H as <- <-.
  unfold logging in Hlog. injection Hlog as <-.
  fold (dict_field d "startTimeLocal" (PStr "")) in *.
  fold (dict_field d "duration" (PInt 0)) in *.
  fold (dict_field d "distance" (PInt 0)) in *.
  fold (dict_field d "activityId" PNone) in *.
  fold (dict_field d "calories" (PInt 0)) in *.
  fold (dict_field d "averageHR" PNone) in *.
  fold (dict_field d "maxHR" PNone) in *.
  assert (Hstart : s1 = s /\ start_of E d = Ok st).
  { unfold start_of.
    destruct (truthy (dict_field d "startTimeLocal" (PStr ""))).
    - lift_step Hst stripped Hstrip.
      apply lift_ok_inv in Hst. destruct Hst as [-> Hst]. split; [reflexivity|].
      destruct (dict_field d "startTimeLocal" (PStr "")); try discriminate Hstrip.
      cbn [py_replace_Z] in Hstrip. injection Hstrip as <-. exact Hst.
    - unfold ret in Hst. injection Hst as <- <-. auto. }
  destruct Hstart as [-> Hstart].
  assert (Hend : s2 = s /\ en = end_of st d
                 /\ (if truthy (dict_field d "duration" (PInt 0)) then
                       match timedelta_seconds (dict_field d "duration" (PInt 0)) with
                       | Ok delta => is_ok (datetime_add st delta)
                       | Raise _ => false
                       end
                     else true) = true).
  { unfold end_of.
    destruct (truthy (dict_field d "duration" (PInt 0))).
    - lift_step Hen delta Hdelta. rewrite Hdelta.
      lift_step Hen e He. rewrite He.
      unfold ret in Hen. injection Hen as <- <-. auto.
    - unfold ret in Hen. injection Hen as <- <-. auto. }
  destruct Hend as (-> & -> & Hend).
  exists st, s3, pts, (py_round2 km), (py_round2 mins).
  split; [reflexivity|]. split; [exact Hstart|].
  split.
  { apply metrics_ok_iff. split; [|exact Hend]. exists pace, km, mins. auto. }
  split; [exact Hpts|]. split; [reflexivity|].
  unfold normalised. rewrite Hpace. reflexivity.
Qed.

(** Conversely, an accepted record runs through the [try] block. *)
Lemma format_activity_try_succeeds det d start s :
  start_of E d = Ok start ->
  metrics_ok d start = true ->
  exists s1 pts km mins,
    get_gps_data E (dict_field d "activityId" PNone) s = (s1, Ok pts)
    /\ format_activity_try E det (PDict d) s
       = (logged s1 INFO (MsgFormatted km mins),
          Ok (Some (mkActivityData (normalised E d start) pts))).
Proof.
  intros Hstart Hm. apply metrics_ok_iff in Hm.
  destruct Hm as [(pace & km & mins & Hpace & Hkm & Hmins) Hend].
  unfold format_activity_try, normalised, end_of.
  cbn [py_get].
  fold (dict_field d "startTimeLocal" (PStr "")).
  fold (dict_field d "duration" (PInt 0)).
  fold (dict_field d "distance" (PInt 0)).
  fold (dict_field d "activityId" PNone).
  fold (dict_field d "calories" (PInt 0)).
  fold (dict_field d "averageHR" PNone).
  fold (dict_field d "maxHR" PNone).
  set (dur := dict_field d "duration" (PInt 0)) in *.
  set (dist := dict_field d "distance" (PInt 0)) in *.
  rewrite (bind_lift_ok _ _ _ _ eq_refl).
  assert (Hst : (if truthy (dict_field d "startTimeLocal" (PStr "")) then
                   stripped <- lift (py_replace_Z (dict_field d "startTimeLocal" (PStr "")) "") ;;
                   lift (py_fromisoformat E stripped)
                 else ret (now E)) s = (s, Ok start)).
  { unfold start_of in Hstart.
    destruct (truthy (dict_field d "startTimeLocal" (PStr ""))).
    - destruct (dict_field d "startTimeLocal" (PStr "")); try discriminate Hstart.
      cbn [py_replace_Z]. rewrite (bind_lift_ok _ _ _ _ eq_refl).
      unfold lift. rewrite Hstart. reflexivity.
    - injection Hstart as <-. reflexivity. }
  rewrite (bind_eq _ _ _ _ _ Hst).
  rewrite (bind_lift_ok _ _ _ _ eq_refl).
  assert (Hen : (if truthy dur then
                   delta <- lift (timedelta_seconds dur) ;;
                   e <- lift (datetime_add start delta) ;;
                   ret (Some e)
                 else ret None) s
                = (s, Ok (if truthy dur then
                            match timedelta_seconds dur with
                            | Ok delta =>
                                match datetime_add start delta with
                                | Ok e => Some e
                                | Raise _ => None
                                end
                            | Raise _ => None
                            end
                          else None))).
  { destruct (truthy dur); [|reflexivity].
    destruct (timedelta_seconds dur) as [delta|] eqn:Hd; [|discriminate].
    destruct (datetime_add start delta) as [e|] eqn:Ha; [|discriminate].
    unfold bind, lift, ret. rewrite Ha. reflexivity. }
  rewrite (bind_eq _ _ _ _ _ Hen).
  rewrite (bind_lift_ok _ _ _ _ eq_refl).
  rewrite (bind_lift_ok _ _ _ _ Hpace), Hpace.
  do 4 rewrite (bind_lift_ok _ _ _ _ eq_refl).
  destruct (get_gps_data_total E (dict_field d "activityId" PNone) s)
    as (s1 & pts & Hgps).
  rewrite (bind_eq _ _ _ _ _ Hgps).
  rewrite (bind_lift_ok _ _ _ _ Hkm), (bind_lift_ok _ _ _ _ Hmins).
  exists s1, pts, (py_round2 km), (py_round2 mins). split; [exact Hgps|reflexivity].
Qed.

(** A record that comes out was accepted, and is the normalised one. *)
Lemma format_activity_data_some det sum s s' r :
  format_activity_data E det sum s = (s', Ok (Some r)) ->
  exists d start,
    sum = PDict d /\ start_of E d = Ok start /\ metrics_ok d start = true
    /\ run_data r = normalised E d start
    /\ exists s1, get_gps_data E (dict_field d "activityId" PNone) s
                  = (s1, Ok (gps_points r)).
Proof.
  intros H. unfold format_activity_data, try_except in H.
  destruct (format_activity_try E det sum s) as [s1 [o|e]] eqn:Hbody.
  - destruct (format_activity_try_full_inv _ _ _ _ _ Hbody)
      as (d & start & s2 & pts & km & mins & -> & Hst & Hm & Hg & -> & ->).
    injection H as _ <-. exists d, start. cbn [run_data gps_points]. eauto 8.
  - discriminate.
Qed.

End NormalisationInFull.

(** X4.  [format_activity_data] returns a record exactly for the summary
    records that are mappings whose start time is missing or parses and whose
    distance and duration are numbers with a computable end time.  The record
    is then the normalised one with the samples of [get_gps_data], and one
    INFO line follows the track's log lines; otherwise [None] is returned.
    The track plays no part in the decision. *)
Theorem format_activity_data_accepts_exactly :
  forall E det sum s,
    (normalisable E sum = true ->
     exists d start s1 pts km mins,
       sum = PDict d
       /\ start_of E d = Ok start
       /\ get_gps_data E (dict_field d "activityId" PNone) s = (s1, Ok pts)
       /\ format_activity_data E det sum s
          = (logged s1 INFO (MsgFormatted km mins),
             Ok (Some (mkActivityData (normalised E d start) pts))))
    /\ (normalisable E sum = false ->
        exists s', format_activity_data E det sum s = (s', Ok None)).
Proof.
  intros E det sum s. split.
  - intros Hn. unfold normalisable in Hn.
    destruct sum as [| | | | |?|d]; try discriminate Hn.
    destruct (start_of E d) as [start|] eqn:Hst; [|discriminate].
    destruct (format_activity_try_succeeds E det d start s Hst Hn)
      as (s1 & pts & km & mins & Hg & Hrun).
    exists d, start, s1, pts, km, mins. repeat split; try assumption.
    unfold format_activity_data, try_except. rewrite Hrun. reflexivity.
  - intros Hn.
    destruct (format_activity_data_cases E det sum s)
      as [(s1 & r & _ & Hrun) | (s1 & e & _ & Hrun)].
    + exfalso.
      destruct (format_activity_data_some E _ _ _ _ _ Hrun)
        as (d & start & -> & Hst & Hm & _).
      unfold normalisable in Hn. rewrite Hst in Hn. congruence.
    + eexists. exact Hrun.
Qed.

Lemma format_activity_data_accepts_exactly_witness :
  (exists d start s1 pts km mins,
      PDict Example.run_42 = PDict d
      /\ start_of Example.no_track d = Ok start
      /\ get_gps_data Example.no_track (dict_field d "activityId" PNone)
                      Example.logged_in = (s1, Ok pts)
      /\ format_activity_data Example.no_track (PDict []) (PDict Example.run_42)
                              Example.logged_in
         = (logged s1 INFO (MsgFormatted km mins),
            Ok (Some (mkActivityData (normalised Example.no_track d start) pts))))
  /\ (exists s', format_activity_data Example.no_track (PDict [])
                   (PDict Example.run_42_bad_start) Example.logged_in = (s', Ok None)).
Proof.
  split.
  - apply (proj1 (format_activity_data_accepts_exactly Example.no_track (PDict [])
                    (PDict Example.run_42) Example.logged_in)).
    vm_compute. reflexivity.
  - apply (proj2 (format_activity_data_accepts_exactly Example.no_track (PDict [])
                    (PDict Example.run_42_bad_start) Example.logged_in)).
    vm_compute. reflexivity.
Defined.

Lemma timedelta_of_us_value us delta : timedelta_of_us us = Ok delta -> delta = us.
Proof.
  unfold timedelta_of_us. destruct (_ <=? _); [|discriminate]. congruence.
Qed.

Lemma datetime_add_value start delta e :
  datetime_add start delta = Ok e ->
  e = mkDatetime (dt_us start + delta) (dt_tz start)
  /\ 0 <= dt_us e < MAX_ORDINAL_DAYS * US_PER_DAY.
Proof.
  unfold datetime_add. destruct (_ && _) eqn:Hr; [|discriminate].
  intros H. injection H as <-. split; [reflexivity|].
  apply andb_true_iff in Hr as [Hlo Hhi]. cbn [dt_us]. lia.
Qed.

(** X5.  In every normalised record the duration is a number; the end time
    is absent exactly when that number is zero, and otherwise it is the
    start time plus the microseconds of the duration (a million to the
    second for an integer duration), a valid [datetime] with the zone of the
    start time. *)
Theorem end_time_is_start_plus_duration :
  forall E det sum s s' r,
    format_activity_data E det sum s = (s', Ok (Some r)) ->
    exists n,
      as_number (duration_seconds (run_data r)) = Some n
      /\ if num_truthy n then
           exists us,
             duration_us n us
             /\ end_time (run_data r)
                = Some (mkDatetime (dt_us (start_time (run_data r)) + us)
                                   (dt_tz (start_time (run_data r))))
             /\ 0 <= dt_us (start_time (run_data r)) + us
                  < MAX_ORDINAL_DAYS * US_PER_DAY
         else end_time (run_data r) = None.
Proof.
  intros E det sum s s' r H.
  destruct (format_activity_data_some E _ _ _ _ _ H)
    as (d & start & -> & Hst & Hm & Hr & _).
  rewrite Hr. unfold normalised, end_of. cbn [duration_seconds end_time start_time].
  apply metrics_ok_iff in Hm. destruct Hm as [(pace & km & mins & _ & _ & Hmins) Hend].
  pose proof (py_truediv_number _ _ _ Hmins) as Hnum.
  destruct (as_number (dict_field d "duration" (PInt 0))) as [n|] eqn:Hn;
    [|discriminate].
  exists n. split; [reflexivity|].
  rewrite (truthy_number _ _ Hn) in *.
  destruct (num_truthy n); [|reflexivity].
  unfold timedelta_seconds in *. rewrite Hn in *.
  assert (Hus : exists us delta,
             duration_us n us /\ timedelta_of_us us = Ok delta
             /\ match n with
                | NInt z => timedelta_of_us (z * US_PER_SECOND)
                | NFloat f => let* us := float_seconds_us f in timedelta_of_us us
                end = Ok delta).
  { destruct n as [z|f]; cbn [duration_us].
    - destruct (timedelta_of_us (z * US_PER_SECOND)) as [delta|] eqn:Hd; [|discriminate].
      exists (z * US_PER_SECOND), delta. auto.
    - destruct (float_seconds_us f) as [us|] eqn:Hf; [|discriminate].
      cbn [rbind] in *.
      destruct (timedelta_of_us us) as [delta|] eqn:Hd; [|discriminate].
      exists us, delta. auto. }
  destruct Hus as (us & delta & Hdur & Hd & Heq). rewrite Heq in *.
  apply timedelta_of_us_value in Hd. subst delta.
  destruct (datetime_add start us) as [e|] eqn:Ha; [|discriminate].
  destruct (datetime_add_value _ _ _ Ha) as [-> Hrange].
  cbn [dt_us] in Hrange. exists us. auto.
Qed.

Lemma end_time_is_start_plus_duration_witness :
  exists n,
    as_number (PInt 3000) = Some n
    /\ if num_truthy n then
         exists us,
           duration_us n us
           /\ Some (mkDatetime 63839688600000000 None)
              = Some (mkDatetime (63839685600000000 + us) None)
           /\ 0 <= 63839685600000000 + us < MAX_ORDINAL_DAYS * US_PER_DAY
       else Some (mkDatetime 63839688600000000 None) = None.
Proof.
  eapply (end_time_is_start_plus_duration Example.no_track (PDict [])
            (PDict Example.run_42) Example.logged_in _
            (mkActivityData
               (mkRunData "42" (mkDatetime 63839685600000000 None)
                          (Some (mkDatetime 63839688600000000 None))
                          (PInt 10000) (PInt 3000) (Some (nearest 300 0 false))
                          (PInt 0) (PInt 152) PNone) [])).
  vm_compute. reflexivity.
Defined.

Lemma num_truediv_float_inv n km q :
  num_truediv n (NFloat km) = Ok q ->
  exists tf, to_float n = Ok tf /\ is_zero km = false /\ q = fdiv tf km.
Proof.
  unfold num_truediv. destruct n as [z|f]; cbn [to_float rbind].
  - destruct (float_of_int z) as [tf|]; cbn [rbind]; [|discriminate].
    destruct (is_zero km); [discriminate|]. intros H. injection H as <-. eauto.
  - destruct (is_zero km); [discriminate|]. intros H. injection H as <-. eauto.
Qed.

(** X6.  In every normalised record distance and duration are numbers, and
    the pace is absent exactly when the distance is not positive or the
    duration is zero; a pace that is present is the quotient of the duration
    by the kilometres, both doubles, rounded to two decimals when it is
    finite. *)
Theorem record_pace_matches_metrics :
  forall E det sum s s' r,
    format_activity_data E det sum s = (s', Ok (Some r)) ->
    exists nd nt,
      as_number (distance_meters (run_data r)) = Some nd
      /\ as_number (duration_seconds (run_data r)) = Some nt
      /\ (avg_pace_seconds_per_km (run_data r) = None
          <-> (num_positive nd = false \/ num_truthy nt = false))
      /\ (forall p,
             avg_pace_seconds_per_km (run_data r) = Some p ->
             exists km tf,
               num_truediv nd (NInt 1000) = Ok km
               /\ is_zero km = false
               /\ to_float nt = Ok tf
               /\ p = py_round2 (fdiv tf km)
               /\ (is_finite (fdiv tf km) = true -> rounded_2dp (fdiv tf km) p)).
Proof.
  intros E det sum s s' r H.
  destruct (format_activity_data_some E _ _ _ _ _ H)
    as (d & start & -> & Hst & Hm & Hr & _).
  rewrite Hr. unfold normalised.
  cbn [distance_meters duration_seconds avg_pace_seconds_per_km].
  apply metrics_ok_iff in Hm.
  destruct Hm as [(pace & km0 & mins & Hpace & Hkm & Hmins) _].
  pose proof (py_truediv_number _ _ _ Hkm) as Hnd.
  pose proof (py_truediv_number _ _ _ Hmins) as Hnt.
  destruct (as_number (dict_field d "distance" (PInt 0))) as [nd|] eqn:Hqd;
    [|discriminate].
  destruct (as_number (dict_field d "duration" (PInt 0))) as [nt|] eqn:Hqt;
    [|discriminate].
  exists nd, nt. split; [reflexivity|]. split; [reflexivity|].
  rewrite Hpace. rewrite (calculate_pace_on_numbers _ _ _ _ Hqd Hqt) in Hpace.
  destruct (num_positive nd) eqn:Hpos.
  - rewrite (positive_truthy _ Hpos) in Hpace. cbn [andb] in Hpace.
    destruct (num_truthy nt) eqn:Htr; cbn [andb] in Hpace.
    + destruct (num_truediv nd (NInt 1000)) as [km|]; [|discriminate].
      cbn [rbind] in Hpace.
      destruct (num_truediv nt (NFloat km)) as [q|] eqn:Hq; [|discriminate].
      cbn [rbind] in Hpace. injection Hpace as <-.
      destruct (num_truediv_float_inv _ _ _ Hq) as (tf & Htf & Hz & ->).
      split.
      * split; [discriminate|]. intros [Hc|Hc]; discriminate.
      * intros p Hp. injection Hp as <-. exists km, tf.
        repeat split; try assumption. apply py_round2_rounded.
    + injection Hpace as <-. split; [split; auto|discriminate].
  - rewrite andb_false_r in Hpace. injection Hpace as <-.
    split; [split; auto|discriminate].
Qed.

Lemma record_pace_matches_metrics_witness :
  exists nd nt,
    as_number (PInt 10000) = Some nd
    /\ as_number (PInt 3000) = Some nt
    /\ (Some (nearest 300 0 false) = None
        <-> (num_positive nd = false \/ num_truthy nt = false))
    /\ (forall p,
           Some (nearest 300 0 false) = Some p ->
           exists km tf,
             num_truediv nd (NInt 1000) = Ok km
             /\ is_zero km = false
             /\ to_float nt = Ok tf
             /\ p = py_round2 (fdiv tf km)
             /\ (is_finite (fdiv tf km) = true -> rounded_2dp (fdiv tf km) p)).
Proof.
  eapply (record_pace_matches_metrics Example.no_track (PDict [])
            (PDict Example.run_42) Example.logged_in _
            (mkActivityData
               (mkRunData "42" (mkDatetime 63839685600000000 None)
                          (Some (mkDatetime 63839688600000000 None))
                          (PInt 10000) (PInt 3000) (Some (nearest 300 0 false))
                          (PInt 0) (PInt 152) PNone) [])).
  vm_compute. reflexivity.
Defined.

(** X7.  A summary record whose distance or duration entry is present but
    not a number (a JSON null, a string) gets no record: the error is logged
    and [None] returned. *)
Theorem format_activity_data_rejects_non_numbers :
  forall E det d s,
    as_number (dict_field d "distance" (PInt 0)) = None
    \/ as_number (dict_field d "duration" (PInt 0)) = None ->
    exists s1 e,
      format_activity_data E det (PDict d) s
      = (logged s1 ERROR (MsgFormatError e), Ok None).
Proof.
  intros E det d s Hbad.
  destruct (format_activity_data_cases E det (PDict d) s)
    as [(s1 & r & _ & Hrun) | (s1 & e & _ & Hrun)].
  - exfalso.
    destruct (format_activity_data_some E _ _ _ _ _ Hrun)
      as (d' & start & Hd & _ & Hm & _).
    injection Hd as <-. apply metrics_ok_iff in Hm.
    destruct Hm as [(pace & km & mins & _ & Hkm & Hmins) _].
    pose proof (py_truediv_number _ _ _ Hkm) as Hdist.
    pose proof (py_truediv_number _ _ _ Hmins) as Hdur.
    destruct Hbad as [Hb|Hb]; rewrite Hb in *; discriminate.
  - exists s1, e. exact Hrun.
Qed.

Lemma format_activity_data_rejects_non_numbers_witness :
  exists s1 e,
    format_activity_data Example.no_track (PDict [])
      (PDict [("activityId", PInt 42); ("distance", PNone); ("duration", PInt 3000)])
      Example.logged_in
    = (logged s1 ERROR (MsgFormatError e), Ok None).
Proof.
  apply format_activity_data_rejects_non_numbers. left. reflexivity.
Defined.

Lemma to_int_not_nil z :
  Z.to_int z <> Decimal.Pos Decimal.Nil /\ Z.to_int z <> Decimal.Neg Decimal.Nil.
Proof.
  pose proof (DecimalZ.to_of (Z.to_int z)) as H. rewrite DecimalZ.of_to in H.
  split; intros Hc; rewrite Hc in H; discriminate H.
Qed.

Lemma decimal_of_integer_injective a b :
  NilZero.string_of_int (Z.to_int a) = NilZero.string_of_int (Z.to_int b) -> a = b.
Proof.
  intros H. apply DecimalZ.to_int_inj.
  destruct (to_int_not_nil a) as [Ha1 Ha2]. destruct (to_int_not_nil b) as [Hb1 Hb2].
  pose proof (NilZero.isi _ Ha1 Ha2) as Ia. pose proof (NilZero.isi _ Hb1 Hb2) as Ib.
  rewrite H in Ia. congruence.
Qed.

(** X8.  For summary records that carry integer identifiers, the identifier
    of the normalised record is the decimal numeral, so two records have the
    same identifier exactly when the integers are equal. *)
Theorem integer_identifiers_do_not_collide :
  forall E det1 det2 d1 d2 s1 s2 s1' s2' r1 r2 z1 z2,
    format_activity_data E det1 (PDict d1) s1 = (s1', Ok (Some r1)) ->
    format_activity_data E det2 (PDict d2) s2 = (s2', Ok (Some r2)) ->
    dict_field d1 "activityId" PNone = PInt z1 ->
    dict_field d2 "activityId" PNone = PInt z2 ->
    activity_id (run_data r1) = NilZero.string_of_int (Z.to_int z1)
    /\ (activity_id (run_data r1) = activity_id (run_data r2) <-> z1 = z2).
Proof.
  intros E det1 det2 d1 d2 s1 s2 s1' s2' r1 r2 z1 z2 H1 H2 Hz1 Hz2.
  destruct (format_activity_data_some E _ _ _ _ _ H1)
    as (e1 & st1 & He1 & _ & _ & Hr1 & _).
  destruct (format_activity_data_some E _ _ _ _ _ H2)
    as (e2 & st2 & He2 & _ & _ & Hr2 & _).
  injection He1 as <-. injection He2 as <-.
  rewrite Hr1, Hr2. unfold normalised. cbn [activity_id].
  rewrite Hz1, Hz2. cbn [py_str]. split; [reflexivity|].
  split; [apply decimal_of_integer_injective|congruence].
Qed.

Lemma integer_identifiers_do_not_collide_witness :
  "42" = NilZero.string_of_int (Z.to_int 42)
  /\ ("42" = "42" <-> 42 = 42).
Proof.
  eapply (integer_identifiers_do_not_collide Example.no_track (PDict []) (PDict [])
            Example.run_42 Example.run_42_no_start Example.logged_in Example.logged_in
            _ _
            (mkActivityData
               (mkRunData "42" (mkDatetime 63839685600000000 None)
                          (Some (mkDatetime 63839688600000000 None))
                          (PInt 10000) (PInt 3000) (Some (nearest 300 0 false))
                          (PInt 0) (PInt 152) PNone) [])
            (mkActivityData
               (mkRunData "42" (mkDatetime Example.noon None)
                          (Some (mkDatetime (Example.noon + 3000000000) None))
                          (PInt 10000) (PInt 3000) (Some (nearest 300 0 false))
                          (PInt 0) PNone PNone) [])
            42 42).
  - vm_compute. reflexivity.
  - vm_compute. reflexivity.
  - reflexivity.
  - reflexivity.
Defined.

(* --------------------------------------------------------------------- *)
(** ** Listing and selection *)
(* --------------------------------------------------------------------- *)

Lemma filter_running_spec activities :
  filter_running activities
  = if forallb listable activities then Ok (filter running_type activities)
    else Raise AttributeError.
Proof.
  induction activities as [|a rest IH]; [reflexivity|].
  cbn [filter_running forallb filter]. rewrite IH.
  destruct a as [| | | | |?|d]; try reflexivity.
  cbn [py_get rbind listable running_type].
  fold (dict_field d "activityType" (PDict [])).
  destruct (dict_field d "activityType" (PDict [])) as [| | | | | |t] eqn:Ht;
    cbn [truthy rbind andb];
    try (destruct (forallb listable rest); reflexivity);
    try (match goal with
         | |- context [if ?c then _ else _] =>
             destruct c; cbn [negb rbind andb py_get];
             try (destruct (forallb listable rest); reflexivity); reflexivity
         end).
Qed.


Section Selection.

Variable E : Env.

(** The outcomes of [get_latest_run] once logged in with a client, by what
    the listing holds. *)
Lemma get_latest_run_steps s :
  st_logged_in s = true -> st_client s = true ->
  get_latest_run E s
  = match client_get_activities E 0 100 with
    | Raise e => (logged s ERROR (MsgLatestRunError e), Ok None)
    | Ok activities =>
        let s1 := logged s INFO (MsgFoundTotal (List.length activities)) in
        match filter_running activities with
        | Raise e => (logged s1 ERROR (MsgLatestRunError e), Ok None)
        | Ok running =>
            let s2 := logged s1 INFO (MsgFoundRunning (List.length running)) in
            match running with
            | [] => (logged s2 INFO MsgNoRunning, Ok None)
            | latest :: _ =>
                match py_getitem latest "activityId" with
                | Raise e => (logged s2 ERROR (MsgLatestRunError e), Ok None)
                | Ok id =>
                    match client_get_activity E id with
                    | Raise e =>
                        (logged (logged s2 INFO (MsgGettingDetail id))
                                ERROR (MsgLatestRunError e), Ok None)
                    | Ok detailed =>
                        format_activity_data E detailed latest
                          (logged s2 INFO (MsgGettingDetail id))
                    end
                end
            end
        end
    end.
Proof.
  intros Hin Hcl. destruct s as [lg cl li db cm ops]. cbn in Hin, Hcl. subst cl li.
  unfold get_latest_run, try_except, self_client, get_state, bind, ret, raise,
    lift, logging, logged.
  cbn [st_logged_in st_client negb st_log st_db st_committed st_ops].
  destruct (client_get_activities E 0 100) as [activities|e]; [|reflexivity].
  destruct (filter_running activities) as [running|e]; [|reflexivity].
  destruct running as [|latest rest]; [reflexivity|].
  destruct (py_getitem latest "activityId") as [id|e]; [|reflexivity].
  destruct (client_get_activity E id) as [detailed|e]; [|reflexivity].
  cbv zeta. cbn [st_logged_in st_client st_log st_db st_committed st_ops].
  match goal with
  | |- _ = format_activity_data E detailed latest ?s0 =>
      destruct (format_activity_data_cases E detailed latest s0)
        as [(s1 & r & _ & Hrun) | (s1 & e & _ & Hrun)]; rewrite Hrun; reflexivity
  end.
Qed.

End Selection.



(** X10.  [get_latest_run] never raises, and whenever it returns nothing the
    last log record says why: not logged in, no running activity, an error
    while listing or fetching, or an error while formatting.  When not logged
    in it asks the service nothing. *)
Theorem get_latest_run_explains_none :
  forall E s,
    (exists s' o,
        get_latest_run E s = (s', Ok o)
        /\ (o = None ->
            exists s1 r, st_log s' = (st_log s1 ++ [r])%list /\ explains_no_run r))
    /\ (st_logged_in s = false ->
        get_latest_run E s = (logged s ERROR MsgNotLoggedIn, Ok None)).
Proof.
  intros E s.
  assert (Hout : st_logged_in s = false ->
                 get_latest_run E s = (logged s ERROR MsgNotLoggedIn, Ok None)).
  { intros Hin. unfold get_latest_run, get_state, bind. rewrite Hin. reflexivity. }
  split; [|exact Hout].
  assert (Hlast : forall s1 lvl msg,
             explains_no_run (mkLog lvl msg) ->
             exists s' o,
               (logged s1 lvl msg, @Ok (option ActivityData) None) = (s', Ok o)
               /\ (o = None ->
                   exists s2 r, st_log s' = (st_log s2 ++ [r])%list /\ explains_no_run r)).
  { intros s1 lvl msg He. eexists; eexists. split; [reflexivity|].
    intros _. exists s1, (mkLog lvl msg). split; [reflexivity|exact He]. }
  destruct (st_logged_in s) eqn:Hin.
  2:{ rewrite (Hout eq_refl). apply Hlast. left. reflexivity. }
  destruct (st_client s) eqn:Hcl.
  2:{ assert (Hrun : get_latest_run E s
                     = (logged s ERROR (MsgLatestRunError AttributeError), Ok None)).
      { destruct s as [lg cl li db cm ops]. cbn in Hin, Hcl. subst cl li.
        reflexivity. }
      rewrite Hrun. apply Hlast. right; right; left. eauto. }
  rewrite (get_latest_run_steps E s Hin Hcl).
  destruct (client_get_activities E 0 100) as [activities|e];
    [|apply Hlast; right; right; left; eauto].
  cbv zeta.
  destruct (filter_running activities) as [running|e];
    [|apply Hlast; right; right; left; eauto].
  destruct running as [|latest rest]; [apply Hlast; right; left; reflexivity|].
  destruct (py_getitem latest "activityId") as [id|e];
    [|apply Hlast; right; right; left; eauto].
  destruct (client_get_activity E id) as [detailed|e];
    [|apply Hlast; right; right; left; eauto].
  match goal with
  | |- context [format_activity_data E detailed latest ?s0] =>
      destruct (format_activity_data_cases E detailed latest s0)
        as [(s1 & r & _ & Hrun) | (s1 & e & _ & Hrun)]; rewrite Hrun
  end.
  - eexists; eexists. split; [reflexivity|discriminate].
  - apply Hlast. right; right; right. eauto.
Qed.

Lemma get_latest_run_explains_none_witness :
  get_latest_run Example.one_run Example.fresh
  = (logged Example.fresh ERROR MsgNotLoggedIn, Ok None).
Proof.
  apply (proj2 (get_latest_run_explains_none Example.one_run Example.fresh)).
  reflexivity.
Defined.

(* --------------------------------------------------------------------- *)
(** ** Login and the batch query *)
(* --------------------------------------------------------------------- *)

Lemma failed_login_blocks_queries_core :
  forall E s,
    (exists s1,
        login E s = (s1, Ok (is_ok (client_login E)))
        /\ st_logged_in s1 = is_ok (client_login E)
        /\ st_client s1 = true)
    /\ (is_ok (client_login E) = false ->
        forall days_back,
          get_latest_run E (fst (login E s))
          = (logged (fst (login E s)) ERROR MsgNotLoggedIn, Ok None)
          /\ get_activities_since E days_back (fst (login E s))
             = (logged (fst (login E s)) ERROR MsgNotLoggedIn, Ok [])).
Proof.
  intros E s.
  assert (Hlogin : exists s1,
             login E s = (s1, Ok (is_ok (client_login E)))
             /\ st_logged_in s1 = is_ok (client_login E)
             /\ st_client s1 = true).
  { unfold login, try_except, bind, lift, set_client, set_logged_in, logging, ret.
    destruct (client_login E); eexists; (split; [reflexivity|]); cbn; auto. }
  split; [exact Hlogin|].
  intros Hfail days_back. destruct Hlogin as (s1 & Hrun & Hflag & _).
  rewrite Hrun. cbn [fst]. rewrite Hfail in Hflag.
  unfold get_latest_run, get_activities_since, get_state, bind.
  rewrite Hflag. split; reflexivity.
Qed.

(** X11.  [login] never raises; what it returns is whether the service
    accepted the login, and the [logged_in] flag it leaves is that same
    value.  After a login that failed, [get_latest_run] and
    [get_activities_since] return nothing and only log that the session is
    not logged in. *)
Theorem failed_login_blocks_queries :
  forall E s,
    (exists s1,
        login E s = (s1, Ok (is_ok (client_login E)))
        /\ st_logged_in s1 = is_ok (client_login E)
        /\ st_client s1 = true)
    /\ (is_ok (client_login E) = false ->
        forall days_back,
          get_latest_run E (fst (login E s))
          = (logged (fst (login E s)) ERROR MsgNotLoggedIn, Ok None)
          /\ get_activities_since E days_back (fst (login E s))
             = (logged (fst (login E s)) ERROR MsgNotLoggedIn, Ok [])).
Proof. exact failed_login_blocks_queries_core. Qed.

Lemma failed_login_blocks_queries_witness :
  get_latest_run
    (mkEnv Example.noon Example.iso_parse Example.float_parse (fun _ => "<object>")
           Example.xml_read Example.int_in (fun _ => false)
           (Some "runner@example.org") (Some "wrong")
           (Ok tt) (Raise (ServiceError "401"))
           (fun _ _ => Ok [PDict Example.run_42]) (fun _ => Ok (PDict []))
           (fun _ => Ok ""))
    (fst (login
            (mkEnv Example.noon Example.iso_parse Example.float_parse (fun _ => "<object>")
                   Example.xml_read Example.int_in (fun _ => false)
           (Some "runner@example.org") (Some "wrong")
                   (Ok tt) (Raise (ServiceError "401"))
                   (fun _ _ => Ok [PDict Example.run_42]) (fun _ => Ok (PDict []))
                   (fun _ => Ok ""))
            Example.fresh))
  = (logged
       (fst (login
               (mkEnv Example.noon Example.iso_parse Example.float_parse
                      (fun _ => "<object>")
                      Example.xml_read Example.int_in (fun _ => false)
           (Some "runner@example.org") (Some "wrong")
                      (Ok tt) (Raise (ServiceError "401"))
                      (fun _ _ => Ok [PDict Example.run_42]) (fun _ => Ok (PDict []))
                      (fun _ => Ok ""))
               Example.fresh))
       ERROR MsgNotLoggedIn, Ok None).
Proof.
  apply (proj2 (failed_login_blocks_queries
                  (mkEnv Example.noon Example.iso_parse Example.float_parse
                         (fun _ => "<object>")
                         Example.xml_read Example.int_in (fun _ => false)
           (Some "runner@example.org") (Some "wrong")
                         (Ok tt) (Raise (ServiceError "401"))
                         (fun _ _ => Ok [PDict Example.run_42]) (fun _ => Ok (PDict []))
                         (fun _ => Ok ""))
                  Example.fresh) eq_refl 7).
Defined.

Section BatchQueryOutcomes.

Variable E : Env.

(** When the date loop gets through, it kept exactly the activities that
    started after the horizon. *)
Lemma recent_loop_ok_filter horizon activities :
  dt_tz horizon = None ->
  forall recent,
    recent_loop E horizon activities = Ok recent ->
    recent = filter (started_after E horizon) activities.
Proof.
  intros Hnaive. induction activities as [|a rest IH]; intros recent H.
  - injection H as <-. reflexivity.
  - cbn [recent_loop] in H.
    destruct a as [| | | | |?|d]; try discriminate H.
    cbn [py_get rbind] in H. cbn [filter started_after].
    fold (dict_field d "startTimeLocal" (PStr "")) in *.
    destruct (recent_loop E horizon rest) as [recent'|] eqn:Hrest.
    2:{ destruct (truthy (dict_field d "startTimeLocal" (PStr ""))).
        - match type of H with
          | rbind ?k _ = _ => destruct k; discriminate
          end.
        - discriminate. }
    specialize (IH _ eq_refl). subst recent'.
    destruct (dict_field d "startTimeLocal" (PStr "")) as [| | | |str| |] eqn:Hv;
      cbn [truthy] in H;
      try (cbn [rbind] in H; injection H as <-; reflexivity);
      try (match type of H with
           | context [if ?c then _ else _] =>
               destruct c; cbn [negb rbind py_replace_Z] in H;
               [discriminate H|injection H as <-; reflexivity]
           end).
    destruct (str =? "")%string; cbn [negb andb rbind] in *.
    + injection H as <-. reflexivity.
    + cbn [py_replace_Z rbind] in H. unfold py_fromisoformat in H.
      destruct (fromisoformat E (replace_char "Z" "" str)) as [t|]; [|discriminate H].
      cbn [rbind] in H. unfold datetime_gt in H. rewrite Hnaive in H.
      destruct (dt_tz t); [discriminate H|]. cbn [rbind] in H.
      injection H as <-. reflexivity.
Qed.

(** One listed activity whose start time cannot be read stops the loop. *)
Lemma recent_loop_unreadable horizon activities a :
  dt_tz horizon = None ->
  In a activities -> readable_start E a = false ->
  exists e, recent_loop E horizon activities = Raise e.
Proof.
  intros Hnaive Hin Hbad. induction activities as [|b rest IH]; [contradiction|].
  cbn [recent_loop].
  destruct Hin as [->|Hin].
  - unfold readable_start in Hbad.
    destruct a as [| | | | |?|d]; try (eexists; reflexivity).
    cbn [py_get rbind]. fold (dict_field d "startTimeLocal" (PStr "")) in *.
    destruct (truthy (dict_field d "startTimeLocal" (PStr ""))); [|discriminate Hbad].
    destruct (dict_field d "startTimeLocal" (PStr "")); try (eexists; reflexivity).
    cbn [py_replace_Z rbind]. unfold py_fromisoformat.
    destruct (fromisoformat E (replace_char "Z" "" s)) as [t|];
      [|eexists; reflexivity].
    cbn [rbind]. unfold datetime_gt. rewrite Hnaive.
    destruct (dt_tz t); [eexists; reflexivity|discriminate Hbad].
  - destruct (IH Hin) as (e & ->).
    destruct (py_get b "startTimeLocal" (PStr "")) as [v|e0];
      [|eexists; reflexivity].
    cbn [rbind].
    match goal with
    | |- exists _, rbind ?r _ = _ => destruct r; eexists; reflexivity
    end.
Qed.

End BatchQueryOutcomes.

(** X12.  Once logged in, [get_activities_since] never raises and is all or
    nothing: either it logs nothing and returns exactly the listed activities
    that started after now minus [days_back] days, in the listed order, or it
    logs one error and returns the empty list. *)
Theorem get_activities_since_all_or_nothing :
  forall E days_back s,
    st_logged_in s = true ->
    exists s' recent,
      get_activities_since E days_back s = (s', Ok recent)
      /\ ((s' = s
           /\ exists activities,
                client_get_activities E 0 (days_back * 10) = Ok activities
                /\ recent = filter (started_after E (cutoff E days_back)) activities)
          \/ (recent = [] /\ exists e, s' = logged s ERROR (MsgRecentError e))).
Proof.
  intros E days_back s Hin.
  unfold get_activities_since, try_except, self_client, get_state, bind, ret,
    raise, lift.
  rewrite Hin. cbn [negb].
  destruct (st_client s); [|eexists; eexists; split; [reflexivity|right; split; [reflexivity|eexists; reflexivity]]].
  destruct (client_get_activities E 0 (days_back * 10)) as [activities|e];
    [|eexists; eexists; split; [reflexivity|right; split; [reflexivity|eexists; reflexivity]]].
  destruct (timedelta_days days_back) as [delta|e] eqn:Hd;
    [|eexists; eexists; split; [reflexivity|right; split; [reflexivity|eexists; reflexivity]]].
  destruct (datetime_add (now E) (- delta)) as [horizon|e] eqn:Ha;
    [|eexists; eexists; split; [reflexivity|right; split; [reflexivity|eexists; reflexivity]]].
  destruct (recent_loop E horizon activities) as [recent|e] eqn:Hloop;
    [|eexists; eexists; split; [reflexivity|right; split; [reflexivity|eexists; reflexivity]]].
  eexists; eexists; split; [reflexivity|]. left. split; [reflexivity|].
  exists activities. split; [reflexivity|].
  apply timedelta_of_us_value in Hd. subst delta.
  destruct (datetime_add_value _ _ _ Ha) as [Hh _]. cbn [now dt_us dt_tz] in Hh.
  assert (Hc : horizon = cutoff E days_back).
  { rewrite Hh. unfold cutoff. f_equal; try lia. }
  rewrite <- Hc. apply recent_loop_ok_filter; [|exact Hloop].
  rewrite Hh. reflexivity.
Qed.

Lemma get_activities_since_all_or_nothing_witness :
  exists s' recent,
    get_activities_since
      (Example.env [Example.run_1_day_ago; Example.run_40_days_ago] (Ok ""))
      7 Example.logged_in = (s', Ok recent)
    /\ ((s' = Example.logged_in
         /\ exists activities,
              client_get_activities
                (Example.env [Example.run_1_day_ago; Example.run_40_days_ago] (Ok ""))
                0 (7 * 10) = Ok activities
              /\ recent
                 = filter (started_after
                             (Example.env [Example.run_1_day_ago;
                                           Example.run_40_days_ago] (Ok ""))
                             (cutoff (Example.env [Example.run_1_day_ago;
                                                   Example.run_40_days_ago] (Ok "")) 7))
                          activities)
        \/ (recent = []
            /\ exists e, s' = logged Example.logged_in ERROR (MsgRecentError e))).
Proof.
  apply (get_activities_since_all_or_nothing
           (Example.env [Example.run_1_day_ago; Example.run_40_days_ago] (Ok ""))
           7 Example.logged_in).
  reflexivity.
Defined.

(** X13.  One listed activity whose start time cannot be read (it is not a
    mapping, or its non-empty start time is not a string, does not parse, or
    carries a zone) empties the whole result of [get_activities_since]: the
    empty list is returned and one error logged, however recent the other
    activities are. *)
Theorem get_activities_since_one_bad_start_empties :
  forall E days_back s activities a,
    st_logged_in s = true ->
    client_get_activities E 0 (days_back * 10) = Ok activities ->
    In a activities ->
    readable_start E a = false ->
    exists e,
      get_activities_since E days_back s
      = (logged s ERROR (MsgRecentError e), Ok []).
Proof.
  intros E days_back s activities a Hin Hacts Ha Hbad.
  unfold get_activities_since, try_except, self_client, get_state, bind, ret,
    raise, lift.
  rewrite Hin. cbn [negb].
  destruct (st_client s); [|eexists; reflexivity].
  rewrite Hacts.
  destruct (timedelta_days days_back) as [delta|e]; [|eexists; reflexivity].
  destruct (datetime_add (now E) (- delta)) as [horizon|e] eqn:Hadd; [|eexists; reflexivity].
  destruct (datetime_add_value _ _ _ Hadd) as [Hh _].
  destruct (recent_loop_unreadable E horizon activities a) as (e & ->);
    [rewrite Hh; reflexivity|assumption|assumption|].
  eexists; reflexivity.
Qed.

Lemma get_activities_since_one_bad_start_empties_witness :
  exists e,
    get_activities_since
      (Example.env [Example.run_1_day_ago; PDict Example.run_42_bad_start] (Ok ""))
      7 Example.logged_in
    = (logged Example.logged_in ERROR (MsgRecentError e), Ok []).
Proof.
  apply (get_activities_since_one_bad_start_empties
           (Example.env [Example.run_1_day_ago; PDict Example.run_42_bad_start] (Ok ""))
           7 Example.logged_in
           [Example.run_1_day_ago; PDict Example.run_42_bad_start]
           (PDict Example.run_42_bad_start)).
  - reflexivity.
  - reflexivity.
  - right. left. reflexivity.
  - vm_compute. reflexivity.
Defined.

(* --------------------------------------------------------------------- *)
(** ** The store, operation by operation *)
(* --------------------------------------------------------------------- *)

Lemma find_app_none {A} (f : A -> bool) (l : list A) x :
  find f l = None -> f x = true -> find f (l ++ [x]) = Some x.
Proof.
  induction l as [|y l IH]; cbn [find app]; intros Hn Hx.
  - rewrite Hx. reflexivity.
  - destruct (f y); [discriminate|auto].
Qed.

Lemma existsb_find_none {A} (f : A -> bool) (l : list A) :
  existsb f l = false -> find f l = None.
Proof.
  induction l as [|y l IH]; cbn [find existsb]; [reflexivity|].
  destruct (f y); [discriminate|exact IH].
Qed.

(** X14.  With no transaction open, [insert_run] never raises.  It returns
    no id exactly when the table does not accept the values of the record or
    a row with the stored form of its identifier exists; the rows are then
    as before, and the sequence has moved by one in the second case only.
    Otherwise it returns the next serial id, and a lookup of the stored
    identifier right after finds that row. *)
Theorem insert_run_then_lookup :
  forall E d s,
    quiescent s ->
    exists s' o,
      insert_run E d s = (s', Ok o)
      /\ quiescent s'
      /\ (o = None <->
          (stored_form E d = None
           \/ exists row, stored_form E d = Some row
                          /\ select_run (activity_id row) (st_db s) <> None))
      /\ (o = None ->
          runs (st_db s') = runs (st_db s)
          /\ gps_rows (st_db s') = gps_rows (st_db s)
          /\ runs_id_seq (st_db s')
             = runs_id_seq (st_db s) + (if is_some (stored_form E d) then 1 else 0))
      /\ (forall rid,
             o = Some rid ->
             rid = runs_id_seq (st_db s)
             /\ exists row,
                  stored_form E d = Some row
                  /\ snd (get_activity_by_id (activity_id row) s') = Ok (Some rid)
                  /\ st_db s' = mkStore (runs (st_db s) ++ [mkRunRow rid row])
                                        (gps_rows (st_db s)) (rid + 1)).
Proof.
  intros E d s Hq.
  destruct (insert_run_spec E d s Hq) as (s' & o & op & Hrun & Hq' & _ & _ & Hcase).
  exists s', o. split; [exact Hrun|]. split; [exact Hq'|].
  destruct (stored_form E d) as [row|] eqn:Hform.
  - destruct (existsb (has_activity (activity_id row)) (runs (st_db s))) eqn:Hex.
    + destruct Hcase as [-> Hdb].
      assert (Hsel : select_run (activity_id row) (st_db s) <> None).
      { unfold select_run. destruct (find _ _) eqn:Hf; [discriminate|].
        apply find_existsb in Hf. congruence. }
      split; [split; [intros _; right; eauto|reflexivity]|].
      split; [intros _; rewrite Hdb; cbn; auto|discriminate].
    + destruct Hcase as [-> Hdb].
      assert (Hsel : select_run (activity_id row) (st_db s) = None).
      { unfold select_run. rewrite (existsb_find_none _ _ Hex). reflexivity. }
      split.
      { split; [discriminate|].
        intros [Hc|(row' & Hr & Hc)]; [discriminate|]. injection Hr as <-. congruence. }
      split; [discriminate|].
      intros rid Hr. injection Hr as <-. split; [reflexivity|].
      exists row. split; [reflexivity|]. split; [|exact Hdb].
      rewrite get_activity_by_id_runs. cbn [snd]. rewrite Hdb.
      unfold select_run. cbn [runs].
      rewrite (find_app_none _ _ _ (existsb_find_none _ _ Hex)).
      * reflexivity.
      * unfold has_activity. cbn [row_data]. apply String.eqb_refl.
  - destruct Hcase as [-> Hdb].
    split; [split; auto|]. split; [|discriminate].
    intros _. rewrite Hdb. cbn [is_some]. rewrite Z.add_0_r. auto.
Qed.

Lemma insert_run_then_lookup_witness :
  exists s' o,
    insert_run Example.one_run
      (mkRunData "42" (mkDatetime 0 None) None (PInt 0) (PInt 0) None
                 (PInt 0) PNone PNone) Example.fresh = (s', Ok o)
    /\ quiescent s'
    /\ (o = None <->
        (stored_form Example.one_run
           (mkRunData "42" (mkDatetime 0 None) None (PInt 0) (PInt 0) None
                      (PInt 0) PNone PNone) = None
         \/ exists row,
              stored_form Example.one_run
                (mkRunData "42" (mkDatetime 0 None) None (PInt 0) (PInt 0) None
                           (PInt 0) PNone PNone) = Some row
              /\ select_run (activity_id row) (st_db Example.fresh) <> None))
    /\ (o = None ->
        runs (st_db s') = runs (st_db Example.fresh)
        /\ gps_rows (st_db s') = gps_rows (st_db Example.fresh)
        /\ runs_id_seq (st_db s')
           = runs_id_seq (st_db Example.fresh)
             + (if is_some (stored_form Example.one_run
                              (mkRunData "42" (mkDatetime 0 None) None (PInt 0) (PInt 0)
                                         None (PInt 0) PNone PNone))
                then 1 else 0))
    /\ (forall rid,
           o = Some rid ->
           rid = runs_id_seq (st_db Example.fresh)
           /\ exists row,
                stored_form Example.one_run
                  (mkRunData "42" (mkDatetime 0 None) None (PInt 0) (PInt 0) None
                             (PInt 0) PNone PNone) = Some row
                /\ snd (get_activity_by_id (activity_id row) s') = Ok (Some rid)
                /\ st_db s' = mkStore (runs (st_db Example.fresh) ++ [mkRunRow rid row])
                                      (gps_rows (st_db Example.fresh)) (rid + 1)).
Proof.
  apply (insert_run_then_lookup Example.one_run
           (mkRunData "42" (mkDatetime 0 None) None (PInt 0) (PInt 0) None
                      (PInt 0) PNone PNone) Example.fresh).
  reflexivity.
Defined.

Lemma insert_gps_loop_exact run points :
  forall s,
    run_exists run (st_db s) = true ->
    forallb gps_fits points = true ->
    exists tail,
      insert_gps_loop run points s
      = (mkSt (st_log s) (st_client s) (st_logged_in s)
              (with_samples run points (st_db s)) (st_committed s)
              (st_ops s ++ tail), Ok tt)
      /\ Forall (fun op => op = SqlInsertGpsPoint run) tail.
Proof.
  induction points as [|p rest IH]; intros s Hrun Hfit.
  - exists []. unfold with_samples. cbn [map insert_gps_loop ret].
    rewrite !app_nil_r. destruct s as [lg cl li [rs gs n] cm ops]. split; [reflexivity|constructor].
  - cbn [forallb] in Hfit. apply andb_true_iff in Hfit as [Hp Hrest].
    cbn [insert_gps_loop]. unfold bind at 1. cbn [db_execute].
    unfold bind at 1. unfold sql_insert_gps_point.
    cbn [st_db st_committed st_ops st_log st_client st_logged_in].
    fold (run_exists run (st_db s)). rewrite Hrun. cbn [negb].
    fold (gps_fits p). rewrite Hp. cbn [negb].
    match goal with
    | |- context [insert_gps_loop run rest ?s0] =>
        destruct (IH s0) as (tail & Hloop & Htail); [exact Hrun|exact Hrest|];
        rewrite Hloop
    end.
    exists (SqlInsertGpsPoint run :: tail).
    split; [|constructor; [reflexivity|exact Htail]].
    cbn [with_db st_db st_committed st_ops st_log st_client st_logged_in].
    unfold with_samples. cbn [runs gps_rows runs_id_seq map].
    rewrite <- !app_assoc. reflexivity.
Qed.

Lemma insert_gps_loop_fails run points :
  forall s,
    batch_ok run points (st_db s) = false ->
    exists s' e,
      insert_gps_loop run points s = (s', Raise e)
      /\ st_committed s' = st_committed s
      /\ st_log s' = st_log s
      /\ runs_id_seq (st_db s') = runs_id_seq (st_db s)
      /\ exists tail, st_ops s' = (st_ops s ++ tail)%list
                      /\ Forall (fun op => op = SqlInsertGpsPoint run) tail.
Proof.
  induction points as [|p rest IH]; intros s Hbad; [discriminate|].
  cbn [insert_gps_loop]. unfold bind at 1. cbn [db_execute].
  unfold bind at 1. unfold sql_insert_gps_point.
  cbn [st_db st_committed st_ops st_log st_client st_logged_in].
  fold (run_exists run (st_db s)). fold (gps_fits p).
  destruct (run_exists run (st_db s)) eqn:Hrun; cbn [negb].
  2:{ eexists; eexists. split; [reflexivity|]. cbn. repeat split.
      exists [SqlInsertGpsPoint run]. split; [reflexivity|repeat constructor]. }
  destruct (gps_fits p) eqn:Hp; cbn [negb].
  2:{ eexists; eexists. split; [reflexivity|]. cbn. repeat split.
      exists [SqlInsertGpsPoint run]. split; [reflexivity|repeat constructor]. }
  cbn [batch_ok forallb] in Hbad. rewrite Hrun, Hp in Hbad. cbn [andb] in Hbad.
  match goal with
  | |- context [insert_gps_loop run rest ?s0] =>
      destruct (IH s0) as (s' & e & Hloop & Hcm & Hlog & Hseq & tail & Hops & Htail)
  end.
  { destruct rest as [|q rest']; [discriminate Hbad|].
    cbn [batch_ok with_db st_db]. unfold run_exists in *. cbn [runs].
    rewrite Hrun. exact Hbad. }
  rewrite Hloop. exists s', e. split; [reflexivity|].
  cbn [with_db st_db st_committed st_ops st_log st_client st_logged_in] in *.
  repeat split; try assumption.
  exists (SqlInsertGpsPoint run :: tail). rewrite Hops, <- app_assoc.
  split; [reflexivity|constructor; [reflexivity|exact Htail]].
Qed.

Lemma insert_gps_points_exact :
  forall run points s,
    quiescent s ->
    exists s',
      insert_gps_points run points s = (s', Ok tt)
      /\ quiescent s'
      /\ if batch_ok run points (st_db s)
         then st_db s' = with_samples run points (st_db s)
              /\ st_log s'
                 = (st_log s ++ [mkLog INFO (MsgGpsInserted (List.length points) run)])%list
         else st_db s' = st_db s
              /\ exists e, st_log s' = (st_log s ++ [mkLog ERROR (MsgGpsInsertError e)])%list.
Proof.
  intros run points s Hq. unfold quiescent in Hq.
  unfold insert_gps_points, try_except. unfold bind at 1.
  destruct (batch_ok run points (st_db s)) eqn:Hok.
  - assert (Hloop : exists tail,
               insert_gps_loop run points s
               = (mkSt (st_log s) (st_client s) (st_logged_in s)
                       (with_samples run points (st_db s)) (st_committed s)
                       (st_ops s ++ tail), Ok tt)).
    { destruct points as [|p rest].
      - exists []. unfold with_samples. cbn [map insert_gps_loop ret].
        rewrite !app_nil_r. destruct s as [lg cl li [rs gs n] cm ops]. reflexivity.
      - cbn [batch_ok] in Hok. apply andb_true_iff in Hok as [Hrun Hfit].
        destruct (insert_gps_loop_exact run (p :: rest) s Hrun Hfit) as (tail & H & _).
        eauto. }
    destruct Hloop as (tail & ->).
    eexists. split; [reflexivity|]. unfold quiescent. cbn. auto.
  - destruct (insert_gps_loop_fails run points s Hok)
      as (s1 & e & -> & Hcm & Hlog & Hseq & _).
    eexists. split; [reflexivity|]. unfold quiescent. cbn.
    split; [reflexivity|]. split.
    + rewrite Hcm, <- Hq. destruct (st_db s1), (st_db s). cbn in *.
      unfold rolled_back. cbn. congruence.
    + exists e. rewrite Hlog. reflexivity.
Qed.

(** X15.  With no transaction open, [insert_gps_points] never raises and is
    all or nothing: when the run exists and every sample fits its columns
    (or there is no sample) all samples are appended, in order, and
    committed; otherwise the store is as before and one error is logged.
    Rows of [runs] are never touched. *)
Theorem insert_gps_points_all_or_nothing :
  forall run points s,
    quiescent s ->
    exists s',
      insert_gps_points run points s = (s', Ok tt)
      /\ quiescent s'
      /\ if batch_ok run points (st_db s)
         then st_db s' = with_samples run points (st_db s)
              /\ st_log s'
                 = (st_log s ++ [mkLog INFO (MsgGpsInserted (List.length points) run)])%list
         else st_db s' = st_db s
              /\ exists e, st_log s' = (st_log s ++ [mkLog ERROR (MsgGpsInsertError e)])%list.
Proof. exact insert_gps_points_exact. Qed.

Lemma insert_gps_points_all_or_nothing_witness :
  exists s',
    insert_gps_points 7
      [mkGpsPoint (nearest_ratio 95 2) (nearest_ratio 17 2) None None (mkDatetime 0 None);
       mkGpsPoint (nearest_ratio 250 1) (nearest_ratio 17 2) None None (mkDatetime 0 None)]
      Example.fresh = (s', Ok tt)
    /\ quiescent s'
    /\ if batch_ok 7
            [mkGpsPoint (nearest_ratio 95 2) (nearest_ratio 17 2) None None (mkDatetime 0 None);
             mkGpsPoint (nearest_ratio 250 1) (nearest_ratio 17 2) None None (mkDatetime 0 None)]
            (st_db Example.fresh)
       then st_db s'
            = with_samples 7
                [mkGpsPoint (nearest_ratio 95 2) (nearest_ratio 17 2) None None (mkDatetime 0 None);
                 mkGpsPoint (nearest_ratio 250 1) (nearest_ratio 17 2) None None (mkDatetime 0 None)]
                (st_db Example.fresh)
            /\ st_log s'
               = (st_log Example.fresh ++ [mkLog INFO (MsgGpsInserted 2 7)])%list
       else st_db s' = st_db Example.fresh
            /\ exists e, st_log s'
                         = (st_log Example.fresh
                              ++ [mkLog ERROR (MsgGpsInsertError e)])%list.
Proof.
  apply (insert_gps_points_all_or_nothing 7
           [mkGpsPoint (nearest_ratio 95 2) (nearest_ratio 17 2) None None (mkDatetime 0 None);
            mkGpsPoint (nearest_ratio 250 1) (nearest_ratio 17 2) None None (mkDatetime 0 None)]
           Example.fresh).
  reflexivity.
Defined.

(* --------------------------------------------------------------------- *)
(** ** What [main] does to the store *)
(* --------------------------------------------------------------------- *)

Lemma find_some_existsb {A} (f : A -> bool) (l : list A) x :
  find f l = Some x -> existsb f l = true.
Proof.
  induction l as [|y l IH]; cbn [find existsb]; [discriminate|].
  destruct (f y); [reflexivity|exact IH].
Qed.

Lemma with_samples_nil run db : with_samples run [] db = db.
Proof. unfold with_samples. cbn [map]. rewrite app_nil_r. destruct db; reflexivity. Qed.

Lemma run_exists_appended rs gs n d :
  run_exists n (mkStore (rs ++ [mkRunRow n d]) gs (n + 1)) = true.
Proof.
  unfold run_exists. cbn [runs]. rewrite existsb_app. cbn [existsb row_id].
  rewrite Z.eqb_refl. apply orb_true_iff. right. reflexivity.
Qed.

Section StoreEvolution.

Variable E : Env.

(** The persistence steps compute [persist]. *)
Lemma after_fetch_persists a s :
  quiescent s ->
  exists s' tail,
    after_fetch E (Some a) s = (s', Ok tt)
    /\ quiescent s'
    /\ st_db s' = persist E a (st_db s)
    /\ st_ops s' = (st_ops s ++ tail)%list.
Proof.
  intros Hq.
  set (id := activity_id (run_data a)).
  unfold after_fetch, persist. fold id.
  rewrite (bind_eq _ _ _ _ _ (get_activity_by_id_runs id s)).
  unfold select_run.
  destruct (find (has_activity id) (runs (st_db s))) as [row0|] eqn:Hfind.
  - rewrite (find_some_existsb _ _ _ Hfind).
    eexists; exists [SqlSelectRun id]. split; [reflexivity|]. cbn. auto.
  - rewrite (find_existsb _ _ Hfind).
    destruct (insert_run_spec E (run_data a) (executed s (SqlSelectRun id)) Hq)
      as (s1 & o & op & Hrun & Hq1 & Hops1 & _ & Hcase).
    cbn [executed st_db st_ops] in Hops1, Hcase. fold id in Hops1.
    rewrite (bind_eq _ _ _ _ _ Hrun).
    assert (Hplain : forall db,
               st_db s1 = db ->
               exists s' tail,
                 (ret tt ;; logging INFO MsgSyncCompleted) s1 = (s', Ok tt)
                 /\ quiescent s' /\ st_db s' = db
                 /\ st_ops s' = (st_ops s ++ tail)%list).
    { intros db Hdb. eexists; exists [SqlSelectRun id; SqlInsertRun id; op].
      split; [reflexivity|]. cbn. rewrite Hops1, <- app_assoc. auto. }
    destruct (stored_form E (run_data a)) as [row|].
    2:{ destruct Hcase as [-> Hdb]. destruct (gps_points a); apply Hplain; exact Hdb. }
    destruct (existsb (has_activity (activity_id row)) (runs (st_db s))).
    { destruct Hcase as [-> Hdb]. destruct (gps_points a); apply Hplain; exact Hdb. }
    destruct Hcase as [-> Hdb].
    set (run := runs_id_seq (st_db s)) in *.
    set (db1 := mkStore (runs (st_db s) ++ [mkRunRow run row])
                        (gps_rows (st_db s)) (run + 1)) in *.
    destruct (gps_points a) as [|p ps] eqn:Hpts.
    { cbn [forallb negb]. rewrite orb_false_r.
      destruct (run =? 0); [apply Hplain; exact Hdb|].
      rewrite with_samples_nil. apply Hplain. exact Hdb. }
    destruct (run =? 0) eqn:Hzero; cbn [orb]; [apply Hplain; exact Hdb|].
    destruct (insert_gps_points_exact run (p :: ps) s1 Hq1) as (s2 & Hgps & Hq2 & Hbatch).
    destruct (insert_gps_points_spec run (p :: ps) s1 Hq1)
      as (s2' & tail & Hgps' & _ & _ & Hops2 & _).
    rewrite Hgps in Hgps'. injection Hgps' as <-.
    assert (Hin : (insert_gps_points run (p :: ps) ;;
                   logging INFO (MsgStoredGps (List.length (p :: ps)))) s1
                  = (logged s2 INFO (MsgStoredGps (List.length (p :: ps))), Ok tt)).
    { rewrite (bind_eq _ _ _ _ _ Hgps). reflexivity. }
    eexists; exists ([SqlSelectRun id; SqlInsertRun id; op] ++ tail)%list.
    split; [rewrite (bind_eq _ _ _ _ _ Hin); reflexivity|].
    cbn [logging logged st_db st_committed st_ops].
    split; [exact Hq2|].
    split.
    + rewrite Hdb in Hbatch. cbn [batch_ok] in Hbatch.
      unfold db1 in Hbatch at 1. rewrite run_exists_appended in Hbatch.
      cbn [andb] in Hbatch.
      destruct (forallb gps_fits (p :: ps)); cbn [negb]; tauto.
    + rewrite Hops2, Hops1, <- !app_assoc. reflexivity.
Qed.

Lemma connect_exact s :
  exists s', connect E s = (s', Ok (is_ok (db_connects E)))
             /\ st_db s' = st_db s /\ st_committed s' = st_committed s
             /\ st_ops s' = st_ops s.
Proof.
  unfold connect, try_except, bind, lift, logging, ret.
  destruct (db_connects E); eexists; (split; [reflexivity|]); cbn; auto.
Qed.

(** The [try] block of [main] under its handler, as to the store. *)
Lemma main_try_store s :
  quiescent s ->
  exists s' body,
    try_except (main_try E) (fun e => logging ERROR (MsgSyncFailed e)) s = (s', Ok tt)
    /\ quiescent s'
    /\ st_ops s' = (st_ops s ++ body)%list
    /\ (st_db s' = st_db s
        \/ exists s1 s2 a,
             get_latest_run E s1 = (s2, Ok (Some a))
             /\ st_db s' = persist E a (st_db s)).
Proof.
  intros Hq. unfold quiescent in Hq.
  rewrite main_try_unfold. unfold try_except.
  destruct (login_total E s) as (s1 & ok & Hlogin).
  destruct (keeps_db_at _ _ _ _ (keeps_db_login E) Hlogin) as (Hdb1 & Hcm1 & Hops1).
  rewrite (bind_eq _ _ _ _ _ Hlogin).
  destruct ok; cbn [negb].
  2:{ eexists; exists []. split; [reflexivity|]. unfold quiescent. cbn.
      rewrite app_nil_r. repeat split; try congruence. left. congruence. }
  destruct (get_latest_run E s1) as [s2 r] eqn:Hfetch.
  destruct (keeps_db_at _ _ _ _ (keeps_db_get_latest_run E) Hfetch) as (Hdb2 & Hcm2 & Hops2).
  destruct r as [latest|e].
  2:{ rewrite (bind_raise _ _ _ _ _ Hfetch).
      eexists; exists []. split; [reflexivity|]. unfold quiescent. cbn.
      rewrite app_nil_r. repeat split; try congruence. left. congruence. }
  rewrite (bind_eq _ _ _ _ _ Hfetch).
  destruct latest as [a|].
  2:{ eexists; exists []. split; [reflexivity|]. unfold quiescent. cbn.
      rewrite app_nil_r. repeat split; try congruence. left. congruence. }
  assert (Hq2 : quiescent s2) by (unfold quiescent; congruence).
  destruct (after_fetch_persists a s2 Hq2) as (s3 & tail & Hrun & Hq3 & Hdb3 & Hops3).
  rewrite Hrun. exists s3, tail. split; [reflexivity|]. split; [exact Hq3|].
  split; [congruence|].
  right. exists s1, s2, a. split; [exact Hfetch|]. congruence.
Qed.

(** A whole run of [main], as to its statements and the store. *)
Lemma main_run s :
  quiescent s ->
  exists s',
    main E s = (s', Ok tt)
    /\ quiescent s'
    /\ (if ready E then
          exists body,
            st_ops s' = (st_ops s ++ [SqlCreateRuns; SqlCreateGpsPoints; SqlCommit]
                           ++ body ++ [SqlClose])%list
        else st_ops s' = st_ops s /\ st_db s' = st_db s)
    /\ (st_db s' = st_db s
        \/ exists s1 s2 a,
             get_latest_run E s1 = (s2, Ok (Some a))
             /\ st_db s' = persist E a (st_db s)).
Proof.
  intros Hq. unfold quiescent in Hq. unfold main, ready.
  rewrite (bind_eq _ _ _ _ _ (eq_refl : logging INFO MsgSyncStarting s
                                        = (logged s INFO MsgSyncStarting, Ok tt))).
  destruct (str_truthy (GARMIN_EMAIL E)); cbn [negb orb andb].
  2:{ eexists. split; [reflexivity|]. unfold quiescent. cbn. auto. }
  destruct (str_truthy (GARMIN_PASSWORD E)); cbn [negb orb andb].
  2:{ eexists. split; [reflexivity|]. unfold quiescent. cbn. auto. }
  destruct (connect_exact (logged s INFO MsgSyncStarting))
    as (s1 & Hconn & Hdb1 & Hcm1 & Hops1).
  cbn [logged st_db st_committed st_ops] in Hdb1, Hcm1, Hops1.
  rewrite (bind_eq _ _ _ _ _ Hconn).
  destruct (is_ok (db_connects E)); cbn [negb].
  2:{ eexists. split; [reflexivity|]. unfold quiescent. cbn.
      repeat split; try congruence. left. congruence. }
  destruct (create_tables_runs s1) as (s2 & Htab & Hdb2 & Hcm2 & Hops2).
  rewrite (bind_eq _ _ _ _ _ Htab).
  rewrite (bind_eq _ _ _ _ _ (eq_refl : garmin_init s2
            = (mkSt (st_log s2) false false (st_db s2) (st_committed s2) (st_ops s2), Ok tt))).
  set (s3 := mkSt (st_log s2) false false (st_db s2) (st_committed s2) (st_ops s2)).
  assert (Hq3 : quiescent s3) by (unfold quiescent, s3; cbn; congruence).
  destruct (main_try_store s3 Hq3) as (s4 & body & Hrun & Hq4 & Hops4 & Hcase).
  unfold try_finally. rewrite Hrun, close_runs.
  eexists. split; [reflexivity|]. unfold quiescent. cbn [st_db st_committed st_ops].
  split; [reflexivity|].
  rewrite (rolled_back_quiescent s4 Hq4).
  assert (Hdb3 : st_db s3 = st_db s) by (unfold s3; cbn; congruence).
  assert (Hops3 : st_ops s3 = (st_ops s ++ [SqlCreateRuns; SqlCreateGpsPoints; SqlCommit])%list)
    by (unfold s3; cbn; congruence).
  split.
  - exists body. rewrite Hops4, Hops3, <- !app_assoc. reflexivity.
  - rewrite <- Hdb3. exact Hcase.
Qed.

End StoreEvolution.

(** X16.  With no transaction open, the steps of [main] that follow the
    fetch of an activity never raise and leave the store exactly as
    [persist] describes: unchanged when the identifier is stored already or
    the table does not accept the values; else with the new row and either
    all of the samples (when each fits its columns) or none of them.
    Everything is committed. *)
Theorem persistence_steps_compute_persist :
  forall E a s,
    quiescent s ->
    exists s',
      after_fetch E (Some a) s = (s', Ok tt)
      /\ st_db s' = persist E a (st_db s)
      /\ st_committed s' = persist E a (st_db s).
Proof.
  intros E a s Hq.
  destruct (after_fetch_persists E a s Hq) as (s' & tail & Hrun & Hq' & Hdb & _).
  exists s'. unfold quiescent in Hq'. repeat split; congruence.
Qed.

Lemma persistence_steps_compute_persist_witness :
  exists s',
    after_fetch Example.one_run
      (Some (mkActivityData
               (mkRunData "42" (mkDatetime 0 None) None (PInt 0) (PInt 0) None
                          (PInt 0) PNone PNone)
               [mkGpsPoint (nearest_ratio 95 2) (nearest_ratio 17 2) None None (mkDatetime 0 None)]))
      Example.fresh = (s', Ok tt)
    /\ st_db s'
       = persist Example.one_run
           (mkActivityData
              (mkRunData "42" (mkDatetime 0 None) None (PInt 0) (PInt 0) None
                         (PInt 0) PNone PNone)
              [mkGpsPoint (nearest_ratio 95 2) (nearest_ratio 17 2) None None (mkDatetime 0 None)])
           (st_db Example.fresh)
    /\ st_committed s'
       = persist Example.one_run
           (mkActivityData
              (mkRunData "42" (mkDatetime 0 None) None (PInt 0) (PInt 0) None
                         (PInt 0) PNone PNone)
              [mkGpsPoint (nearest_ratio 95 2) (nearest_ratio 17 2) None None (mkDatetime 0 None)])
           (st_db Example.fresh).
Proof.
  apply persistence_steps_compute_persist. reflexivity.
Defined.

(** The shape of [persist]: the rows as they were, or one more row with all
    of the samples or none. *)
Lemma persist_shape E a db :
  (runs (persist E a db) = runs db
   /\ gps_rows (persist E a db) = gps_rows db
   /\ runs_id_seq db <= runs_id_seq (persist E a db))
  \/ (exists row samples,
         stored_form E (run_data a) = Some row
         /\ existsb (has_activity (activity_id row)) (runs db) = false
         /\ persist E a db
            = mkStore (runs db ++ [mkRunRow (runs_id_seq db) row])
                      (gps_rows db ++ map (mkGpsRow (runs_id_seq db)) samples)
                      (runs_id_seq db + 1)
         /\ (samples = [] \/ samples = gps_points a)).
Proof.
  unfold persist.
  destruct (existsb (has_activity (activity_id (run_data a))) (runs db));
    [left; repeat split; lia|].
  destruct (stored_form E (run_data a)) as [row|]; [|left; repeat split; lia].
  cbv zeta.
  destruct (existsb (has_activity (activity_id row)) (runs db)) eqn:Hex;
    [left; cbn; repeat split; lia|].
  right. exists row.
  destruct ((runs_id_seq db =? 0) || negb (forallb gps_fits (gps_points a))).
  - exists []. cbn [map]. rewrite app_nil_r. auto.
  - exists (gps_points a). unfold with_samples. cbn [runs gps_rows runs_id_seq]. auto.
Qed.

Lemma persist_sound E a db : store_sound db -> store_sound (persist E a db).
Proof.
  intros ((Huniq & Hbelow & Howned) & Hnodup).
  destruct (persist_shape E a db)
    as [(Hr & Hg & Hs) | (row & samples & _ & Hex & -> & Hsamples)].
  { repeat split.
    - exact (unique_ids_rows _ _ Hr Huniq).
    - intros r Hin. rewrite Hr in Hin. specialize (Hbelow r Hin). lia.
    - intros g Hin. rewrite Hg in Hin. specialize (Howned g Hin).
      unfold run_exists in *. rewrite Hr. exact Howned.
    - unfold unique_row_ids in *. rewrite Hr. exact Hnodup. }
  set (run := runs_id_seq db).
  assert (Hrun : forall n gs m,
             run_exists n db = true ->
             run_exists n (mkStore (runs db ++ [mkRunRow run row]) gs m) = true).
  { intros n gs m H. unfold run_exists in *. cbn [runs]. rewrite existsb_app, H.
    reflexivity. }
  repeat split.
  - destruct db as [rs gs n]. cbn [runs gps_rows runs_id_seq] in *.
    exact (unique_ids_append rs gs n _ _ (mkRunRow n row) Huniq Hex).
  - intros r Hr. cbn [runs runs_id_seq] in *. apply in_app_or in Hr.
    destruct Hr as [Hr|[<-|[]]].
    + specialize (Hbelow r Hr). fold run in Hbelow. lia.
    + cbn [row_id]. lia.
  - intros g Hg. cbn [gps_rows] in Hg. apply in_app_or in Hg.
    destruct Hg as [Hg|Hg].
    + apply Hrun. apply Howned. exact Hg.
    + apply in_map_iff in Hg. destruct Hg as (p & <- & _). cbn [gps_run_id].
      apply run_exists_appended.
  - unfold unique_row_ids in *. cbn [runs]. rewrite map_app. cbn [map row_id].
    apply NoDup_app; [exact Hnodup|repeat constructor; intros []|].
    intros n Hn [<-|[]]. apply in_map_iff in Hn. destruct Hn as (r & Hr & Hin).
    specialize (Hbelow r Hin). fold run in Hbelow. lia.
Qed.

(** X17.  A run of [main] that starts with no transaction open ends with
    none open, and the committed store is then either the store it started
    from or [persist a] of it for an activity [a] that [get_latest_run]
    returned: no other change reaches the tables. *)
Theorem main_store_evolution :
  forall E s,
    quiescent s ->
    snd (main E s) = Ok tt
    /\ st_committed (after_main E s) = st_db (after_main E s)
    /\ (st_db (after_main E s) = st_db s
        \/ exists s1 s2 a,
             get_latest_run E s1 = (s2, Ok (Some a))
             /\ st_db (after_main E s) = persist E a (st_db s)).
Proof.
  intros E s Hq.
  destruct (main_run E s Hq) as (s' & Hrun & Hq' & _ & Hcase).
  unfold after_main. rewrite Hrun. cbn [fst snd]. unfold quiescent in Hq'. auto.
Qed.

Lemma main_store_evolution_witness :
  snd (main Example.one_run Example.fresh) = Ok tt
  /\ st_committed (after_main Example.one_run Example.fresh)
     = st_db (after_main Example.one_run Example.fresh)
  /\ (st_db (after_main Example.one_run Example.fresh) = st_db Example.fresh
      \/ exists s1 s2 a,
           get_latest_run Example.one_run s1 = (s2, Ok (Some a))
           /\ st_db (after_main Example.one_run Example.fresh)
              = persist Example.one_run a (st_db Example.fresh)).
Proof.
  apply main_store_evolution. reflexivity.
Defined.

(** X18.  [main] keeps the constraints of the schema: if external
    identifiers are unique, serial ids are distinct and below the sequence,
    and every sample belongs to a stored run before the run, the same holds
    after it. *)
Theorem main_keeps_store_sound :
  forall E s,
    quiescent s ->
    store_sound (st_db s) ->
    store_sound (st_db (after_main E s)).
Proof.
  intros E s Hq Hok.
  destruct (main_run E s Hq) as (s' & Hrun & _ & _ & Hcase).
  unfold after_main. rewrite Hrun. cbn [fst].
  destruct Hcase as [-> | (s1 & s2 & a & _ & ->)]; [exact Hok|].
  apply persist_sound. exact Hok.
Qed.

Lemma main_keeps_store_sound_witness :
  store_sound (st_db (after_main Example.one_run Example.fresh)).
Proof.
  apply main_keeps_store_sound.
  - reflexivity.
  - repeat split.
    + intros id. cbn. lia.
    + intros r [].
    + intros g [].
    + constructor.
Defined.

(** X19.  [main] only appends: the rows it finds are all still there, in
    place and unchanged, after the run; it adds at most one row to [runs],
    and every sample it adds belongs to that row. *)
Theorem main_only_appends :
  forall E s,
    quiescent s ->
    exists new_runs new_samples,
      runs (st_db (after_main E s)) = (runs (st_db s) ++ new_runs)%list
      /\ gps_rows (st_db (after_main E s)) = (gps_rows (st_db s) ++ new_samples)%list
      /\ (List.length new_runs <= 1)%nat
      /\ (forall g, In g new_samples ->
                    exists r, In r new_runs /\ gps_run_id g = row_id r).
Proof.
  intros E s Hq.
  destruct (main_run E s Hq) as (s' & Hrun & _ & _ & Hcase).
  unfold after_main. rewrite Hrun. cbn [fst].
  assert (Hsame : exists new_runs new_samples,
             runs (st_db s) = (runs (st_db s) ++ new_runs)%list
             /\ gps_rows (st_db s) = (gps_rows (st_db s) ++ new_samples)%list
             /\ (List.length new_runs <= 1)%nat
             /\ (forall g, In g new_samples ->
                           exists r, In r new_runs /\ gps_run_id g = row_id r)).
  { exists [], []. rewrite !app_nil_r. repeat split; auto. intros g []. }
  destruct Hcase as [-> | (s1 & s2 & a & _ & ->)]; [exact Hsame|].
  destruct (persist_shape E a (st_db s))
    as [(Hr & Hg & _) | (row & samples & _ & _ & -> & _)].
  { rewrite Hr, Hg. destruct Hsame as (nr & ns & _ & _ & Hlen & Hown).
    exists [], []. rewrite !app_nil_r. repeat split; auto. intros g []. }
  exists [mkRunRow (runs_id_seq (st_db s)) row],
         (map (mkGpsRow (runs_id_seq (st_db s))) samples).
  cbn [runs gps_rows]. repeat split; auto.
  intros g Hg. apply in_map_iff in Hg. destruct Hg as (p & <- & _).
  eexists. split; [left; reflexivity|reflexivity].
Qed.

Lemma main_only_appends_witness :
  exists new_runs new_samples,
    runs (st_db (after_main Example.one_run Example.fresh))
    = (runs (st_db Example.fresh) ++ new_runs)%list
    /\ gps_rows (st_db (after_main Example.one_run Example.fresh))
       = (gps_rows (st_db Example.fresh) ++ new_samples)%list
    /\ (List.length new_runs <= 1)%nat
    /\ (forall g, In g new_samples ->
                  exists r, In r new_runs /\ gps_run_id g = row_id r).
Proof.
  apply main_only_appends. reflexivity.
Defined.

(** X20.  Every run of [main] that starts with no transaction open ends
    normally.  Without credentials or without a database connection it
    issues no statement at all; otherwise its statements begin with the two
    table creations and their commit and end with the closing of the
    connection, whatever happens in between. *)
Theorem main_brackets_its_statements :
  forall E s,
    quiescent s ->
    snd (main E s) = Ok tt
    /\ if ready E then
         exists body,
           statements E s
           = ([SqlCreateRuns; SqlCreateGpsPoints; SqlCommit] ++ body ++ [SqlClose])%list
       else statements E s = [] /\ st_db (after_main E s) = st_db s.
Proof.
  intros E s Hq.
  destruct (main_run E s Hq) as (s' & Hrun & _ & Hops & _).
  rewrite Hrun. split; [reflexivity|].
  destruct (ready E).
  - destruct Hops as (body & Hops). exists body.
    apply (statements_eq E s s' _ Hrun Hops).
  - destruct Hops as [Hops Hdb]. split.
    + apply (statements_eq E s s' [] Hrun). rewrite app_nil_r. exact Hops.
    + unfold after_main. rewrite Hrun. exact Hdb.
Qed.

Lemma main_brackets_its_statements_witness :
  snd (main Example.one_run Example.fresh) = Ok tt
  /\ if ready Example.one_run then
       exists body,
         statements Example.one_run Example.fresh
         = ([SqlCreateRuns; SqlCreateGpsPoints; SqlCommit] ++ body ++ [SqlClose])%list
     else statements Example.one_run Example.fresh = []
          /\ st_db (after_main Example.one_run Example.fresh) = st_db Example.fresh.
Proof.
  apply main_brackets_its_statements. reflexivity.
Defined.

Lemma insert_run_exact_success E d row s :
  stored_form E d = Some row ->
  existsb (has_activity (activity_id row)) (runs (st_db s)) = false ->
  insert_run E d s
  = (mkSt (st_log s ++ [mkLog INFO (MsgRunInserted (runs_id_seq (st_db s)))])
          (st_client s) (st_logged_in s)
          (mkStore (runs (st_db s) ++ [mkRunRow (runs_id_seq (st_db s)) row])
                   (gps_rows (st_db s)) (runs_id_seq (st_db s) + 1))
          (mkStore (runs (st_db s) ++ [mkRunRow (runs_id_seq (st_db s)) row])
                   (gps_rows (st_db s)) (runs_id_seq (st_db s) + 1))
          (st_ops s ++ [SqlInsertRun (activity_id d); SqlCommit]),
     Ok (Some (runs_id_seq (st_db s)))).
Proof.
  intros Hform Hex.
  unfold insert_run, try_except, bind, db_execute, sql_insert_run, db_commit,
    logging, ret, with_db.
  cbn [st_db st_committed st_ops st_log st_client st_logged_in].
  rewrite Hform, Hex. cbn [st_db st_committed st_ops st_log st_client st_logged_in].
  rewrite <- app_assoc. reflexivity.
Qed.

(** X21.  When the table accepts the row of a new activity but one of its
    samples does not fit its columns, the run row stays committed with none
    of the samples, the failure of the batch is logged as an error, and the
    run nevertheless goes on to log the number of samples as stored and the
    sync as completed. *)
Theorem failed_batch_keeps_run_row :
  forall E a row s,
    quiescent s ->
    select_run (activity_id (run_data a)) (st_db s) = None ->
    stored_form E (run_data a) = Some row ->
    select_run (activity_id row) (st_db s) = None ->
    runs_id_seq (st_db s) <> 0 ->
    forallb gps_fits (gps_points a) = false ->
    exists s' e,
      after_fetch E (Some a) s = (s', Ok tt)
      /\ st_committed s'
         = mkStore (runs (st_db s) ++ [mkRunRow (runs_id_seq (st_db s)) row])
                   (gps_rows (st_db s)) (runs_id_seq (st_db s) + 1)
      /\ st_log s'
         = (st_log s
              ++ [mkLog INFO (MsgRunInserted (runs_id_seq (st_db s)));
                  mkLog ERROR (MsgGpsInsertError e);
                  mkLog INFO (MsgStoredGps (List.length (gps_points a)));
                  mkLog INFO MsgSyncCompleted])%list.
Proof.
  intros E a row s Hq Hsel Hform Hsel' Hseq Hfit.
  destruct (select_run_none _ _ Hsel') as [Hex _].
  unfold after_fetch.
  rewrite (bind_eq _ _ _ _ _ (get_activity_by_id_runs _ s)). rewrite Hsel.
  rewrite (bind_eq _ _ _ _ _
             (insert_run_exact_success E (run_data a) row
                (executed s (SqlSelectRun (activity_id (run_data a)))) Hform Hex)).
  cbn [executed st_db st_committed st_ops st_log st_client st_logged_in].
  destruct (gps_points a) as [|p ps] eqn:Hpts; [discriminate Hfit|].
  destruct (Z.eqb_spec (runs_id_seq (st_db s)) 0) as [|_]; [contradiction|].
  set (run := runs_id_seq (st_db s)) in *.
  set (db1 := mkStore (runs (st_db s) ++ [mkRunRow run row])
                      (gps_rows (st_db s)) (run + 1)).
  match goal with
  | |- context [insert_gps_points run (p :: ps) ;; _] =>
      match goal with
      | |- exists s' e, bind (bind _ ?k) _ ?s1 = _ /\ _ =>
          destruct (insert_gps_points_exact run (p :: ps) s1 eq_refl)
            as (s2 & Hgps & Hq2 & Hbatch);
          assert (Hin : bind (insert_gps_points run (p :: ps)) k s1
                        = (logged s2 INFO (MsgStoredGps (List.length (p :: ps))), Ok tt))
            by (rewrite (bind_eq _ _ _ _ _ Hgps); reflexivity)
      end
  end.
  cbn [st_db] in Hbatch. cbn [batch_ok] in Hbatch. fold db1 in Hbatch.
  unfold db1 in Hbatch at 1. rewrite run_exists_appended, Hfit in Hbatch.
  cbn [andb] in Hbatch. destruct Hbatch as (Hdb2 & e & Hlog2).
  exists (logged (logged s2 INFO (MsgStoredGps (List.length (p :: ps))))
                 INFO MsgSyncCompleted), e.
  split; [rewrite (bind_eq _ _ _ _ _ Hin); reflexivity|].
  unfold quiescent in Hq2. cbn [logged st_committed st_log].
  split; [rewrite <- Hq2, Hdb2; reflexivity|].
  rewrite Hlog2. cbn [st_log]. rewrite <- !app_assoc. reflexivity.
Qed.

Lemma failed_batch_keeps_run_row_witness :
  exists s' e,
    after_fetch Example.one_run
      (Some (mkActivityData
               (mkRunData "42" (mkDatetime 0 None) None (PInt 0) (PInt 0) None
                          (PInt 0) PNone PNone)
               [mkGpsPoint (nearest_ratio 250 1) (nearest_ratio 17 2) None None (mkDatetime 0 None)]))
      Example.fresh = (s', Ok tt)
    /\ st_committed s'
       = mkStore (runs (st_db Example.fresh)
                    ++ [mkRunRow (runs_id_seq (st_db Example.fresh))
                                 (mkRunData "42" (mkDatetime 0 None) None (PInt 0)
                                            (PInt 0) None (PInt 0) PNone PNone)])
                 (gps_rows (st_db Example.fresh)) (runs_id_seq (st_db Example.fresh) + 1)
    /\ st_log s'
       = (st_log Example.fresh
            ++ [mkLog INFO (MsgRunInserted (runs_id_seq (st_db Example.fresh)));
                mkLog ERROR (MsgGpsInsertError e);
                mkLog INFO (MsgStoredGps 1);
                mkLog INFO MsgSyncCompleted])%list.
Proof.
  apply (failed_batch_keeps_run_row Example.one_run
           (mkActivityData
              (mkRunData "42" (mkDatetime 0 None) None (PInt 0) (PInt 0) None
                         (PInt 0) PNone PNone)
              [mkGpsPoint (nearest_ratio 250 1) (nearest_ratio 17 2) None None (mkDatetime 0 None)])
           (mkRunData "42" (mkDatetime 0 None) None (PInt 0) (PInt 0) None
                      (PInt 0) PNone PNone)
           Example.fresh).
  - reflexivity.
  - reflexivity.
  - reflexivity.
  - reflexivity.
  - discriminate.
  - vm_compute. reflexivity.
Defined.

(* --------------------------------------------------------------------- *)
(** ** Further edge behaviour *)
(* --------------------------------------------------------------------- *)


(** X23.  [get_latest_run] tests every listed activity before it selects
    one: a single entry that is not a mapping, or whose true [activityType]
    is not a mapping, makes it return nothing (one error logged), wherever
    the entry stands and whatever runs the listing holds. *)
Theorem get_latest_run_one_bad_entry :
  forall E s activities a,
    st_logged_in s = true -> st_client s = true ->
    client_get_activities E 0 100 = Ok activities ->
    In a activities -> listable a = false ->
    get_latest_run E s
    = (logged (logged s INFO (MsgFoundTotal (List.length activities)))
              ERROR (MsgLatestRunError AttributeError), Ok None).
Proof.
  intros E s activities a Hin Hcl Hacts Ha Hbad.
  rewrite (get_latest_run_steps E s Hin Hcl), Hacts. cbv zeta.
  rewrite filter_running_spec.
  assert (Hall : forallb listable activities = false).
  { destruct (forallb listable activities) eqn:Hf; [|reflexivity].
    rewrite forallb_forall in Hf. rewrite (Hf a Ha) in Hbad. discriminate. }
  rewrite Hall. reflexivity.
Qed.

Lemma get_latest_run_one_bad_entry_witness :
  get_latest_run (Example.env [PDict Example.run_42; PNone] (Ok "")) Example.logged_in
  = (logged (logged Example.logged_in INFO (MsgFoundTotal 2))
            ERROR (MsgLatestRunError AttributeError), Ok None).
Proof.
  apply (get_latest_run_one_bad_entry
           (Example.env [PDict Example.run_42; PNone] (Ok "")) Example.logged_in
           [PDict Example.run_42; PNone] PNone); try reflexivity.
  right. left. reflexivity.
Defined.

(** X24.  When credentials are configured and the database connects but the
    login is refused, [main] has already created the tables: its statements
    are the two creations, their commit and the close, and the store is
    left as it was. *)
Theorem main_refused_login :
  forall E s,
    quiescent s ->
    ready E = true ->
    is_ok (client_login E) = false ->
    statements E s = [SqlCreateRuns; SqlCreateGpsPoints; SqlCommit; SqlClose]
    /\ st_db (after_main E s) = st_db s
    /\ st_committed (after_main E s) = st_db s.
Proof.
  intros E s Hq Hready Hlogin. unfold quiescent in Hq.
  unfold ready in Hready.
  apply andb_true_iff in Hready as [Hcred Hconn].
  apply andb_true_iff in Hcred as [Hmail Hpass].
  assert (Hrun : exists s',
             main E s = (s', Ok tt)
             /\ st_ops s' = (st_ops s ++ [SqlCreateRuns; SqlCreateGpsPoints;
                                          SqlCommit; SqlClose])%list
             /\ st_db s' = st_db s /\ st_committed s' = st_db s).
  { unfold main.
    rewrite (bind_eq _ _ _ _ _ (eq_refl : logging INFO MsgSyncStarting s
                                          = (logged s INFO MsgSyncStarting, Ok tt))).
    rewrite Hmail, Hpass. cbn [negb orb].
    destruct (connect_exact E (logged s INFO MsgSyncStarting))
      as (s1 & Hc & Hdb1 & Hcm1 & Hops1).
    cbn [logged st_db st_committed st_ops] in Hdb1, Hcm1, Hops1.
    rewrite (bind_eq _ _ _ _ _ Hc), Hconn. cbn [negb].
    destruct (create_tables_runs s1) as (s2 & Htab & Hdb2 & Hcm2 & Hops2).
    rewrite (bind_eq _ _ _ _ _ Htab).
    rewrite (bind_eq _ _ _ _ _ (eq_refl : garmin_init s2
              = (mkSt (st_log s2) false false (st_db s2) (st_committed s2) (st_ops s2),
                 Ok tt))).
    set (s3 := mkSt (st_log s2) false false (st_db s2) (st_committed s2) (st_ops s2)).
    destruct (proj1 (failed_login_blocks_queries_core E s3)) as (s4 & Hl & _ & _).
    destruct (keeps_db_at _ _ _ _ (keeps_db_login E) Hl) as (Hdb4 & Hcm4 & Hops4).
    rewrite Hlogin in Hl.
    unfold try_finally, try_except. rewrite main_try_unfold.
    rewrite (bind_eq _ _ _ _ _ Hl). cbn [negb]. cbn [logging]. rewrite close_runs.
    eexists. split; [reflexivity|].
    unfold rolled_back. cbn [st_ops st_db st_committed]. unfold s3 in *.
    cbn [st_ops st_db st_committed] in *.
    rewrite Hops4, Hops2, Hops1, Hcm4, Hcm2, Hdb4, Hdb2, Hdb1, <- app_assoc.
    destruct (st_db s). auto. }
  destruct Hrun as (s' & Hmain & Hops & Hdb & Hcm).
  split; [apply (statements_eq E s s' _ Hmain Hops)|].
  unfold after_main. rewrite Hmain. auto.
Qed.

Lemma main_refused_login_witness :
  statements
    (mkEnv Example.noon Example.iso_parse Example.float_parse (fun _ => "<object>")
           Example.xml_read Example.int_in (fun _ => false)
           (Some "runner@example.org") (Some "wrong")
           (Ok tt) (Raise (ServiceError "401"))
           (fun _ _ => Ok [PDict Example.run_42]) (fun _ => Ok (PDict []))
           (fun _ => Ok ""))
    Example.fresh
  = [SqlCreateRuns; SqlCreateGpsPoints; SqlCommit; SqlClose]
  /\ st_db (after_main
              (mkEnv Example.noon Example.iso_parse Example.float_parse
                     (fun _ => "<object>")
                     Example.xml_read Example.int_in (fun _ => false)
           (Some "runner@example.org") (Some "wrong")
                     (Ok tt) (Raise (ServiceError "401"))
                     (fun _ _ => Ok [PDict Example.run_42]) (fun _ => Ok (PDict []))
                     (fun _ => Ok ""))
              Example.fresh) = st_db Example.fresh
  /\ st_committed (after_main
                     (mkEnv Example.noon Example.iso_parse Example.float_parse
                            (fun _ => "<object>")
                            Example.xml_read Example.int_in (fun _ => false)
           (Some "runner@example.org") (Some "wrong")
                            (Ok tt) (Raise (ServiceError "401"))
                            (fun _ _ => Ok [PDict Example.run_42])
                            (fun _ => Ok (PDict [])) (fun _ => Ok ""))
                     Example.fresh) = st_db Example.fresh.
Proof.
  apply main_refused_login; reflexivity.
Defined.
